(** * InfraWallet cost clients: AWS, Azure and MongoDB Atlas

    A shallow embedding of the three provider clients of the InfraWallet
    backend ([AwsClient.ts], [AzureClient.ts], [MongoAtlasClient.ts]) and the
    properties of their fetch and transform steps.

    Conventions of the embedding.
    - Text is a [string] of bytes; [trim], [toUpperCase] and the white space
      test cover the ASCII range.
    - A JavaScript number is a binary64 [float] (the kernel's primitive
      floats); [parseFloat], [parseInt] and [Number_toString] are the
      ECMAScript algorithms, with correctly rounded decimal conversion.
    - An object used as a dictionary is an association list in insertion
      order, [dict]; its keys are unique. The members every object inherits
      from [Object.prototype] are written out where a key built by the code
      can reach them.
    - A function that can throw returns a [result]. *)

From Stdlib Require Import ZArith String Ascii List Bool Lia.
From Stdlib Require Import DecimalString.
From Stdlib Require Import PrimFloat SpecFloat FloatOps.
From Stdlib Require Import Sorted Permutation.
Import ListNotations.

Local Open Scope string_scope.
Local Open Scope Z_scope.

Set Warnings "-register-all".

(** ** Strings *)

Module Str.

(** [String.prototype.startsWith]. *)
Definition startsWith (s p : string) : bool := String.prefix p s.

(** [s.slice(n)] for [0 <= n]. *)
Fixpoint slice_from (n : nat) (s : string) : string :=
  match n, s with
  | O, _ => s
  | S n', String _ s' => slice_from n' s'
  | S _, EmptyString => EmptyString
  end.

(** [s.substring(0, n)] and [s.slice(0, n)] for [0 <= n]. *)
Fixpoint take (n : nat) (s : string) : string :=
  match n, s with
  | S n', String c s' => String c (take n' s')
  | _, _ => EmptyString
  end.

(** [s.slice(a, b)] for [0 <= a <= b]. *)
Definition slice (a b : nat) (s : string) : string :=
  take (b - a) (slice_from a s).

Definition is_space (c : ascii) : bool :=
  let n := nat_of_ascii c in
  (Nat.eqb n 32 || (Nat.leb 9 n && Nat.leb n 13))%bool.

Fixpoint trimStart (s : string) : string :=
  match s with
  | String c s' => if is_space c then trimStart s' else s
  | EmptyString => EmptyString
  end.

Fixpoint trimEnd (s : string) : string :=
  match s with
  | String c s' =>
      match trimEnd s' with
      | EmptyString => if is_space c then EmptyString else String c EmptyString
      | r => String c r
      end
  | EmptyString => EmptyString
  end.

(** [String.prototype.trim]. *)
Definition trim (s : string) : string := trimEnd (trimStart s).

(** [s.includes(sub)]. *)
Fixpoint includes (s sub : string) : bool :=
  (String.prefix sub s ||
   match s with
   | String _ s' => includes s' sub
   | EmptyString => false
   end)%bool.

(** [s.split(sep)] for a separator of one character: never empty. *)
Fixpoint split (sep : ascii) (s : string) : list string :=
  match s with
  | EmptyString => [EmptyString]
  | String c s' =>
      let r := split sep s' in
      if Ascii.eqb c sep then EmptyString :: r
      else match r with
           | h :: t => String c h :: t
           | [] => [String c EmptyString]
           end
  end.

(** [Array.prototype.join] on an array of strings. *)
Fixpoint join (sep : string) (l : list string) : string :=
  match l with
  | [] => EmptyString
  | [x] => x
  | x :: r => x ++ sep ++ join sep r
  end.

Definition upper (c : ascii) : ascii :=
  let n := nat_of_ascii c in
  if (Nat.leb 97 n && Nat.leb n 122)%bool then ascii_of_nat (n - 32) else c.

(** [String.prototype.toUpperCase]. *)
Fixpoint toUpperCase (s : string) : string :=
  match s with
  | String c s' => String (upper c) (toUpperCase s')
  | EmptyString => EmptyString
  end.

Definition LF : ascii := ascii_of_nat 10.

End Str.

(** ** Numbers *)

Definition number : Set := float.

Module Num.

Definition of_spec (x : spec_float) : number := SF2Prim x.

(** The binary64 value nearest to [n / d] (ties to even), for [0 < n] and
    [0 < d]: the quotient is taken with 64 significant bits at least and the
    remainder tells on which side of the midpoint the exact value lies. *)
Definition round_ratio (neg : bool) (n d : Z) : number :=
  let k := Z.max 0 (64 + Z.log2 d - Z.log2 n) in
  let q := (n * 2 ^ k) / d in
  let r := (n * 2 ^ k) mod d in
  let loc := if r =? 0 then loc_Exact else loc_Inexact (2 * r ?= d) in
  of_spec (binary_round_aux prec emax neg q (- k) loc).

(** The number written [m * 10^e10] in decimal, [0 <= m]. Exponents far
    outside the binary64 range are settled without computing the power. *)
Definition of_decimal (neg : bool) (m e10 : Z) : number :=
  if m =? 0 then (if neg then neg_zero else zero)
  else if 400 <? e10 then (if neg then neg_infinity else infinity)
  else if e10 + Z.log2 m + 1 <? -400 then (if neg then neg_zero else zero)
  else if 0 <=? e10 then round_ratio neg (m * 10 ^ e10) 1
  else round_ratio neg m (10 ^ (- e10)).

Definition of_Z (z : Z) : number := of_decimal (z <? 0) (Z.abs z) 0.

(** Truthiness of a number: [0], [-0] and [NaN] are falsy. *)
Definition truthy (x : number) : bool := negb (is_zero x || is_nan x).

(** [x || 0]. *)
Definition or0 (x : number) : number := if truthy x then x else zero.

(** The integer part of a finite number (truncation towards zero). *)
Definition trunc (x : number) : option Z :=
  match Prim2SF x with
  | S754_zero _ => Some 0
  | S754_finite s m e =>
      let v := if 0 <=? e then Zpos m * 2 ^ e else Zpos m / 2 ^ (- e) in
      Some (if s then - v else v)
  | _ => None
  end.

End Num.

(** ** Conversions between numbers and text *)

Module Conv.

Definition digit_of (c : ascii) : option Z :=
  let n := Z.of_nat (nat_of_ascii c) in
  if ((48 <=? n) && (n <=? 57))%bool then Some (n - 48) else None.

(** Reads the longest run of decimal digits at the head of [s], continuing
    the value [acc]; returns the value, the number of digits read and the
    rest of the text. *)
Fixpoint read_digits (s : string) (acc cnt : Z) : Z * Z * string :=
  match s with
  | String c s' =>
      match digit_of c with
      | Some d => read_digits s' (10 * acc + d) (cnt + 1)
      | None => (acc, cnt, s)
      end
  | EmptyString => (acc, cnt, s)
  end.

Definition read_sign (s : string) : bool * string :=
  match s with
  | String "-" s' => (true, s')
  | String "+" s' => (false, s')
  | _ => (false, s)
  end.

(** [parseInt(s, 10)]. *)
Definition parseInt (s : string) : number :=
  let '(neg, s1) := read_sign (Str.trimStart s) in
  let '(v, cnt, _) := read_digits s1 0 0 in
  if cnt =? 0 then nan else Num.of_decimal neg v 0.

Definition read_exponent (s : string) : Z :=
  match s with
  | String c s' =>
      if (Ascii.eqb c "e" || Ascii.eqb c "E")%bool then
        let '(neg, s1) := read_sign s' in
        let '(v, cnt, _) := read_digits s1 0 0 in
        if cnt =? 0 then 0 else if neg then - v else v
      else 0
  | EmptyString => 0
  end.

(** [parseFloat(s)] for a string [s]: the longest prefix that is a decimal
    literal, [NaN] when there is none. *)
Definition parseFloat (s : string) : number :=
  let '(neg, s1) := read_sign (Str.trimStart s) in
  if Str.startsWith s1 "Infinity" then (if neg then neg_infinity else infinity)
  else
    let '(i, ni, s2) := read_digits s1 0 0 in
    let '(m, nf, s3) :=
      match s2 with
      | String "." r => read_digits r i 0
      | _ => (i, 0, s2)
      end in
    if ni + nf =? 0 then nan
    else Num.of_decimal neg m (read_exponent s3 - nf).

(** The decimal representation of an integer. *)
Definition decimal (z : Z) : string := NilZero.string_of_int (Z.to_int z).

Fixpoint zeros (n : nat) : string :=
  match n with
  | O => EmptyString
  | S n' => String "0" (zeros n')
  end.

(** The position [n] of the decimal point of [V / D]:
    [10^(n-1) <= V / D < 10^n]. *)
Fixpoint point_below (fuel : nat) (V D j : Z) : Z :=
  match fuel with
  | O => 1 - j
  | S fuel' => if D <=? V * 10 ^ j then 1 - j else point_below fuel' V D (j + 1)
  end.

Definition point (V D : Z) : Z :=
  if D <=? V then Z.of_nat (String.length (decimal (V / D)))
  else point_below 400 V D 1.

(** The shortest digit string that reads back as the number [V / D], whose
    rounding interval is [L / D .. H / D] (closed when [incl]): the [k] of
    ECMAScript's Number::toString is tried from 1 upwards, and of the two
    [k]-digit neighbours of the value the nearer one inside the interval is
    taken, the even one on a tie. *)
Fixpoint shortest (fuel : nat) (incl : bool) (L V H D n k : Z) : Z * Z :=
  let A := if 0 <=? n - k then 10 ^ (n - k) else 1 in
  let B := if 0 <=? n - k then 1 else 10 ^ (k - n) in
  let lo := (V * B) / (D * A) in
  let hi := lo + 1 in
  let inside c :=
    if incl then ((L * B <=? c * A * D) && (c * A * D <=? H * B))%bool
    else ((L * B <? c * A * D) && (c * A * D <? H * B))%bool in
  let dlo := V * B - lo * A * D in
  let dhi := hi * A * D - V * B in
  let pick :=
    match inside lo, inside hi with
    | true, true =>
        if dlo <? dhi then Some lo
        else if dhi <? dlo then Some hi
        else if Z.even lo then Some lo else Some hi
    | true, false => Some lo
    | false, true => Some hi
    | false, false => None
    end in
  match pick, fuel with
  | Some c, _ => if c =? 10 ^ k then (1, n + 1) else (c, n)
  | None, S fuel' => shortest fuel' incl L V H D n (k + 1)
  | None, O => (lo, n)
  end.

Definition layout (digits : string) (n : Z) : string :=
  let k := Z.of_nat (String.length digits) in
  if ((k <=? n) && (n <=? 21))%bool then digits ++ zeros (Z.to_nat (n - k))
  else if ((0 <? n) && (n <=? 21))%bool then
    Str.take (Z.to_nat n) digits ++ "." ++ Str.slice_from (Z.to_nat n) digits
  else if ((-6 <? n) && (n <=? 0))%bool then
    "0." ++ zeros (Z.to_nat (- n)) ++ digits
  else
    let e := (if 0 <=? n - 1 then "+" else "-") ++ decimal (Z.abs (n - 1)) in
    if k =? 1 then digits ++ "e" ++ e
    else Str.take 1 digits ++ "." ++ Str.slice_from 1 digits ++ "e" ++ e.

(** [Number.prototype.toString()], radix 10. *)
Definition Number_toString (x : number) : string :=
  match Prim2SF x with
  | S754_nan => "NaN"
  | S754_zero _ => "0"
  | S754_infinity s => if s then "-Infinity" else "Infinity"
  | S754_finite s m e =>
      let narrow := ((Zpos m =? 2 ^ 52) && (-1074 <? e))%bool in
      let v4 := 4 * Zpos m in
      let l4 := if narrow then v4 - 1 else v4 - 2 in
      let h4 := v4 + 2 in
      let sc := if 0 <=? e - 2 then 2 ^ (e - 2) else 1 in
      let D := if 0 <=? e - 2 then 1 else 2 ^ (2 - e) in
      let n := point (v4 * sc) D in
      let '(c, n') :=
        shortest 17 (Z.even (Zpos m)) (l4 * sc) (v4 * sc) (h4 * sc) D n 1 in
      (if s then "-" else "") ++ layout (decimal c) n'
  end.

End Conv.

(** ** Exceptions *)

Inductive error : Set :=
| TypeError
| Error (message : string).

Inductive result (A : Type) : Type :=
| Ok (a : A)
| Throw (e : error).

Arguments Ok {A} a.
Arguments Throw {A} e.

Definition bind {A B : Type} (r : result A) (k : A -> result B) : result B :=
  match r with
  | Ok a => k a
  | Throw e => Throw e
  end.

Notation "x <- r ;; k" := (bind r (fun x => k))
  (at level 61, r at next level, right associativity).

(** A loop over a list whose body can throw: [for (const x of l) { acc = f(acc, x) }]. *)
Fixpoint foldM {A B : Type} (f : A -> B -> result A) (l : list B) (acc : A) : result A :=
  match l with
  | [] => Ok acc
  | x :: r => acc' <- f acc x ;; foldM f r acc'
  end.

(** ** Objects used as dictionaries *)

Module Dict.

Definition dict (V : Type) : Type := list (string * V).

Definition empty {V : Type} : dict V := [].

(** [d[k]] on the object's own properties. *)
Fixpoint get {V : Type} (k : string) (d : dict V) : option V :=
  match d with
  | [] => None
  | (k', v) :: r => if String.eqb k k' then Some v else get k r
  end.

(** [d[k] = v]: an existing property keeps its place, a new one goes last. *)
Fixpoint set {V : Type} (k : string) (v : V) (d : dict V) : dict V :=
  match d with
  | [] => [(k, v)]
  | (k', v') :: r => if String.eqb k k' then (k, v) :: r else (k', v') :: set k v r
  end.

(** [Object.values(d)]. *)
Definition values {V : Type} (d : dict V) : list V := map snd d.

Definition keys {V : Type} (d : dict V) : list string := map fst d.

(** The names every object inherits from [Object.prototype]. *)
Definition Object_prototype : list string :=
  [ "constructor"; "__defineGetter__"; "__defineSetter__"; "hasOwnProperty";
    "__lookupGetter__"; "__lookupSetter__"; "isPrototypeOf";
    "propertyIsEnumerable"; "toString"; "valueOf"; "__proto__";
    "toLocaleString" ].

Definition inherited (k : string) : bool :=
  existsb (String.eqb k) Object_prototype.

(** [d[k] = v] for a primitive [v]: the [__proto__] setter ignores it. *)
Definition assign {V : Type} (k : string) (v : V) (d : dict V) : dict V :=
  if String.eqb k "__proto__" then d else set k v d.

End Dict.

Abbreviation dict := Dict.dict.

(** ** Values of the raw responses *)

Inductive jsval : Set :=
| JUndefined
| JNull
| JNum (n : number)
| JStr (s : string).

(** The string a value becomes in a template literal or as a property key. *)
Definition ToString (v : jsval) : string :=
  match v with
  | JUndefined => "undefined"
  | JNull => "null"
  | JNum n => Conv.Number_toString n
  | JStr s => s
  end.

(** [parseFloat(v)]: the argument is converted to a string first. *)
Definition parseFloat (v : jsval) : number := Conv.parseFloat (ToString v).

(** [a[i]] on an array. *)
Definition index (a : list jsval) (i : nat) : jsval := nth i a JUndefined.

(** ** The data model: [Config], [CostQuery], [Report] *)

(** The part of a sub-account's configuration the transform reads:
    [getString('name')] and [getOptionalStringArray('tags')]. *)
Record Config : Set := {
  name : string;
  tags : option (list string)
}.

Record CostQuery : Set := {
  startTime : string;
  endTime : string;
  granularity : string
}.

(** A property of a [Report]: [reports] is the object of costs per period,
    every other property is a string. *)
Inductive prop : Type :=
| PStr (s : string)
| PReports (r : dict number).

(** A [Report] is the object the literal in [transformCostsData] builds: the
    fixed properties, then the spread of the static tags, which may overwrite
    them. *)
Definition Report : Type := dict prop.

(** [report.reports[period]] as the code reads it back. *)
Definition cost_at (period : string) (r : Report) : option number :=
  match Dict.get "reports" r with
  | Some (PReports m) => Dict.get period m
  | _ => None
  end.

(** [report.reports[period] = cost]. The code runs in strict mode (a class
    body), where creating a property on a string throws. *)
Definition write_cost (period : string) (cost : number) (r : Report) : result Report :=
  match Dict.get "reports" r with
  | Some (PReports m) => Ok (Dict.set "reports" (PReports (Dict.assign period cost m)) r)
  | _ => Throw TypeError
  end.

(** [{ ...base, ...tagKeyValues }]. *)
Definition spread (base : Report) (tagKeyValues : dict string) : Report :=
  fold_left (fun r kv => Dict.set (fst kv) (PStr (snd kv)) r) tagKeyValues base.

(** The loop over the configured static tags, common to the three clients:
[[
    tags?.forEach(tag => {
      const [k, v] = tag.split(':');
      tagKeyValues[k.trim()] = v.trim();
    });
]]
    A tag without [':'] leaves [v] undefined, and [v.trim()] throws. *)
Definition addTag (tagKeyValues : dict string) (tag : string) : result (dict string) :=
  match Str.split ":" tag with
  | k :: v :: _ => Ok (Dict.assign (Str.trim k) (Str.trim v) tagKeyValues)
  | _ => Throw TypeError
  end.

Definition tagKeyValues (cfg : Config) : result (dict string) :=
  match tags cfg with
  | Some l => foldM addTag l Dict.empty
  | None => Ok Dict.empty
  end.

(** The accumulator of the [reduce]: [accumulator[keyName]], own or inherited. *)
Definition present (keyName : string) (accumulator : dict Report) : bool :=
  (Dict.inherited keyName ||
   match Dict.get keyName accumulator with Some _ => true | None => false end)%bool.

(** [accumulator[keyName].reports[period] = cost]; an inherited member of
    [Object.prototype] has no [reports]. *)
Definition record_cost (keyName period : string) (cost : number)
    (accumulator : dict Report) : result (dict Report) :=
  match Dict.get keyName accumulator with
  | Some r => r' <- write_cost period cost r ;; Ok (Dict.set keyName r' accumulator)
  | None => Throw TypeError
  end.

(** [x.toUpperCase() === 'MONTHLY'] and [=== 'DAILY']. *)
Definition is_monthly (q : CostQuery) : bool :=
  String.eqb (Str.toUpperCase (granularity q)) "MONTHLY".

Definition is_daily (q : CostQuery) : bool :=
  String.eqb (Str.toUpperCase (granularity q)) "DAILY".

(** [a.isBefore(b)] on two moments, each an instant in epoch milliseconds or
    invalid: false when either is invalid. *)
Definition isBefore (a b : option Z) : bool :=
  match a, b with
  | Some x, Some y => x <? y
  | _, _ => false
  end.

(** [serviceName.startsWith(...)] inside [convertServiceName] throws when the
    argument is not a string. *)
Definition callConvert (convertServiceName : string -> string) (serviceName : jsval)
    : result string :=
  match serviceName with
  | JStr s => Ok (convertServiceName s)
  | _ => Throw TypeError
  end.

(** The loop shared by the three [convertServiceName]:
[[
    for (const prefix of prefixes) {
      if (serviceName.startsWith(prefix)) {
        convertedName = serviceName.slice(prefix.length).trim();
      }
    }
]] *)
Definition stripPrefixes (prefixes : list string) (serviceName : string) : string :=
  fold_left
    (fun convertedName prefix =>
       if Str.startsWith serviceName prefix
       then Str.trim (Str.slice_from (String.length prefix) serviceName)
       else convertedName)
    prefixes serviceName.

(** ** AwsClient *)

Module Aws.

Definition prefixes : list string := ["Amazon"; "AWS"].

Definition aliases : dict string :=
  [ ("Elastic Compute Cloud - Compute", "EC2 - Instances");
    ("Virtual Private Cloud", "VPC (Virtual Private Cloud)");
    ("Relational Database Service", "RDS (Relational Database Service)");
    ("Simple Storage Service", "S3 (Simple Storage Service)");
    ("Managed Streaming for Apache Kafka", "MSK (Managed Streaming for Apache Kafka)");
    ("Elastic Container Service for Kubernetes",
     "EKS (Elastic Container Service for Kubernetes)");
    ("Elastic Container Service", "ECS (Elastic Container Service)");
    ("EC2 Container Registry (ECR)", "ECR (Elastic Container Registry)");
    ("Simple Queue Service", "SQS (Simple Queue Service)");
    ("Simple Notification Service", "SNS (Simple Notification Service)");
    ("Database Migration Service", "DMS (Database Migration Service)") ].

(** [aliases.get(convertedName) || convertedName] under [aliases.has]. *)
Definition alias (convertedName : string) : string :=
  match Dict.get convertedName aliases with
  | Some a => if String.eqb a "" then convertedName else a
  | None => convertedName
  end.

Definition convertServiceName (provider serviceName : string) : string :=
  let convertedName := stripPrefixes prefixes serviceName in
  let convertedName := alias convertedName in
  provider ++ "/" ++ convertedName.

(** *** The filter of [fetchCosts] *)

(** The [Expression] of the Cost Explorer API, as far as the client builds
    it. A tag's value may be absent ([tag.value as string]). *)
Inductive Expression : Set :=
| Dimensions (Key : string) (Values : list string)
| Tags (Key : string) (Values : list (option string))
| Or (l : list Expression)
| And (l : list Expression).

Record Tag : Set := { key : string; value : option string }.

Definition tagClause (tag : Tag) : Expression := Tags (key tag) [value tag].

Definition baseFilter : Expression := Dimensions "RECORD_TYPE" ["Usage"].

(** [filterExpression] after the [if (tags.length)] block; [tags] is the
    result of [parseTags(query.tags)]. *)
Definition filterExpression (tags : list Tag) : Expression :=
  let filterExpression := baseFilter in
  if Nat.eqb (List.length tags) 0 then filterExpression
  else
    let tagsExpression :=
      if Nat.eqb (List.length tags) 1 then
        match tags with
        | t :: _ => tagClause t
        | [] => Or []
        end
      else Or (fold_left (fun tagList tag => (tagList ++ [tagClause tag])%list) tags [])
    in
    And [filterExpression; tagsExpression].

(** *** The raw response: [ResultsByTime] *)

Record MetricValue : Set := { Amount : option string; Unit : option string }.

Record Group : Type := {
  Keys : option (list string);
  Metrics : option (dict MetricValue)
}.

Record DateInterval : Set := { Start : option string; End_ : option string }.

Record ResultByTime : Type := {
  TimePeriod : option DateInterval;
  Groups : option (list Group)
}.

Section Transform.

(** [getCategoryByServiceName] of [service/functions], which is not part
    of the sources at hand: any function of the service name and the
    mappings. *)
Variable getCategoryByServiceName : jsval -> dict string -> string.

(** [this.provider]. *)
Variable provider : string.

Variable subAccountConfig : Config.
Variable query : CostQuery.
Variable categoryMappings : dict string.

Definition accountName : string := name subAccountConfig.

(** [row.TimePeriod?.Start] and the period derived from it. *)
Definition rowTime (row : ResultByTime) : option string :=
  match TimePeriod row with
  | Some t => Start t
  | None => None
  end.

Definition period (row : ResultByTime) : string :=
  match rowTime row with
  | Some t =>
      if String.eqb t "" then "unknown"
      else if is_monthly query then Str.take 7 t else t
  | None => "unknown"
  end.

(** [group.Keys ? group.Keys[0] : ''] *)
Definition serviceName (group : Group) : jsval :=
  match Keys group with
  | Some (k :: _) => JStr k
  | Some [] => JUndefined
  | None => JStr ""
  end.

Definition keyName (group : Group) : string :=
  accountName ++ "_" ++ ToString (serviceName group).

Definition newReport (tagKeyValues : dict string) (group : Group) (service : string)
    : Report :=
  spread
    [ ("id", PStr (keyName group));
      ("name", PStr (provider ++ "/" ++ accountName));
      ("service", PStr service);
      ("category", PStr (getCategoryByServiceName (serviceName group) categoryMappings));
      ("provider", PStr provider);
      ("reports", PReports Dict.empty) ]
    tagKeyValues.

(** [if (!accumulator[keyName]) { accumulator[keyName] = {...} }] *)
Definition ensureReport (tagKeyValues : dict string) (group : Group)
    (accumulator : dict Report) : result (dict Report) :=
  if present (keyName group) accumulator then Ok accumulator
  else
    service <- callConvert (convertServiceName provider) (serviceName group) ;;
    Ok (Dict.set (keyName group) (newReport tagKeyValues group service) accumulator).

(** [parseFloat(groupMetrics.UnblendedCost.Amount ?? '0.0')] *)
Definition cost (groupMetrics : dict MetricValue) : result number :=
  match Dict.get "UnblendedCost" groupMetrics with
  | Some m =>
      Ok (Conv.parseFloat (match Amount m with Some a => a | None => "0.0" end))
  | None => Throw TypeError
  end.

(** The body of [row.Groups.forEach]. *)
Definition onGroup (tagKeyValues : dict string) (period : string)
    (accumulator : dict Report) (group : Group) : result (dict Report) :=
  accumulator <- ensureReport tagKeyValues group accumulator ;;
  match Metrics group with
  | Some groupMetrics =>
      c <- cost groupMetrics ;;
      record_cost (keyName group) period c accumulator
  | None => Ok accumulator
  end.

(** The function given to [reduce]. *)
Definition onRow (tagKeyValues : dict string) (accumulator : dict Report)
    (row : ResultByTime) : result (dict Report) :=
  match Groups row with
  | Some groups => foldM (onGroup tagKeyValues (period row)) groups accumulator
  | None => Ok accumulator
  end.

Definition transformedData (costResponse : list ResultByTime) : result (dict Report) :=
  tkv <- tagKeyValues subAccountConfig ;;
  foldM (onRow tkv) costResponse Dict.empty.

Definition transformCostsData (costResponse : list ResultByTime) : result (list Report) :=
  transformedData <- transformedData costResponse ;;
  Ok (Dict.values transformedData).

End Transform.

End Aws.

(** ** AzureClient *)

Module Azure.

Definition prefixes : list string := ["Azure"].

Definition convertServiceName (provider serviceName : string) : string :=
  let convertedName := stripPrefixes prefixes serviceName in
  provider ++ "/" ++ convertedName.

(** [formatDate]: [null] is [None]. [dateNumber.toString()] throws on
    [undefined] and [null]. *)
Definition formatDate (dateNumber : jsval) : result (option string) :=
  match dateNumber with
  | JUndefined | JNull => Throw TypeError
  | _ =>
      let dateString := ToString dateNumber in
      if negb (Nat.eqb (String.length dateString) 8) then Ok None
      else
        let year := Str.slice 0 4 dateString in
        let month := Str.slice 4 6 dateString in
        let day := Str.slice_from 6 dateString in
        Ok (Some (year ++ "-" ++ month ++ "-" ++ day))
  end.

(** *** [fetchDataWithRetry] *)

(** What the loop reads of a pipeline response; the header is
    [x-ms-ratelimit-microsoft.costmanagement-entity-retry-after]. *)
Record Response : Set := {
  status : Z;
  bodyAsText : jsval;
  retryAfterHeader : option string
}.

(** [x || fallback] on an optional text: [undefined], [null] and the empty
    string are falsy. *)
Definition orText (x : jsval) (fallback : string) : string :=
  match x with
  | JStr s => if String.eqb s "" then fallback else s
  | JNum n => if Num.truthy n then ToString x else fallback
  | _ => fallback
  end.

(** The message of [new Error(x)]. *)
Definition errorMessage (x : jsval) : string :=
  match x with
  | JUndefined => ""
  | _ => ToString x
  end.

(** [parseInt(response.headers.get(...) || '60', 10)] *)
Definition retryAfter (response : Response) : number :=
  Conv.parseInt
    (match retryAfterHeader response with
     | Some h => if String.eqb h "" then "60" else h
     | None => "60"
     end).

(** The delay given to [setTimeout]: [retryAfter * 1000]. *)
Definition backoff (response : Response) : number :=
  PrimFloat.mul (retryAfter response) (Num.of_Z 1000).

(** The observable behaviour of one call: what it returns or throws, the
    delays it slept, in order, and the number of requests it sent. *)
Record Run (J : Type) : Type := {
  outcome : result J;
  sleeps : list number;
  requests : nat
}.

Arguments outcome {J} r.
Arguments sleeps {J} r.
Arguments requests {J} r.

Section Retry.

Variable J : Type.

(** [JSON.parse], which throws on ill-formed text. *)
Variable JSON_parse : string -> result J.

(** [client.pipeline.sendRequest]: the response to the [n]-th request of
    the call, counted from 0. *)
Variable sendRequest : nat -> Response.

(** The [while (retries < maxRetries)] loop, by the number of retries
    that remain; [sent] requests have been sent and [slept] lists the
    delays so far. *)
Fixpoint retryLoop (remaining sent : nat) (slept : list number) : Run J :=
  match remaining with
  | O =>
      {| outcome := Throw (Error "Max retries exceeded");
         sleeps := slept; requests := sent |}
  | S remaining' =>
      let response := sendRequest sent in
      if status response =? 200 then
        {| outcome := JSON_parse (orText (bodyAsText response) "{}");
           sleeps := slept; requests := S sent |}
      else if status response =? 429 then
        retryLoop remaining' (S sent) (slept ++ [backoff response])%list
      else
        {| outcome := Throw (Error (errorMessage (bodyAsText response)));
           sleeps := slept; requests := S sent |}
  end.

Definition fetchDataWithRetry (maxRetries : nat) : Run J :=
  retryLoop maxRetries 0 [].

End Retry.

(** [maxRetries = 5], the default every caller relies on. *)
Definition maxRetries : nat := 5.

(** *** The filter of [fetchCosts] *)

Inductive QueryFilter : Set :=
| tags_ (name operator : string) (values : list (option string))
| or_ (l : list QueryFilter).

Definition tagClause (tag : Aws.Tag) : QueryFilter :=
  tags_ (Aws.key tag) "In" [Aws.value tag].

(** [filter] after the [if (tags.length)] block: [undefined] is [None]. *)
Definition filter (tags : list Aws.Tag) : option QueryFilter :=
  if Nat.eqb (List.length tags) 0 then None
  else if Nat.eqb (List.length tags) 1 then
    match tags with
    | t :: _ => Some (tagClause t)
    | [] => None
    end
  else
    Some (or_ (fold_left (fun tagList tag => (tagList ++ [tagClause tag])%list) tags [])).

(** *** [transformCostsData] *)

Definition groupPairs : list (string * string) := [("Dimension", "ServiceName")].

Section Transform.

(** [moment(x)]: the instant, in epoch milliseconds, that the moment
    library reads from [x] in the time zone of the process, [None] when
    the moment is invalid. *)
Variable moment : jsval -> option Z.

Variable getCategoryByServiceName : jsval -> dict string -> string.

(** [this.provider]. *)
Variable provider : string.

Variable subAccountConfig : Config.
Variable query : CostQuery.
Variable categoryMappings : dict string.

Definition accountName : string := name subAccountConfig.

(** [date] after the [DAILY] conversion. *)
Definition date (row : list jsval) : result jsval :=
  if is_daily query then
    d <- formatDate (index row 1) ;;
    Ok (match d with Some s => JStr s | None => JNull end)
  else Ok (index row 1).

(** [keyName] after the loop over [groupPairs]. *)
Definition keyName (row : list jsval) : string :=
  fold_left
    (fun keyName i => keyName ++ "->" ++ ToString (index row (i + 2)))
    (seq 0 (List.length groupPairs)) accountName.

Definition newReport (tagKeyValues : dict string) (row : list jsval) (service : string)
    : Report :=
  spread
    [ ("id", PStr (keyName row));
      ("name", PStr (provider ++ "/" ++ accountName));
      ("service", PStr service);
      ("category", PStr (getCategoryByServiceName (index row 2) categoryMappings));
      ("provider", PStr provider);
      ("reports", PReports Dict.empty) ]
    tagKeyValues.

Definition ensureReport (tagKeyValues : dict string) (row : list jsval)
    (accumulator : dict Report) : result (dict Report) :=
  if present (keyName row) accumulator then Ok accumulator
  else
    service <- callConvert (convertServiceName provider) (index row 2) ;;
    Ok (Dict.set (keyName row) (newReport tagKeyValues row service) accumulator).

(** [moment(date).isBefore(moment(parseInt(query.startTime, 10)))] *)
Definition beforeStart (date : jsval) : bool :=
  isBefore (moment date) (moment (JNum (Conv.parseInt (startTime query)))).

(** [date.substring(0, 7)], defined on strings only. *)
Definition yearMonth (date : jsval) : result string :=
  match date with
  | JStr s => Ok (Str.take 7 s)
  | _ => Throw TypeError
  end.

(** The key under which the row's cost is written. *)
Definition period (date : jsval) : result string :=
  if is_monthly query then yearMonth date else Ok (ToString date).

(** The function given to [reduce]. *)
Definition onRow (tagKeyValues : dict string) (accumulator : dict Report)
    (row : list jsval) : result (dict Report) :=
  let cost := index row 0 in
  date <- date row ;;
  accumulator <- ensureReport tagKeyValues row accumulator ;;
  if negb (beforeStart date) then
    p <- period date ;;
    record_cost (keyName row) p (parseFloat cost) accumulator
  else Ok accumulator.

Definition transformedData (costResponse : list (list jsval)) : result (dict Report) :=
  tkv <- tagKeyValues subAccountConfig ;;
  foldM (onRow tkv) costResponse Dict.empty.

Definition transformCostsData (costResponse : list (list jsval)) : result (list Report) :=
  transformedData <- transformedData costResponse ;;
  Ok (Dict.values transformedData).

End Transform.

End Azure.

(** ** MongoAtlasClient *)

Module MongoAtlas.

Definition prefixes : list string := ["Atlas"].

Definition convertServiceName (providerName serviceName : string) : string :=
  let convertedName := stripPrefixes prefixes serviceName in
  providerName ++ "/" ++ convertedName.

(** *** [fetchCostsFromCloud] *)

(** The callback of [lines.filter], which sets [foundOrganizationIdLine]
    as it goes: the flag is threaded through the list. *)
Fixpoint filterLines (foundOrganizationIdLine : bool) (lines : list string) : list string :=
  match lines with
  | [] => []
  | line :: rest =>
      let trimmedLine := Str.trim line in
      if Str.startsWith trimmedLine "Organization ID," then filterLines true rest
      else if negb foundOrganizationIdLine then filterLines foundOrganizationIdLine rest
      else if (negb (String.eqb trimmedLine "") && negb (Str.includes trimmedLine "Credit"))%bool
           then line :: filterLines foundOrganizationIdLine rest
           else filterLines foundOrganizationIdLine rest
  end.

Definition newline : string := String Str.LF EmptyString.

(** The text one invoice contributes: [filteredLines]. *)
Definition filteredLines (data : string) : string :=
  Str.join newline (filterLines false (Str.split Str.LF data)).

(** The response to the request of one invoice's CSV. *)
Record CsvResponse : Set := {
  status : Z;
  statusText : string;
  data : string
}.

Definition invoiceCsv (csvResponse : CsvResponse) : result string :=
  if negb (status csvResponse =? 200) then
    Throw (Error ("Error fetching invoice CSV: " ++ Conv.decimal (status csvResponse)
                  ++ " " ++ statusText csvResponse))
  else Ok (filteredLines (data csvResponse)).

(** The response to the request of the invoice list: [response.data.results]
    is the list of invoices, each read for its [id]. *)
Record InvoicesResponse : Set := {
  invoicesStatus : Z;
  invoicesStatusText : string;
  results : list string
}.

Section Fetch.

(** [urllib.request] on the CSV of the invoice [invoiceId]. *)
Variable requestCsv : string -> CsvResponse.

(** [Promise.all(invoices.map(...))]: the results in the order of the
    invoices, or the rejection of a failed download (of the first one in
    the list here; which one the promise reports depends on timing). *)
Fixpoint allInvoicesData (invoices : list string) : result (list string) :=
  match invoices with
  | [] => Ok []
  | invoiceId :: rest =>
      x <- invoiceCsv (requestCsv invoiceId) ;;
      xs <- allInvoicesData rest ;;
      Ok (x :: xs)
  end.

(** [fetchCostsFromCloud], from the response to the request of the
    invoice list on. *)
Definition fetchCostsFromCloud (response : InvoicesResponse) : result string :=
  if negb (invoicesStatus response =? 200) then
    Throw (Error ("Error fetching invoices: " ++ Conv.decimal (invoicesStatus response)
                  ++ " " ++ invoicesStatusText response))
  else
    all <- allInvoicesData (results response) ;;
    Ok (Str.join newline all).

End Fetch.

(** *** [transformCostsData] *)

(** [moment(date, 'MM/DD/YYYY', true)]: strict parsing accepts two digits,
    a slash, two digits, a slash and four digits, naming a day of the
    calendar. A valid moment is its year, month and day. *)
Record Date : Set := { year : Z; month : Z; day : Z }.

Definition isLeapYear (y : Z) : bool :=
  (((y mod 4 =? 0) && negb (y mod 100 =? 0)) || (y mod 400 =? 0))%bool.

Definition daysInMonth (y m : Z) : Z :=
  if m =? 2 then (if isLeapYear y then 29 else 28)
  else if ((m =? 4) || (m =? 6) || (m =? 9) || (m =? 11))%bool then 30
  else 31.

(** Exactly [n] digits and nothing else. *)
Definition digits (n : Z) (s : string) : option Z :=
  let '(v, cnt, rest) := Conv.read_digits s 0 0 in
  if ((cnt =? n) && String.eqb rest "")%bool then Some v else None.

Definition parseDate (date : jsval) : option Date :=
  match date with
  | JStr s =>
      if negb (Nat.eqb (String.length s) 10) then None
      else if negb (String.eqb (Str.slice 2 3 s) "/" && String.eqb (Str.slice 5 6 s) "/")
      then None
      else
        match digits 2 (Str.slice 0 2 s), digits 2 (Str.slice 3 5 s),
              digits 4 (Str.slice 6 10 s) with
        | Some m, Some d, Some y =>
            if ((1 <=? m) && (m <=? 12) && (1 <=? d) && (d <=? daysInMonth y m))%bool
            then Some {| year := y; month := m; day := d |}
            else None
        | _, _, _ => None
        end
  | _ => None
  end.

(** A number padded with zeros to [width] digits. *)
Definition padded (width : nat) (n : Z) : string :=
  let s := Conv.decimal n in
  Conv.zeros (width - String.length s) ++ s.

(** [parsedDate.format('YYYY-MM')] and [parsedDate.format('YYYY-MM-DD')]. *)
Definition format_YYYY_MM (d : Date) : string :=
  padded 4 (year d) ++ "-" ++ padded 2 (month d).

Definition format_YYYY_MM_DD (d : Date) : string :=
  format_YYYY_MM d ++ "-" ++ padded 2 (day d).

Section Transform.

Variable moment : jsval -> option Z.
Variable getCategoryByServiceName : jsval -> dict string -> string.

(** [this.providerName]. *)
Variable providerName : string.

Variable subAccountConfig : Config.
Variable query : CostQuery.
Variable categoryMappings : dict string.

(** [header], the columns of the first line of the response. *)
Variable header : list string.

Definition accountName : string := name subAccountConfig.

(** [rowData] after [header.forEach((columnName, index) => ...)]:
    a column the line does not have is [undefined]. *)
Definition rowData (line : string) : dict jsval :=
  let columns := Str.split "," line in
  fold_left
    (fun rowData ci =>
       Dict.assign (fst ci)
         (match nth_error columns (snd ci) with Some c => JStr c | None => JUndefined end)
         rowData)
    (combine header (seq 0 (List.length header))) Dict.empty.

(** [rowData.X] *)
Definition field (line : string) (X : string) : jsval :=
  match Dict.get X (rowData line) with
  | Some v => v
  | None => JUndefined
  end.

(** [parseFloat(rowData.Amount) || 0] *)
Definition amount (line : string) : number :=
  Num.or0 (parseFloat (field line "Amount")).

Definition parsedDate (line : string) : option Date :=
  parseDate (field line "Date").

Definition billingPeriod (d : Date) : string :=
  if is_monthly query then format_YYYY_MM d else format_YYYY_MM_DD d.

Definition serviceName (line : string) : jsval := field line "SKU".

(** [rowData.X || 'Unknown'] *)
Definition orUnknown (v : jsval) : string :=
  match v with
  | JStr s => if String.eqb s "" then "Unknown" else s
  | _ => "Unknown"
  end.

Definition cluster (line : string) : string := orUnknown (field line "Cluster").
Definition project (line : string) : string := orUnknown (field line "Project").

Definition keyName (line : string) : string :=
  accountName ++ "->" ++ getCategoryByServiceName (serviceName line) categoryMappings
  ++ "->" ++ project line ++ "->" ++ cluster line.

Definition newReport (tagKeyValues : dict string) (line : string) (service : string)
    : Report :=
  spread
    [ ("id", PStr (keyName line));
      ("name", PStr (providerName ++ "/" ++ accountName));
      ("service", PStr service);
      ("category", PStr (getCategoryByServiceName (serviceName line) categoryMappings));
      ("provider", PStr providerName);
      ("reports", PReports Dict.empty);
      ("project", PStr (project line));
      ("cluster", PStr (cluster line)) ]
    tagKeyValues.

Definition ensureReport (tagKeyValues : dict string) (line : string)
    (accumulator : dict Report) : result (dict Report) :=
  if present (keyName line) accumulator then Ok accumulator
  else
    service <- callConvert (convertServiceName providerName) (serviceName line) ;;
    Ok (Dict.set (keyName line) (newReport tagKeyValues line service) accumulator).

(** [moment(billingPeriod).isBefore(moment(parseInt(query.startTime, 10)))] *)
Definition beforeStart (billingPeriod : string) : bool :=
  isBefore (moment (JStr billingPeriod)) (moment (JNum (Conv.parseInt (startTime query)))).

(** [accumulator[keyName].reports[billingPeriod] || 0] *)
Definition soFar (keyName billingPeriod : string) (accumulator : dict Report) : number :=
  match Dict.get keyName accumulator with
  | Some r =>
      match cost_at billingPeriod r with
      | Some c => Num.or0 c
      | None => zero
      end
  | None => zero
  end.

(** The function given to [reduce]. *)
Definition onLine (tagKeyValues : dict string) (accumulator : dict Report)
    (line : string) : result (dict Report) :=
  match parsedDate line with
  | None => Ok accumulator
  | Some d =>
      let billingPeriod := billingPeriod d in
      accumulator <- ensureReport tagKeyValues line accumulator ;;
      if negb (beforeStart billingPeriod) then
        record_cost (keyName line) billingPeriod
          (PrimFloat.add (soFar (keyName line) billingPeriod accumulator) (amount line))
          accumulator
      else Ok accumulator
  end.

End Transform.

Definition transformedData (moment : jsval -> option Z)
    (getCategoryByServiceName : jsval -> dict string -> string) (providerName : string)
    (subAccountConfig : Config) (query : CostQuery) (categoryMappings : dict string)
    (costResponse : string) : result (dict Report) :=
  tkv <- tagKeyValues subAccountConfig ;;
  let lines := Str.split Str.LF costResponse in
  let header := Str.split "," (hd EmptyString lines) in
  let rows := tl lines in
  foldM
    (onLine moment getCategoryByServiceName providerName subAccountConfig query
       categoryMappings header tkv)
    rows Dict.empty.

Definition transformCostsData (moment : jsval -> option Z)
    (getCategoryByServiceName : jsval -> dict string -> string) (providerName : string)
    (subAccountConfig : Config) (query : CostQuery) (categoryMappings : dict string)
    (costResponse : string) : result (list Report) :=
  transformedData <-
    transformedData moment getCategoryByServiceName providerName subAccountConfig query
      categoryMappings costResponse ;;
  Ok (Dict.values transformedData).

End MongoAtlas.

(** ** Fetching page by page *)

(** [Boolean(v)], the test of [if (v)] and [while (v)]. *)
Definition ToBoolean (v : jsval) : bool :=
  match v with
  | JUndefined | JNull => false
  | JNum n => Num.truthy n
  | JStr s => negb (String.eqb s "")
  end.

(** The same test on a text that may be absent. *)
Definition given (x : option string) : bool :=
  match x with
  | Some s => negb (String.eqb s "")
  | None => false
  end.

(** [Array.prototype.sort()] without a comparator, on defined elements:
    they are ordered by their texts, code unit by code unit, and elements
    of equal text keep their order. *)
Module Arr.

Section Sort.

Variable A : Type.
Variable text : A -> string.

Fixpoint insert (x : A) (sorted : list A) : list A :=
  match sorted with
  | [] => [x]
  | y :: rest =>
      if String.leb (text x) (text y) then x :: sorted else y :: insert x rest
  end.

Definition sort (l : list A) : list A := fold_right insert [] l.

End Sort.

End Arr.

(** [TagsQuery], as far as the clients read it. *)
Module TagsQuery.

Record t : Set := { startTime : string; endTime : string }.

End TagsQuery.

Module GetTagsCommandInput.

(** [TimePeriod] is [Start] and [End]. The input has no page token. *)
Record t : Set := { TimePeriod : string * string; TagKey : option string }.

End GetTagsCommandInput.

Module GetTagsCommandOutput.

Record t : Set := { Tags : option (list string); NextPageToken : option string }.

End GetTagsCommandOutput.

Module GetCostAndUsageCommandInput.

Record t : Set := {
  TimePeriod : string * string;
  Granularity : string;
  Filter : Aws.Expression;
  GroupBy : list (string * string);
  Metrics : list string;
  NextPageToken : option string
}.

End GetCostAndUsageCommandInput.

Module GetCostAndUsageCommandOutput.

(** A response that is answered has its [ResultsByTime]. *)
Record t : Type := {
  ResultsByTime : list Aws.ResultByTime;
  NextPageToken : option string
}.

End GetCostAndUsageCommandOutput.

Module AwsFetch.

Section Fetch.

(** [moment(parseInt(t, 10)).format('YYYY-MM-DD')], in the time zone of the
    process. *)
Variable day : string -> string.

(** [CLOUD_PROVIDER.AWS]. *)
Variable AWS : string.

(** [client.send(new GetTagsCommand(input))]: the answer to the command,
    given how many commands the call has sent before; a rejected promise
    is [Throw]. *)
Variable sendGetTags : GetTagsCommandInput.t -> nat -> result GetTagsCommandOutput.t.

Variable sendGetCostAndUsage :
  GetCostAndUsageCommandInput.t -> nat -> result GetCostAndUsageCommandOutput.t.

(** *** [_fetchTags] *)

Definition tagsInput (query : TagsQuery.t) (tagKey : option string)
    : GetTagsCommandInput.t :=
  {| GetTagsCommandInput.TimePeriod :=
       (day (TagsQuery.startTime query), day (TagsQuery.endTime query));
     GetTagsCommandInput.TagKey := tagKey |}.

(** [for (const tag of response.Tags) if (tag) results.push(tag)] *)
Definition pushTags (results tags : list string) : list string :=
  (results ++ List.filter (fun tag => negb (String.eqb tag "")) tags)%list.

(** The [do ... while (nextPageToken)] loop after [sent] commands; [None]
    when it still runs after [fuel] commands more. *)
Fixpoint tagsLoop (fuel sent : nat) (query : TagsQuery.t) (tagKey : option string)
    (results : list string) : option (result (list string)) :=
  match fuel with
  | O => None
  | S fuel' =>
      match sendGetTags (tagsInput query tagKey) sent with
      | Throw e => Some (Throw e)
      | Ok response =>
          match GetTagsCommandOutput.Tags response with
          | None => Some (Throw TypeError)
          | Some tags =>
              let results := pushTags results tags in
              let nextPageToken := GetTagsCommandOutput.NextPageToken response in
              if given nextPageToken then tagsLoop fuel' (S sent) query tagKey results
              else Some (Ok (Arr.sort string (fun tag => tag) results))
          end
      end
  end.

Definition _fetchTags (fuel : nat) (query : TagsQuery.t) (tagKey : option string)
    : option (result (list string)) :=
  tagsLoop fuel 0 query tagKey [].

(** The object [{ tagKeys, provider }] as a pair. *)
Definition fetchTagKeys (fuel : nat) (query : TagsQuery.t)
    : option (result (list string * string)) :=
  option_map (fun r => tagKeys <- r ;; Ok (tagKeys, AWS)) (_fetchTags fuel query None).

Definition fetchTagValues (fuel : nat) (query : TagsQuery.t) (tagKey : string)
    : option (result (list string * string)) :=
  option_map (fun r => tagValues <- r ;; Ok (tagValues, AWS))
    (_fetchTags fuel query (Some tagKey)).

(** *** [fetchCosts] *)

(** [tags] is the result of [parseTags(query.tags)]. *)
Definition costsInput (query : CostQuery) (tags : list Aws.Tag)
    (nextPageToken : option string) : GetCostAndUsageCommandInput.t :=
  {| GetCostAndUsageCommandInput.TimePeriod := (day (startTime query), day (endTime query));
     GetCostAndUsageCommandInput.Granularity := Str.toUpperCase (granularity query);
     GetCostAndUsageCommandInput.Filter := Aws.filterExpression tags;
     GetCostAndUsageCommandInput.GroupBy := [("DIMENSION", "SERVICE")];
     GetCostAndUsageCommandInput.Metrics := ["UnblendedCost"];
     GetCostAndUsageCommandInput.NextPageToken := nextPageToken |}.

Fixpoint costsLoop (fuel sent : nat) (query : CostQuery) (tags : list Aws.Tag)
    (nextPageToken : option string) (costAndUsageResults : list Aws.ResultByTime)
    : option (result (list Aws.ResultByTime)) :=
  match fuel with
  | O => None
  | S fuel' =>
      match sendGetCostAndUsage (costsInput query tags nextPageToken) sent with
      | Throw e => Some (Throw e)
      | Ok costAndUsageResponse =>
          let costAndUsageResults :=
            (costAndUsageResults
             ++ GetCostAndUsageCommandOutput.ResultsByTime costAndUsageResponse)%list in
          let nextPageToken :=
            GetCostAndUsageCommandOutput.NextPageToken costAndUsageResponse in
          if given nextPageToken
          then costsLoop fuel' (S sent) query tags nextPageToken costAndUsageResults
          else Some (Ok costAndUsageResults)
      end
  end.

Definition fetchCosts (fuel : nat) (query : CostQuery) (tags : list Aws.Tag)
    : option (result (list Aws.ResultByTime)) :=
  costsLoop fuel 0 query tags None [].

End Fetch.

End AwsFetch.

Module QueryDefinition.

(** The body of a query: [dataset]'s members are inlined, and the two
    instants of [timePeriod] are moments, [None] for an invalid one. *)
Record t : Set := {
  type : string;
  granularity : string;
  aggregation : list (string * (string * string));
  grouping : list (string * string);
  filter : option Azure.QueryFilter;
  timeframe : string;
  timePeriod : option Z * option Z
}.

End QueryDefinition.

Module AzureFetch.

(** [result.properties] of a parsed body, with its array of rows. *)
Record Properties : Set := {
  rows : list (list jsval);
  nextLink : option string
}.

Section Fetch.

Variable moment : jsval -> option Z.

(** [CLOUD_PROVIDER.AZURE]. *)
Variable AZURE : string.

Variable J : Type.
Variable JSON_parse : string -> result J.

(** [result.properties]; reading a member of an absent one throws. *)
Variable properties : J -> option Properties.

(** [client.pipeline.sendRequest]: the response to a request for a URL with
    a body, given how many requests the fetch has sent before. *)
Variable sendRequest : string -> QueryDefinition.t -> nat -> Azure.Response.

(** A call of [fetchDataWithRetry] after [sent] requests of the fetch. *)
Definition fetchDataWithRetry (url : string) (body : QueryDefinition.t) (sent : nat)
    : Azure.Run J :=
  Azure.fetchDataWithRetry J JSON_parse (fun n => sendRequest url body (sent + n)%nat)
    Azure.maxRetries.

(** [(await this.fetchDataWithRetry(...)).properties] *)
Definition readPage (run : Azure.Run J) : result Properties :=
  result <- Azure.outcome run ;;
  match properties result with
  | Some p => Ok p
  | None => Throw TypeError
  end.

(** The [while (result.properties.nextLink)] loop, the same in [fetchCosts]
    and in [_fetchTags]; [None] when it still runs after [fuel] tests. *)
Fixpoint nextPages (fuel : nat) (queryDefinition : QueryDefinition.t) (result : Properties)
    (allResults : list (list jsval)) (slept : list number) (sent : nat)
    : option (Azure.Run (list (list jsval))) :=
  match fuel with
  | O => None
  | S fuel' =>
      match nextLink result with
      | Some link =>
          if given (Some link) then
            let run := fetchDataWithRetry link queryDefinition sent in
            let slept := (slept ++ Azure.sleeps run)%list in
            let sent := (sent + Azure.requests run)%nat in
            match readPage run with
            | Throw e =>
                Some {| Azure.outcome := Throw e; Azure.sleeps := slept;
                        Azure.requests := sent |}
            | Ok result =>
                nextPages fuel' queryDefinition result (allResults ++ rows result)%list
                  slept sent
            end
          else
            Some {| Azure.outcome := Ok allResults; Azure.sleeps := slept;
                    Azure.requests := sent |}
      | None =>
          Some {| Azure.outcome := Ok allResults; Azure.sleeps := slept;
                  Azure.requests := sent |}
      end
  end.

(** The first request and the loop. *)
Definition allPages (fuel : nat) (url : string) (queryDefinition : QueryDefinition.t)
    : option (Azure.Run (list (list jsval))) :=
  let run := fetchDataWithRetry url queryDefinition 0 in
  match readPage run with
  | Throw e =>
      Some {| Azure.outcome := Throw e; Azure.sleeps := Azure.sleeps run;
              Azure.requests := Azure.requests run |}
  | Ok result =>
      nextPages fuel queryDefinition result (rows result) (Azure.sleeps run)
        (Azure.requests run)
  end.

Definition queryUrl (subscriptionId apiVersion : string) : string :=
  "https://management.azure.com/subscriptions/" ++ subscriptionId
  ++ "/providers/Microsoft.CostManagement/query?api-version=" ++ apiVersion.

(** *** [fetchCosts] *)

(** [tags] is the result of [parseTags(query.tags)]. *)
Definition costsQuery (query : CostQuery) (tags : list Aws.Tag) : QueryDefinition.t :=
  {| QueryDefinition.type := "ActualCost";
     QueryDefinition.granularity := granularity query;
     QueryDefinition.aggregation := [("totalCostUSD", ("CostUSD", "Sum"))];
     QueryDefinition.grouping := Azure.groupPairs;
     QueryDefinition.filter := Azure.filter tags;
     QueryDefinition.timeframe := "Custom";
     QueryDefinition.timePeriod :=
       (moment (JNum (Conv.parseInt (startTime query))),
        moment (JNum (Conv.parseInt (endTime query)))) |}.

Definition fetchCosts (fuel : nat) (subscriptionId : string) (query : CostQuery)
    (tags : list Aws.Tag) : option (Azure.Run (list (list jsval))) :=
  allPages fuel (queryUrl subscriptionId "2023-11-01") (costsQuery query tags).

(** *** [_fetchTags] *)

Definition tagsQuery (query : TagsQuery.t) (tagKey : string) : QueryDefinition.t :=
  {| QueryDefinition.type := "ActualCost";
     QueryDefinition.granularity := "None";
     QueryDefinition.aggregation := [];
     QueryDefinition.grouping := [("TagKey", tagKey)];
     QueryDefinition.filter := None;
     QueryDefinition.timeframe := "Custom";
     QueryDefinition.timePeriod :=
       (moment (JNum (Conv.parseInt (TagsQuery.startTime query))),
        moment (JNum (Conv.parseInt (TagsQuery.endTime query)))) |}.

(** The body of [for (const row of allResults)]. A number has no
    [startsWith]. *)
Definition pushTag (tagKey : string) (tags : list jsval) (row : list jsval)
    : result (list jsval) :=
  if String.eqb tagKey "" then
    match index row 0 with
    | JStr s =>
        if (negb (String.eqb s "") && negb (Str.startsWith s "hidden-"))%bool
        then Ok (tags ++ [JStr s])%list
        else Ok tags
    | JNum n => if Num.truthy n then Throw TypeError else Ok tags
    | _ => Ok tags
    end
  else if ToBoolean (index row 1) then Ok (tags ++ [index row 1])%list
  else Ok tags.

Definition collectTags (tagKey : string) (allResults : list (list jsval))
    : result (list jsval) :=
  tags <- foldM (pushTag tagKey) allResults [] ;;
  Ok (Arr.sort jsval ToString tags).

Definition _fetchTags (fuel : nat) (subscriptionId : string) (query : TagsQuery.t)
    (tagKey : string) : option (Azure.Run (list jsval)) :=
  option_map
    (fun run =>
       {| Azure.outcome := (allResults <- Azure.outcome run ;; collectTags tagKey allResults);
          Azure.sleeps := Azure.sleeps run;
          Azure.requests := Azure.requests run |})
    (allPages fuel (queryUrl subscriptionId "2021-10-01") (tagsQuery query tagKey)).

Definition fetchTagKeys (fuel : nat) (subscriptionId : string) (query : TagsQuery.t)
    : option (Azure.Run (list jsval * string)) :=
  option_map
    (fun run =>
       {| Azure.outcome := (tagKeys <- Azure.outcome run ;; Ok (tagKeys, AZURE));
          Azure.sleeps := Azure.sleeps run;
          Azure.requests := Azure.requests run |})
    (_fetchTags fuel subscriptionId query "").

Definition fetchTagValues (fuel : nat) (subscriptionId : string) (query : TagsQuery.t)
    (tagKey : string) : option (Azure.Run (list jsval * string)) :=
  option_map
    (fun run =>
       {| Azure.outcome := (tagValues <- Azure.outcome run ;; Ok (tagValues, AZURE));
          Azure.sleeps := Azure.sleeps run;
          Azure.requests := Azure.requests run |})
    (_fetchTags fuel subscriptionId query tagKey).

End Fetch.

End AzureFetch.

(** ** An environment to run the clients in *)

Module Env.

Definition daysFromCivil (y m d : Z) : Z :=
  let y' := if m <=? 2 then y - 1 else y in
  let era := y' / 400 in
  let yoe := y' - era * 400 in
  let doy := (153 * (if 2 <? m then m - 3 else m + 9) + 2) / 5 + d - 1 in
  let doe := yoe * 365 + yoe / 4 - yoe / 100 + doy in
  era * 146097 + doe - 719468.

Definition civil (y m d h mi sec : option Z) : option Z :=
  match y, m, d, h, mi, sec with
  | Some y, Some m, Some d, Some h, Some mi, Some sec =>
      if ((1 <=? m) && (m <=? 12) && (1 <=? d) && (d <=? MongoAtlas.daysInMonth y m)
          && (h <=? 23) && (mi <=? 59) && (sec <=? 59))%bool
      then Some (daysFromCivil y m d * 86400000 + h * 3600000 + mi * 60000 + sec * 1000)
      else None
  | _, _, _, _, _, _ => None
  end.

Definition has (s : string) (a b : nat) (c : string) : bool :=
  String.eqb (Str.slice a b s) c.

Definition num (s : string) (a b : nat) : option Z :=
  MongoAtlas.digits (Z.of_nat (b - a)) (Str.slice a b s).

(** [moment(x)] in a process whose time zone is UTC, at the instant [now],
    on the values the clients give it: [undefined] is now, [null] is
    invalid, a number is an instant in milliseconds, and a text is read in
    the ISO 8601 forms [YYYY-MM], [YYYY-MM-DD] and [YYYY-MM-DDTHH:mm:ss];
    any other text counts as invalid here. *)
Definition moment (now : Z) (x : jsval) : option Z :=
  match x with
  | JUndefined => Some now
  | JNull => None
  | JNum n =>
      match Num.trunc n with
      | Some t => if Z.abs t <=? 8640000000000000 then Some t else None
      | None => None
      end
  | JStr s =>
      match String.length s with
      | 7%nat =>
          if has s 4 5 "-" then civil (num s 0 4) (num s 5 7) (Some 1) (Some 0) (Some 0) (Some 0)
          else None
      | 10%nat =>
          if (has s 4 5 "-" && has s 7 8 "-")%bool
          then civil (num s 0 4) (num s 5 7) (num s 8 10) (Some 0) (Some 0) (Some 0)
          else None
      | 19%nat =>
          if (has s 4 5 "-" && has s 7 8 "-" && has s 10 11 "T" && has s 13 14 ":"
              && has s 16 17 ":")%bool
          then civil (num s 0 4) (num s 5 7) (num s 8 10) (num s 11 13) (num s 14 16)
                 (num s 17 19)
          else None
      | _ => None
      end
  end.

(** Modelled from the spec: [getCategoryByServiceName] of
    [service/functions] is not part of the sources at hand. The category is
    "looked up via the service-name-to-category mapping, default bucket if
    absent". *)
Definition getCategoryByServiceName (serviceName : jsval) (categoryMappings : dict string)
    : string :=
  match Dict.get (ToString serviceName) categoryMappings with
  | Some category => category
  | None => "Uncategorized"
  end.

(** Modelled from the spec: [CLOUD_PROVIDER.AWS] of [service/consts] is not
    part of the sources at hand; canonical AWS names are prefixed "AWS/". *)
Definition AWS : string := "AWS".

End Env.

(** ** The three clients side by side *)

Inductive Client : Set := AwsClient | AzureClient | MongoAtlasClient.

Definition prefixesOf (c : Client) : list string :=
  match c with
  | AwsClient => Aws.prefixes
  | AzureClient => Azure.prefixes
  | MongoAtlasClient => MongoAtlas.prefixes
  end.

(** Only the AWS client has a table of aliases. *)
Definition aliasesOf (c : Client) : dict string :=
  match c with
  | AwsClient => Aws.aliases
  | _ => Dict.empty
  end.

Definition convertServiceNameOf (c : Client) : string -> string -> string :=
  match c with
  | AwsClient => Aws.convertServiceName
  | AzureClient => Azure.convertServiceName
  | MongoAtlasClient => MongoAtlas.convertServiceName
  end.

(** ** Vocabulary of the properties *)

(** The delays slept after the requests [sent], ..., [sent + n - 1]. *)
Definition backoffs (sendRequest : nat -> Azure.Response) (sent n : nat) : list number :=
  map (fun i => Azure.backoff (sendRequest i)) (seq sent n).

(** The cost a transform has recorded for the group [k] and the period [p]. *)
Definition bucket (accumulator : dict Report) (k p : string) : option number :=
  match Dict.get k accumulator with
  | Some r => cost_at p r
  | None => None
  end.

(** What a row does to one bucket: the AWS and Azure clients assign the
    row's cost, the MongoDB Atlas client adds the row's amount to what the
    bucket holds, [x || 0] applied to it first. *)
Inductive write : Set :=
| Overwrite (cost : number)
| Add (amount : number).

Definition held (old : option number) : number :=
  match old with
  | Some c => Num.or0 c
  | None => zero
  end.

Definition written (w : write) (old : option number) : number :=
  match w with
  | Overwrite c => c
  | Add a => PrimFloat.add (held old) a
  end.

Record entry : Set := { entryKey : string; entryPeriod : string; entryWrite : write }.

(** An assignment to [reports["__proto__"]] leaves the object as it is. *)
Definition touches (k p : string) (e : entry) : bool :=
  (String.eqb (entryKey e) k && String.eqb (entryPeriod e) p
   && negb (String.eqb (entryPeriod e) "__proto__"))%bool.

(** The bucket after the entries [es], in order. *)
Definition replay (k p : string) (es : list entry) (old : option number) : option number :=
  fold_left (fun old e => if touches k p e then Some (written (entryWrite e) old) else old)
    es old.

(** The sum of the amounts in the order of the rows, as the MongoDB Atlas
    client computes it. *)
Definition additive (amounts : list number) : option number :=
  match amounts with
  | [] => None
  | _ => Some (fold_left (fun sum a => PrimFloat.add (Num.or0 sum) a) amounts zero)
  end.

(** The last cost of a list, if any. *)
Definition lastCost (costs : list number) : option number :=
  fold_left (fun _ c => Some c) costs None.

(** One step of each way of writing. *)
Definition overwrite (_ : option number) (c : number) : option number := Some c.

Definition accumulate (o : option number) (a : number) : option number :=
  Some (PrimFloat.add (held o) a).

(** A text that starts with a character other than an underscore. *)
Definition plainHead (s : string) : bool :=
  match s with
  | String c _ => negb (Ascii.eqb c "_")
  | EmptyString => false
  end.

(** *** Keys and well-formed responses *)

(** The keys of the accumulator after a row of key [k]: a key that is
    present, or that names an inherited member, adds nothing. *)
Definition addKey (keys : list string) (k : string) : list string :=
  if (Dict.inherited k || existsb (String.eqb k) keys)%bool then keys else (keys ++ [k])%list.

(** The distinct keys of a list, in the order of their first occurrence. *)
Definition distinct (keys : list string) : list string := fold_left addKey keys [].

(** Every report of the accumulator has the object of its costs. *)
Definition writable (accumulator : dict Report) : Prop :=
  forall k r, Dict.get k accumulator = Some r ->
    exists m, Dict.get "reports" r = Some (PReports m).

(** Every report of the accumulator has its key as its [id]. *)
Definition keyed (accumulator : dict Report) : Prop :=
  forall k r, Dict.get k accumulator = Some r -> Dict.get "id" r = Some (PStr k).

Definition isString (v : jsval) : bool :=
  match v with
  | JStr _ => true
  | _ => false
  end.

(** The invariant of the [reduce] of a transform whose static tags are
    [tkv]: unless a tag is named "reports" every report has the object of its
    costs, and unless a tag is named "id" every report has its key as its
    [id]. *)
Definition sound (tkv : dict string) (accumulator : dict Report) : Prop :=
  (Dict.get "reports" tkv = None -> writable accumulator)
  /\ (Dict.get "id" tkv = None -> keyed accumulator).

(** [if (!accumulator[keyName]) { accumulator[keyName] = {...} }], the shape
    the three clients share. *)
Definition ensure (k : string) (service : result string) (newReport : string -> Report)
    (accumulator : dict Report) : result (dict Report) :=
  if present k accumulator then Ok accumulator
  else
    service <- service ;;
    Ok (Dict.set k (newReport service) accumulator).

(** *** What each row does to the buckets *)

Module AwsRows.
Section Rows.

Variable subAccountConfig : Config.
Variable query : CostQuery.

(** A group with metrics assigns its cost to the bucket of its key and of
    the period of its row. *)
Definition groupEntries (period : string) (group : Aws.Group) : list entry :=
  match Aws.Metrics group with
  | Some groupMetrics =>
      match Aws.cost groupMetrics with
      | Ok c => [ {| entryKey := Aws.keyName subAccountConfig group;
                     entryPeriod := period;
                     entryWrite := Overwrite c |} ]
      | Throw _ => []
      end
  | None => []
  end.

Definition entries (row : Aws.ResultByTime) : list entry :=
  match Aws.Groups row with
  | Some groups => flat_map (groupEntries (Aws.period query row)) groups
  | None => []
  end.

(** The costs of the groups of key [k] in the rows of period [p], in the
    order of the response. *)
Definition groupCosts (k p period : string) (group : Aws.Group) : list number :=
  if (String.eqb (Aws.keyName subAccountConfig group) k && String.eqb period p)%bool then
    match Aws.Metrics group with
    | Some groupMetrics =>
        match Aws.cost groupMetrics with
        | Ok c => [c]
        | Throw _ => []
        end
    | None => []
    end
  else [].

Definition rowCosts (k p : string) (row : Aws.ResultByTime) : list number :=
  match Aws.Groups row with
  | Some groups => flat_map (groupCosts k p (Aws.period query row)) groups
  | None => []
  end.

Definition costs (k p : string) (costResponse : list Aws.ResultByTime) : list number :=
  flat_map (rowCosts k p) costResponse.

(** The keys of the groups of a row, in order. *)
Definition keyNames (row : Aws.ResultByTime) : list string :=
  match Aws.Groups row with
  | Some groups => map (Aws.keyName subAccountConfig) groups
  | None => []
  end.

(** A group the transform can take, whatever its amount is: its service name
    is a string, its key names no inherited member, and its metrics, if any,
    have the unblended cost. *)
Definition goodGroup (group : Aws.Group) : bool :=
  (isString (Aws.serviceName group)
   && negb (Dict.inherited (Aws.keyName subAccountConfig group))
   && match Aws.Metrics group with
      | Some groupMetrics =>
          match Dict.get "UnblendedCost" groupMetrics with
          | Some _ => true
          | None => false
          end
      | None => true
      end)%bool.

Definition wellFormed (row : Aws.ResultByTime) : bool :=
  match Aws.Groups row with
  | Some groups => forallb goodGroup groups
  | None => true
  end.

End Rows.
End AwsRows.

Module AzureRows.
Section Rows.

Variable moment : jsval -> option Z.
Variable subAccountConfig : Config.
Variable query : CostQuery.

(** A row whose date is not before the start time assigns its cost to the
    bucket of its key and of its period. *)
Definition entries (row : list jsval) : list entry :=
  match Azure.date query row with
  | Ok date =>
      if Azure.beforeStart moment query date then []
      else
        match Azure.period query date with
        | Ok p => [ {| entryKey := Azure.keyName subAccountConfig row;
                       entryPeriod := p;
                       entryWrite := Overwrite (parseFloat (index row 0)) |} ]
        | Throw _ => []
        end
  | Throw _ => []
  end.

(** The costs of the rows of key [k] and period [p] that are not before the
    start time, in the order of the response. *)
Definition rowCosts (k p : string) (row : list jsval) : list number :=
  match Azure.date query row with
  | Ok date =>
      if Azure.beforeStart moment query date then []
      else
        match Azure.period query date with
        | Ok p0 =>
            if (String.eqb (Azure.keyName subAccountConfig row) k && String.eqb p0 p)%bool
            then [parseFloat (index row 0)] else []
        | Throw _ => []
        end
  | Throw _ => []
  end.

Definition costs (k p : string) (costResponse : list (list jsval)) : list number :=
  flat_map (rowCosts k p) costResponse.

(** The cost of a row of key [k] whose billing month, the first seven
    characters of its date, is [p]: no look at the start time. *)
Definition monthCosts (k p : string) (row : list jsval) : list number :=
  match index row 1 with
  | JStr date =>
      if (String.eqb (Azure.keyName subAccountConfig row) k
          && String.eqb (Str.take 7 date) p)%bool
      then [parseFloat (index row 0)] else []
  | _ => []
  end.

(** A row the transform can take, whatever its cost is: its service name is
    a string, and its date is defined when [formatDate] reads it and a string
    when its year and month are cut out. *)
Definition wellFormed (row : list jsval) : bool :=
  (isString (index row 2)
   && (if is_daily query
       then match index row 1 with JUndefined | JNull => false | _ => true end
       else true)
   && (if is_monthly query then isString (index row 1) else true))%bool.

End Rows.
End AzureRows.

Module MongoAtlasRows.
Section Rows.

Variable moment : jsval -> option Z.
Variable getCategoryByServiceName : jsval -> dict string -> string.
Variable subAccountConfig : Config.
Variable query : CostQuery.
Variable categoryMappings : dict string.
Variable header : list string.

(** A line with a valid date whose billing period is not before the start
    time adds its amount to the bucket of its key and of that period. *)
Definition entries (line : string) : list entry :=
  match MongoAtlas.parsedDate header line with
  | Some d =>
      let billingPeriod := MongoAtlas.billingPeriod query d in
      if MongoAtlas.beforeStart moment query billingPeriod then []
      else [ {| entryKey :=
                  MongoAtlas.keyName getCategoryByServiceName subAccountConfig
                    categoryMappings header line;
                entryPeriod := billingPeriod;
                entryWrite := Add (MongoAtlas.amount header line) |} ]
  | None => []
  end.

(** The amounts of the lines of key [k] and billing period [p] that have a
    valid date and are not before the start time, in the order of the
    response. *)
Definition lineAmounts (k p : string) (line : string) : list number :=
  match MongoAtlas.parsedDate header line with
  | Some d =>
      let billingPeriod := MongoAtlas.billingPeriod query d in
      if MongoAtlas.beforeStart moment query billingPeriod then []
      else if (String.eqb (MongoAtlas.keyName getCategoryByServiceName subAccountConfig
                             categoryMappings header line) k
               && String.eqb billingPeriod p)%bool
           then [MongoAtlas.amount header line] else []
  | None => []
  end.

Definition amounts (k p : string) (lines : list string) : list number :=
  flat_map (lineAmounts k p) lines.

(** The amount of a line of key [k] whose date is valid and of the
    year-month [p]: no look at the start time. *)
Definition monthAmounts (k p : string) (line : string) : list number :=
  match MongoAtlas.parsedDate header line with
  | Some d =>
      if (String.eqb (MongoAtlas.keyName getCategoryByServiceName subAccountConfig
                        categoryMappings header line) k
          && String.eqb (MongoAtlas.format_YYYY_MM d) p)%bool
      then [MongoAtlas.amount header line] else []
  | None => []
  end.

(** The key of a line with a valid date; a line without one is skipped. *)
Definition keyNames (line : string) : list string :=
  match MongoAtlas.parsedDate header line with
  | Some _ => [MongoAtlas.keyName getCategoryByServiceName subAccountConfig categoryMappings
                 header line]
  | None => []
  end.

(** A line the transform can take, whatever its amount is: it has a SKU
    when it has a valid date. *)
Definition wellFormed (line : string) : bool :=
  match MongoAtlas.parsedDate header line with
  | Some _ => isString (MongoAtlas.serviceName header line)
  | None => true
  end.

End Rows.
End MongoAtlasRows.

(** *** Scenarios *)

(** Three responses 429 and then a response 200 with a body: the first 429
    asks for 7 seconds, the second names no delay, the third asks for 2
    seconds. *)
Definition rateLimitedThrice (i : nat) : Azure.Response :=
  if Nat.ltb i 3
  then {| Azure.status := 429; Azure.bodyAsText := JStr "Too many requests";
          Azure.retryAfterHeader :=
            nth i [Some "7"; None; Some "2"] None |}
  else {| Azure.status := 200; Azure.bodyAsText := JStr "[10,5]";
          Azure.retryAfterHeader := None |}.

(** A response 429 that asks for 3 seconds and then a response 403. *)
Definition refusedAfterOne (i : nat) : Azure.Response :=
  if Nat.ltb i 1
  then {| Azure.status := 429; Azure.bodyAsText := JStr "Too many requests";
          Azure.retryAfterHeader := Some "3" |}
  else {| Azure.status := 403; Azure.bodyAsText := JStr "Forbidden";
          Azure.retryAfterHeader := None |}.

(** April 2024, by month, for the account "prod": two rows of one group on
    the 5th and the 28th, with the amounts 10 and 5, for each client. The
    start time is 2024-04-01T00:00:00Z. *)
Module April.

Definition query : CostQuery :=
  {| startTime := "1711929600000"; endTime := "1714521600000"; granularity := "MONTHLY" |}.

Definition prod : Config := {| name := "prod"; tags := Some ["env:production"] |}.

Definition now : Z := 1717200000000.

Definition atlasCsv : string :=
  "Date,SKU,Project,Cluster,Amount" ++ MongoAtlas.newline
  ++ "04/05/2024,Atlas Data Transfer,shop,c0,10" ++ MongoAtlas.newline
  ++ "04/28/2024,Atlas Data Transfer,shop,c0,5".

Definition azureRows : list (list jsval) :=
  [ [JNum (Num.of_Z 10); JStr "2024-04-05T00:00:00"; JStr "Azure App Service"; JStr "EUR"];
    [JNum (Num.of_Z 5); JStr "2024-04-28T00:00:00"; JStr "Azure App Service"; JStr "EUR"] ].

Definition awsRow (start amount : string) : Aws.ResultByTime :=
  {| Aws.TimePeriod := Some {| Aws.Start := Some start; Aws.End_ := None |};
     Aws.Groups :=
       Some [ {| Aws.Keys := Some ["Amazon Simple Storage Service"];
                 Aws.Metrics :=
                   Some [("UnblendedCost",
                          {| Aws.Amount := Some amount; Aws.Unit := Some "USD" |})] |} ] |}.

Definition awsRows : list Aws.ResultByTime :=
  [awsRow "2024-04-05" "10"; awsRow "2024-04-28" "5"].

Definition output (r : result (dict Report)) : dict Report :=
  match r with
  | Ok acc => acc
  | Throw _ => Dict.empty
  end.

Definition atlasData : dict Report :=
  Eval vm_compute in
    output (MongoAtlas.transformedData (Env.moment now) Env.getCategoryByServiceName
              "MongoAtlas" prod query Dict.empty atlasCsv).

Definition azureData : dict Report :=
  Eval vm_compute in
    output (Azure.transformedData (Env.moment now) Env.getCategoryByServiceName "Azure" prod
              query Dict.empty azureRows).

Definition awsData : dict Report :=
  Eval vm_compute in
    output (Aws.transformedData Env.getCategoryByServiceName Env.AWS prod query Dict.empty
              awsRows).

(** A row of the Azure response dated at the start time exactly, and what
    the transform makes of it alone. *)
Definition azureAtStart : list jsval :=
  [JNum (Num.of_Z 7); JStr "2024-04-01T00:00:00"; JStr "Azure App Service"; JStr "EUR"].

Definition azureAtStartData : dict Report :=
  Eval vm_compute in
    output (Azure.onRow (Env.moment now) Env.getCategoryByServiceName "Azure" prod query
              Dict.empty [("env", "production")] Dict.empty azureAtStart).

(** The same row when the start time is one millisecond later. *)
Definition queryLate : CostQuery :=
  {| startTime := "1711929600001"; endTime := "1714521600000"; granularity := "MONTHLY" |}.

Definition azureBeforeStartData : dict Report :=
  Eval vm_compute in
    output (Azure.onRow (Env.moment now) Env.getCategoryByServiceName "Azure" prod queryLate
              Dict.empty [("env", "production")] Dict.empty azureAtStart).

(** A row of the AWS response a month before the start time. *)
Definition awsEarly : list Aws.ResultByTime := [awsRow "2024-03-05" "7"].

(** The same month asked for from 2024-04-03T00:00:00Z on. *)
Definition queryThird : CostQuery :=
  {| startTime := "1712102400000"; endTime := "1714521600000"; granularity := "MONTHLY" |}.

End April.

(** One week of April 2024, by day: a row of the Azure response with a usage
    date of seven digits. *)
Module Daily.

Definition query : CostQuery :=
  {| startTime := "1711929600000"; endTime := "1712534400000"; granularity := "DAILY" |}.

Definition azureRows : list (list jsval) :=
  [ [JNum 12.5%float; JNum 2024047%float; JStr "Azure App Service"; JStr "EUR"] ].

End Daily.

(** An invoice of MongoDB Atlas: two lines of metadata, an empty line, the
    columns, a line of the project "Credit Union App" and a line whose SKU
    is "Credit". *)
Module Invoice.

Definition csv : string :=
  Str.join MongoAtlas.newline
    [ "Organization Name,Acme";
      "Organization ID,5f3c";
      "";
      "Date,SKU,Project,Cluster,Amount";
      "04/05/2024,Atlas Data Transfer,Credit Union App,c0,10";
      "04/06/2024,Credit,shop,c0,-3";
      "04/07/2024,Atlas Data Transfer,shop,c0,4" ].

Definition invoices : MongoAtlas.InvoicesResponse :=
  {| MongoAtlas.invoicesStatus := 200; MongoAtlas.invoicesStatusText := "OK";
     MongoAtlas.results := ["inv-1"] |}.

Definition requestCsv (invoiceId : string) : MongoAtlas.CsvResponse :=
  {| MongoAtlas.status := 200; MongoAtlas.statusText := "OK"; MongoAtlas.data := csv |}.

End Invoice.

(** Two lines of a MongoDB Atlas invoice with different SKUs for one
    project and one cluster, and an AWS response whose first amount is no
    number. *)
Module Mixed.

Definition atlasCsv : string :=
  Str.join MongoAtlas.newline
    [ "Date,SKU,Project,Cluster,Amount";
      "04/05/2024,Atlas Data Transfer,shop,c0,10";
      "04/28/2024,Atlas Backup Storage,shop,c0,5" ].

Definition awsRows : list Aws.ResultByTime :=
  [April.awsRow "2024-04-01" "abc"; April.awsRow "2024-05-01" "5"].

Definition awsData : dict Report :=
  Eval vm_compute in
    April.output (Aws.transformedData Env.getCategoryByServiceName Env.AWS April.prod
                    April.query Dict.empty awsRows).

Definition atlasData : dict Report :=
  Eval vm_compute in
    April.output (MongoAtlas.transformedData (Env.moment April.now)
                    Env.getCategoryByServiceName "MongoAtlas" April.prod April.query
                    Dict.empty atlasCsv).

End Mixed.

(** The [id] of each report of an output. *)
Definition ids (reports : list Report) : list (option prop) := map (Dict.get "id") reports.

Definition idOf (k : string) : option prop := Some (PStr k).

(** *** Properties of every report *)

(** Every report of the accumulator satisfies [R]. *)
Definition every (R : Report -> Prop) (accumulator : dict Report) : Prop :=
  forall k r, Dict.get k accumulator = Some r -> R r.

(** The report has every static tag as a property. *)
Definition carries (tkv : dict string) (r : Report) : Prop :=
  forall k v, Dict.get k tkv = Some v -> Dict.get k r = Some (PStr v).

(** The fixed properties [name], [provider] and [service] of a report of the
    account [account], each unless a static tag of that name replaces it. *)
Definition branded (tkv : dict string) (provider account : string) (r : Report) : Prop :=
  (Dict.get "name" tkv = None -> Dict.get "name" r = Some (PStr (provider ++ "/" ++ account)))
  /\ (Dict.get "provider" tkv = None -> Dict.get "provider" r = Some (PStr provider))
  /\ (Dict.get "service" tkv = None ->
      exists s, Dict.get "service" r = Some (PStr (provider ++ "/" ++ s))).

(** The number of groups of an AWS response. *)
Definition groupCount (rows : list Aws.ResultByTime) : nat :=
  List.length (flat_map (fun row => match Aws.Groups row with Some g => g | None => [] end)
                 rows).

(** Whether a line of a MongoDB Atlas response has a valid date. *)
Definition dated (header : list string) (line : string) : bool :=
  match MongoAtlas.parsedDate header line with
  | Some _ => true
  | None => false
  end.

(** The account "prod" with a static tag named "id", and with one named
    "reports". *)
Module Tagged.

Definition relabelled : Config :=
  {| name := "prod"; tags := Some ["id: billing "; "env:production"] |}.

Definition tkv : dict string := [("id", "billing"); ("env", "production")].

Definition run (r : result (list Report)) : list Report :=
  match r with
  | Ok reports => reports
  | Throw _ => []
  end.

Definition atlasReports : list Report :=
  Eval vm_compute in
    run (MongoAtlas.transformCostsData (Env.moment April.now) Env.getCategoryByServiceName
           "MongoAtlas" relabelled April.query Dict.empty April.atlasCsv).

Definition azureReports : list Report :=
  Eval vm_compute in
    run (Azure.transformCostsData (Env.moment April.now) Env.getCategoryByServiceName
           "Azure" relabelled April.query Dict.empty April.azureRows).

Definition awsReports : list Report :=
  Eval vm_compute in
    run (Aws.transformCostsData Env.getCategoryByServiceName Env.AWS relabelled April.query
           Dict.empty April.awsRows).

Definition shadowed : Config := {| name := "prod"; tags := Some ["reports:none"] |}.

End Tagged.

(** *** The lines of a download *)

(** A line that starts with "Organization ID," once trimmed. *)
Definition isHeading (line : string) : bool :=
  Str.startsWith (Str.trim line) "Organization ID,".

(** A line that is no heading, not blank, and has no "Credit" in it. *)
Definition isKept (line : string) : bool :=
  (negb (isHeading line) && negb (String.eqb (Str.trim line) "")
   && negb (Str.includes (Str.trim line) "Credit"))%bool.

(** The lines after the first heading. *)
Fixpoint afterHeading (lines : list string) : list string :=
  match lines with
  | [] => []
  | line :: rest => if isHeading line then rest else afterHeading rest
  end.

(** The lines one download gives to the response: a download of which
    nothing is kept still gives one empty line. *)
Definition invoiceLines (data : string) : list string :=
  match MongoAtlas.filterLines false (Str.split Str.LF data) with
  | [] => [EmptyString]
  | kept => kept
  end.

(** Whether a text has no line feed. *)
Fixpoint oneLine (s : string) : bool :=
  match s with
  | EmptyString => true
  | String c s' => (negb (Ascii.eqb c Str.LF) && oneLine s')%bool
  end.

(** Two invoices: the first one has no line "Organization ID,", the second
    one is a usual one. *)
Module TwoInvoices.

Definition invoices : MongoAtlas.InvoicesResponse :=
  {| MongoAtlas.invoicesStatus := 200; MongoAtlas.invoicesStatusText := "OK";
     MongoAtlas.results := ["inv-0"; "inv-1"] |}.

Definition requestCsv (invoiceId : string) : MongoAtlas.CsvResponse :=
  {| MongoAtlas.status := 200; MongoAtlas.statusText := "OK";
     MongoAtlas.data := if String.eqb invoiceId "inv-0" then "No data" else Invoice.csv |}.

(** The second download fails. *)
Definition failing (invoiceId : string) : MongoAtlas.CsvResponse :=
  if String.eqb invoiceId "inv-0" then requestCsv invoiceId
  else {| MongoAtlas.status := 503; MongoAtlas.statusText := "Service Unavailable";
          MongoAtlas.data := "" |}.

(** The response of [Mixed] with a title, a blank line, a repeated header
    and a line of totals among its rows. *)
Definition padded : string :=
  Str.join MongoAtlas.newline
    [ "Date,SKU,Project,Cluster,Amount";
      "Invoice of April";
      "04/05/2024,Atlas Data Transfer,shop,c0,10";
      "";
      "Date,SKU,Project,Cluster,Amount";
      "04/28/2024,Atlas Backup Storage,shop,c0,5";
      "Total,,,,15" ].

End TwoInvoices.


(** *** Runs of the retry loop *)

(** What a call of [fetchDataWithRetry] does with a response that is no
    429. *)
Definition settle (J : Type) (JSON_parse : string -> result J) (response : Azure.Response)
    : result J :=
  if Azure.status response =? 200
  then JSON_parse (Azure.orText (Azure.bodyAsText response) "{}")
  else Throw (Error (Azure.errorMessage (Azure.bodyAsText response))).

(** *** Pages *)

(** The order of [sort()]: by the texts of the elements. *)
Definition byText {A : Type} (text : A -> string) (a b : A) : Prop :=
  String.leb (text a) (text b) = true.

Definition nonEmpty (tag : string) : bool := negb (String.eqb tag "").

Module AwsPages.

Section Pages.

Variable day : string -> string.
Variable sendGetTags : GetTagsCommandInput.t -> nat -> result GetTagsCommandOutput.t.
Variable sendGetCostAndUsage :
  GetCostAndUsageCommandInput.t -> nat -> result GetCostAndUsageCommandOutput.t.

(** The tags of the first [k] responses to the command of [_fetchTags]. *)
Definition tagsOf (query : TagsQuery.t) (tagKey : option string) (k : nat) : list string :=
  flat_map
    (fun sent =>
       match sendGetTags (AwsFetch.tagsInput day query tagKey) sent with
       | Ok response =>
           match GetTagsCommandOutput.Tags response with
           | Some tags => tags
           | None => []
           end
       | Throw _ => []
       end)
    (seq 0 k).

Variable query : CostQuery.
Variable tags : list Aws.Tag.

(** The responses [pages] answer the commands of [fetchCosts] one after
    the other, from the one sent after [sent] others on, when each command
    carries the token of the response before it. *)
Fixpoint answers (sent : nat) (token : option string)
    (pages : list GetCostAndUsageCommandOutput.t) : Prop :=
  match pages with
  | [] => True
  | page :: rest =>
      sendGetCostAndUsage (AwsFetch.costsInput day query tags token) sent = Ok page
      /\ answers (S sent) (GetCostAndUsageCommandOutput.NextPageToken page) rest
  end.

(** Each of [pages] names a next page. *)
Definition unfinished (pages : list GetCostAndUsageCommandOutput.t) : bool :=
  forallb (fun page => given (GetCostAndUsageCommandOutput.NextPageToken page)) pages.

(** The token of the command that follows [pages]. *)
Definition tokenAfter (token : option string) (pages : list GetCostAndUsageCommandOutput.t)
    : option string :=
  fold_left (fun _ page => GetCostAndUsageCommandOutput.NextPageToken page) pages token.

End Pages.

End AwsPages.

Module AzurePages.

Section Pages.

Variable J : Type.
Variable JSON_parse : string -> result J.
Variable properties : J -> option AzureFetch.Properties.
Variable sendRequest : string -> QueryDefinition.t -> nat -> Azure.Response.
Variable body : QueryDefinition.t.

(** The request for [url] sent after [sent] others is answered at once
    with the page [page]. *)
Definition serves (sent : nat) (url : string) (page : AzureFetch.Properties) : Prop :=
  exists result,
    Azure.status (sendRequest url body sent) = 200
    /\ JSON_parse (Azure.orText (Azure.bodyAsText (sendRequest url body sent)) "{}")
       = Ok result
    /\ properties result = Some page.

(** The pages [pages] are served one after the other from [url] on, each
    at the link of the page before it. *)
Fixpoint served (sent : nat) (url : string) (pages : list AzureFetch.Properties) : Prop :=
  match pages with
  | [] => True
  | page :: rest =>
      serves sent url page
      /\ match AzureFetch.nextLink page with
         | Some link => served (S sent) link rest
         | None => rest = []
         end
  end.

(** Each of [pages] but the last has a link, and the last has none. *)
Fixpoint linked (pages : list AzureFetch.Properties) : bool :=
  match pages with
  | [] => false
  | [page] => negb (given (AzureFetch.nextLink page))
  | page :: rest => (given (AzureFetch.nextLink page) && linked rest)%bool
  end.

End Pages.

End AzurePages.

(** A month of costs on two pages, and tags on a page that names a next
    one. *)
Module Paged.

Definition day (t : string) : string :=
  if String.eqb t "1711929600000" then "2024-04-01" else "2024-05-01".

Definition page1 : GetCostAndUsageCommandOutput.t :=
  {| GetCostAndUsageCommandOutput.ResultsByTime := [April.awsRow "2024-04-05" "10"];
     GetCostAndUsageCommandOutput.NextPageToken := Some "page-2" |}.

Definition page2 : GetCostAndUsageCommandOutput.t :=
  {| GetCostAndUsageCommandOutput.ResultsByTime := [April.awsRow "2024-04-28" "5"];
     GetCostAndUsageCommandOutput.NextPageToken := None |}.

(** A service that answers by the token of the command alone. *)
Definition sendGetCostAndUsage (input : GetCostAndUsageCommandInput.t) (sent : nat)
    : result GetCostAndUsageCommandOutput.t :=
  match GetCostAndUsageCommandInput.NextPageToken input with
  | None => Ok page1
  | Some token =>
      if String.eqb token "page-2" then Ok page2 else Throw (Error "Invalid token")
  end.

Definition tagsQuery : TagsQuery.t :=
  {| TagsQuery.startTime := "1711929600000"; TagsQuery.endTime := "1714521600000" |}.

Definition tagsPage1 : GetTagsCommandOutput.t :=
  {| GetTagsCommandOutput.Tags := Some ["team"; ""; "env"];
     GetTagsCommandOutput.NextPageToken := Some "page-2" |}.

(** A service that answers equal commands equally. *)
Definition sendGetTags (input : GetTagsCommandInput.t) (sent : nat)
    : result GetTagsCommandOutput.t :=
  Ok tagsPage1.

(** A service that answers the second command with the last page. *)
Definition sendGetTagsTwice (input : GetTagsCommandInput.t) (sent : nat)
    : result GetTagsCommandOutput.t :=
  if Nat.eqb sent 0 then Ok tagsPage1
  else Ok {| GetTagsCommandOutput.Tags := Some ["owner"; "cost-center"];
             GetTagsCommandOutput.NextPageToken := None |}.

End Paged.


(** Costs of Azure on two pages and a page of tag keys, with a service
    that answers at once and one that answers each page after four
    responses 429. *)
Module PagedAzure.

Definition costsUrl : string := AzureFetch.queryUrl "sub-1" "2023-11-01".

Definition tagsUrl : string := AzureFetch.queryUrl "sub-1" "2021-10-01".

Definition page1 : AzureFetch.Properties :=
  {| AzureFetch.rows := [nth 0 April.azureRows []];
     AzureFetch.nextLink := Some "https://management.azure.com/next" |}.

Definition page2 : AzureFetch.Properties :=
  {| AzureFetch.rows := [nth 1 April.azureRows []]; AzureFetch.nextLink := None |}.

Definition tagKeys : AzureFetch.Properties :=
  {| AzureFetch.rows :=
       [ [JStr "team"]; [JStr "hidden-link:/app"]; [JStr ""]; [JStr "env"]; [JNull] ];
     AzureFetch.nextLink := None |}.

Definition JSON_parse (text : string) : result AzureFetch.Properties :=
  if String.eqb text "1" then Ok page1
  else if String.eqb text "2" then Ok page2
  else if String.eqb text "keys" then Ok tagKeys
  else Throw (Error "Unexpected token").

Definition properties (result : AzureFetch.Properties) : option AzureFetch.Properties :=
  Some result.

Definition ok (text : string) : Azure.Response :=
  {| Azure.status := 200; Azure.bodyAsText := JStr text; Azure.retryAfterHeader := None |}.


Definition sendRequest (url : string) (body : QueryDefinition.t) (sent : nat)
    : Azure.Response :=
  if String.eqb url costsUrl then ok "1"
  else if String.eqb url tagsUrl then ok "keys"
  else ok "2".


End PagedAzure.


(** What holds of a tag the Azure client takes from the rows [allResults]:
    it is truthy, it is the first member of a row when keys are asked for
    (the tag key is empty) and the second one otherwise, and a key does not
    start with "hidden-". *)
Definition pushed (tagKey : string) (allResults : list (list jsval)) (tag : jsval) : Prop :=
  ToBoolean tag = true
  /\ (exists row, In row allResults
                  /\ tag = index row (if String.eqb tagKey "" then 0 else 1)%nat)
  /\ (tagKey = "" -> exists s, tag = JStr s /\ Str.startsWith s "hidden-" = false).


(** * Properties *)

(** ** Service names *)

Lemma prefix_cons (a b : ascii) (p s : string) :
  String.prefix (String a p) (String b s) = true -> a = b /\ String.prefix p s = true.
Proof.
  simpl. destruct (ascii_dec a b) as [e | n]; [auto | discriminate].
Qed.

(** No service name starts with both prefixes of the AWS client. *)
Lemma aws_prefixes_exclusive (s : string) :
  Str.startsWith s "Amazon" = true -> Str.startsWith s "AWS" = false.
Proof.
  unfold Str.startsWith. intros H.
  destruct s as [| c1 [| c2 s]]; try discriminate.
  - apply prefix_cons in H as [_ H]. discriminate.
  - apply prefix_cons in H as [<- H]. apply prefix_cons in H as [<- _]. reflexivity.
Qed.

Lemma stripPrefixes_one (prefix s : string) :
  Str.startsWith s prefix = true ->
  stripPrefixes [prefix] s = Str.trim (Str.slice_from (String.length prefix) s).
Proof. unfold stripPrefixes. simpl. intros ->. reflexivity. Qed.

Lemma stripPrefixes_aws (prefix s : string) :
  In prefix Aws.prefixes -> Str.startsWith s prefix = true ->
  stripPrefixes Aws.prefixes s = Str.trim (Str.slice_from (String.length prefix) s).
Proof.
  intros [<- | [<- | []]] H; unfold stripPrefixes; simpl.
  - rewrite H, (aws_prefixes_exclusive _ H). reflexivity.
  - rewrite H. reflexivity.
Qed.

(** Every alias of the table is a non-empty name. *)
Lemma aws_alias_nonempty (k a : string) :
  Dict.get k Aws.aliases = Some a -> String.eqb a "" = false.
Proof.
  unfold Aws.aliases. simpl.
  repeat (destruct (String.eqb k _); [intros [= <-]; reflexivity |]).
  discriminate.
Qed.

Lemma aws_alias_spec (n : string) :
  Aws.alias n = match Dict.get n Aws.aliases with Some a => a | None => n end.
Proof.
  unfold Aws.alias. destruct (Dict.get n Aws.aliases) as [a |] eqn:E; [| reflexivity].
  rewrite (aws_alias_nonempty _ _ E). reflexivity.
Qed.

(** C7. A service name that starts with one of the client's prefixes is
    converted to ["<provider>/"] followed by the alias of its stripped and
    trimmed remainder when the alias table has one, and by that remainder
    itself when it has none. *)
Theorem convertServiceName_canonical :
  forall (c : Client) (provider serviceName prefix : string),
    In prefix (prefixesOf c) ->
    Str.startsWith serviceName prefix = true ->
    let stripped := Str.trim (Str.slice_from (String.length prefix) serviceName) in
    convertServiceNameOf c provider serviceName =
    provider ++ "/" ++ match Dict.get stripped (aliasesOf c) with
                       | Some alias => alias
                       | None => stripped
                       end.
Proof.
  intros c provider s prefix Hin Hs stripped. subst stripped.
  destruct c; simpl in *.
  - unfold Aws.convertServiceName.
    rewrite (stripPrefixes_aws _ _ Hin Hs), aws_alias_spec. reflexivity.
  - destruct Hin as [<- | []]. unfold Azure.convertServiceName, Azure.prefixes.
    rewrite (stripPrefixes_one _ _ Hs). reflexivity.
  - destruct Hin as [<- | []]. unfold MongoAtlas.convertServiceName, MongoAtlas.prefixes.
    rewrite (stripPrefixes_one _ _ Hs). reflexivity.
Qed.

Lemma convertServiceName_canonical_witness :
  Aws.convertServiceName Env.AWS "Amazon Simple Storage Service"
  = "AWS/S3 (Simple Storage Service)".
Proof.
  exact (convertServiceName_canonical AwsClient Env.AWS "Amazon Simple Storage Service"
           "Amazon" (or_introl eq_refl) eq_refl).
Defined.

(** A name that starts with none of the prefixes is kept as it is, up to the
    alias table. *)
Lemma convertServiceName_unprefixed (c : Client) (provider serviceName : string) :
  forallb (fun p => negb (Str.startsWith serviceName p)) (prefixesOf c) = true ->
  convertServiceNameOf c provider serviceName =
  provider ++ "/" ++ match Dict.get serviceName (aliasesOf c) with
                     | Some alias => alias
                     | None => serviceName
                     end.
Proof.
  destruct c; simpl; rewrite ?andb_true_r, ?andb_true_iff, ?negb_true_iff.
  - intros [H1 H2]. unfold Aws.convertServiceName, stripPrefixes. simpl.
    rewrite H1, H2, aws_alias_spec. reflexivity.
  - intros H. unfold Azure.convertServiceName, stripPrefixes. simpl. rewrite H. reflexivity.
  - intros H. unfold MongoAtlas.convertServiceName, stripPrefixes. simpl. rewrite H.
    reflexivity.
Qed.

(** ** Tag filters *)

Lemma fold_push_map {A B : Type} (f : A -> B) (l : list A) (acc : list B) :
  fold_left (fun tagList tag => (tagList ++ [f tag])%list) l acc = (acc ++ map f l)%list.
Proof.
  revert acc. induction l as [| x l IH]; intros acc; simpl.
  - now rewrite app_nil_r.
  - rewrite IH, <- app_assoc. reflexivity.
Qed.

(** C4. For two tags or more the tag filter is the disjunction of one
    clause per tag, in the order of the tags; the AWS client puts it in a
    conjunction with the base filter on usage records. Without tags there is
    no tag filter: the AWS filter is the base filter alone and the Azure
    filter is undefined. *)
Theorem tag_filter_is_disjunction :
  forall tags : list Aws.Tag,
    (2 <= List.length tags)%nat ->
    Aws.filterExpression tags
    = Aws.And [Aws.Dimensions "RECORD_TYPE" ["Usage"]; Aws.Or (map Aws.tagClause tags)]
    /\ Azure.filter tags = Some (Azure.or_ (map Azure.tagClause tags))
    /\ Aws.filterExpression [] = Aws.Dimensions "RECORD_TYPE" ["Usage"]
    /\ Azure.filter [] = None.
Proof.
  intros tags H. unfold Aws.filterExpression, Azure.filter.
  destruct tags as [| t1 [| t2 tags]]; simpl in H; try lia.
  cbn [List.length Nat.eqb]. rewrite !fold_push_map. repeat split.
Qed.

Lemma tag_filter_is_disjunction_witness :
  let tags := [ {| Aws.key := "team"; Aws.value := Some "a" |};
                {| Aws.key := "env"; Aws.value := Some "prod" |} ] in
  Aws.filterExpression tags
  = Aws.And [Aws.Dimensions "RECORD_TYPE" ["Usage"];
             Aws.Or [Aws.Tags "team" [Some "a"]; Aws.Tags "env" [Some "prod"]]]
  /\ Azure.filter tags
     = Some (Azure.or_ [Azure.tags_ "team" "In" [Some "a"]; Azure.tags_ "env" "In" [Some "prod"]]).
Proof.
  pose proof (tag_filter_is_disjunction
                [ {| Aws.key := "team"; Aws.value := Some "a" |};
                  {| Aws.key := "env"; Aws.value := Some "prod" |} ] (le_n 2)) as H.
  split; [exact (proj1 H) | exact (proj1 (proj2 H))].
Defined.


(** ** The retry loop of the Azure client *)

Section RetryFacts.

Variable J : Type.
Variable JSON_parse : string -> result J.
Variable sendRequest : nat -> Azure.Response.

Let retryLoop := Azure.retryLoop J JSON_parse sendRequest.
Let backoffs := backoffs sendRequest.

(** [n] responses 429 in a row use up [n] retries, each after a sleep. *)
Lemma retryLoop_rate_limited (n : nat) :
  forall (remaining sent : nat) (slept : list number),
    (forall i, (i < n)%nat -> Azure.status (sendRequest (sent + i)) = 429) ->
    retryLoop (n + remaining) sent slept
    = retryLoop remaining (sent + n)%nat (slept ++ backoffs sent n)%list.
Proof.
  induction n as [| n IH]; intros remaining sent slept H.
  - unfold backoffs. simpl. now rewrite Nat.add_0_r, app_nil_r.
  - simpl. unfold retryLoop at 1. simpl.
    pose proof (H 0%nat ltac:(lia)) as H0. rewrite Nat.add_0_r in H0. rewrite H0. simpl.
    fold retryLoop. rewrite IH.
    + unfold backoffs. simpl. rewrite <- app_assoc. simpl.
      now replace (S (sent + n)) with (sent + S n)%nat by lia.
    + intros i Hi. replace (S sent + i)%nat with (sent + S i)%nat by lia. apply H. lia.
Qed.


End RetryFacts.

(** The delay is the number of seconds at the head of the retry-after header
    times 1000, and 60 seconds when the header is absent or empty. *)
Lemma backoff_header (r : Azure.Response) :
  Azure.backoff r
  = match Azure.retryAfterHeader r with
    | Some h => if String.eqb h "" then Num.of_Z 60000
                else PrimFloat.mul (Conv.parseInt h) (Num.of_Z 1000)
    | None => Num.of_Z 60000
    end.
Proof.
  unfold Azure.backoff, Azure.retryAfter.
  destruct (Azure.retryAfterHeader r) as [h |]; [destruct (String.eqb h "") |]; reflexivity.
Qed.

(** The delays slept after [n] responses 429, with the header read in the
    statement's own words. *)
Lemma backoffs_header (sendRequest : nat -> Azure.Response) (n : nat) :
  backoffs sendRequest 0 n
  = map (fun i =>
           PrimFloat.mul
             (Conv.parseInt
                match Azure.retryAfterHeader (sendRequest i) with
                | Some h => if String.eqb h "" then "60" else h
                | None => "60"
                end)
             (Num.of_Z 1000))
      (seq 0 n).
Proof. reflexivity. Qed.



(** ** Dictionaries *)

Lemma get_set_same {V : Type} (k : string) (v : V) (d : dict V) :
  Dict.get k (Dict.set k v d) = Some v.
Proof.
  induction d as [| [k' v'] d IH]; simpl.
  - now rewrite String.eqb_refl.
  - destruct (String.eqb k k') eqn:E; simpl; rewrite ?String.eqb_refl, ?E; auto.
Qed.

Lemma get_set_other {V : Type} (k k' : string) (v : V) (d : dict V) :
  k <> k' -> Dict.get k' (Dict.set k v d) = Dict.get k' d.
Proof.
  intros Hne. induction d as [| [k0 v0] d IH]; simpl.
  - apply String.eqb_neq in Hne. now rewrite String.eqb_sym, Hne.
  - destruct (String.eqb k k0) eqn:E; simpl.
    + apply String.eqb_eq in E. subst k0.
      apply String.eqb_neq in Hne. now rewrite String.eqb_sym, Hne.
    + now rewrite IH.
Qed.

Lemma get_set {V : Type} (k k' : string) (v : V) (d : dict V) :
  Dict.get k' (Dict.set k v d) = if String.eqb k k' then Some v else Dict.get k' d.
Proof.
  destruct (String.eqb_spec k k') as [<- | Hne].
  - apply get_set_same.
  - now apply get_set_other.
Qed.

(** Setting a property that exists keeps the keys; a new key goes last. *)
Lemma keys_set {V : Type} (k : string) (v : V) (d : dict V) :
  Dict.keys (Dict.set k v d)
  = match Dict.get k d with
    | Some _ => Dict.keys d
    | None => (Dict.keys d ++ [k])%list
    end.
Proof.
  unfold Dict.keys. induction d as [| [k' v'] d IH]; simpl; [reflexivity |].
  destruct (String.eqb_spec k k') as [<- | Hne]; simpl; [reflexivity |].
  rewrite IH. now destruct (Dict.get k d).
Qed.

Lemma get_None_keys {V : Type} (k : string) (d : dict V) :
  Dict.get k d = None <-> ~ In k (Dict.keys d).
Proof.
  unfold Dict.keys. induction d as [| [k' v'] d IH]; simpl; [tauto |].
  destruct (String.eqb_spec k k') as [<- | Hne].
  - split; [discriminate | tauto].
  - rewrite IH. split; [intros H [E | H']; [congruence | tauto] | tauto].
Qed.

Lemma get_assign {V : Type} (k k' : string) (v : V) (d : dict V) :
  Dict.get k' (Dict.assign k v d)
  = if (String.eqb k k' && negb (String.eqb k "__proto__"))%bool then Some v
    else Dict.get k' d.
Proof.
  unfold Dict.assign. destruct (String.eqb k "__proto__"); simpl.
  - now rewrite andb_false_r.
  - now rewrite andb_true_r, get_set.
Qed.

(** ** Buckets *)

(** The static tags add no cost to a new report. *)
Lemma cost_at_spread (p : string) (tkv : dict string) :
  forall base : Report, cost_at p base = None -> cost_at p (spread base tkv) = None.
Proof.
  unfold spread. induction tkv as [| [k v] tkv IH]; intros base H; simpl; [exact H |].
  apply IH. unfold cost_at. rewrite get_set.
  destruct (String.eqb k "reports"); [reflexivity | exact H].
Qed.

Lemma bucket_set (k k' p : string) (r : Report) (acc : dict Report) :
  bucket (Dict.set k r acc) k' p = if String.eqb k k' then cost_at p r else bucket acc k' p.
Proof. unfold bucket. rewrite get_set. now destruct (String.eqb k k'). Qed.

Lemma present_false (k : string) (acc : dict Report) :
  present k acc = false -> Dict.get k acc = None.
Proof.
  unfold present. destruct (Dict.inherited k); simpl; [discriminate |].
  now destruct (Dict.get k acc).
Qed.

(** [record_cost] changes the bucket it names and no other. *)
Lemma bucket_record_cost (k p : string) (c : number) (acc acc' : dict Report) :
  record_cost k p c acc = Ok acc' ->
  forall k' p',
    bucket acc' k' p'
    = if touches k' p' {| entryKey := k; entryPeriod := p; entryWrite := Overwrite c |}
      then Some c else bucket acc k' p'.
Proof.
  unfold record_cost, write_cost, touches. simpl.
  destruct (Dict.get k acc) as [r |] eqn:Ek; [| discriminate].
  destruct (Dict.get "reports" r) as [[s | m] |] eqn:Er; try discriminate.
  simpl. intros [= <-] k' p'. rewrite bucket_set.
  destruct (String.eqb_spec k k') as [<- | Hne]; simpl; [| reflexivity].
  unfold cost_at, bucket. rewrite get_set_same, get_assign, Ek. unfold cost_at. rewrite Er.
  reflexivity.
Qed.

Lemma replay_app (k p : string) (es1 es2 : list entry) (old : option number) :
  replay k p (es1 ++ es2) old = replay k p es2 (replay k p es1 old).
Proof. unfold replay. apply fold_left_app. Qed.

(** A loop whose every step replays the entries of its element replays the
    entries of the whole list. *)
Lemma foldM_replay {B : Type} (step : dict Report -> B -> result (dict Report))
    (entries : B -> list entry) :
  (forall acc x acc', step acc x = Ok acc' ->
     forall k p, bucket acc' k p = replay k p (entries x) (bucket acc k p)) ->
  forall l acc acc', foldM step l acc = Ok acc' ->
    forall k p, bucket acc' k p = replay k p (flat_map entries l) (bucket acc k p).
Proof.
  intros Hstep l. induction l as [| x l IH]; intros acc acc' H k p; simpl in *.
  - now injection H as <-.
  - destruct (step acc x) as [acc1 |] eqn:E; simpl in H; [| discriminate].
    rewrite replay_app, (IH _ _ H), (Hstep _ _ _ E). reflexivity.
Qed.

Lemma replay_one (k p : string) (e : entry) (old : option number) :
  replay k p [e] old = if touches k p e then Some (written (entryWrite e) old) else old.
Proof. reflexivity. Qed.

Lemma replay_nil (k p : string) (old : option number) : replay k p [] old = old.
Proof. reflexivity. Qed.

Arguments replay : simpl never.
Arguments bucket : simpl never.
Arguments touches : simpl never.

Lemma touches_key_period (k p : string) (e : entry) :
  touches k p e = true -> entryKey e = k /\ entryPeriod e = p.
Proof.
  unfold touches. rewrite !andb_true_iff. intros [[H1 H2] _].
  split; now apply String.eqb_eq.
Qed.

(** Whether an entry touches a bucket depends on its key and period only. *)
Lemma touches_write (k p key period : string) (w w' : write) :
  touches k p {| entryKey := key; entryPeriod := period; entryWrite := w |}
  = touches k p {| entryKey := key; entryPeriod := period; entryWrite := w' |}.
Proof. reflexivity. Qed.

(** ** The transform of the AWS client, bucket by bucket *)

Section AwsFacts.

Variable getCategoryByServiceName : jsval -> dict string -> string.
Variable provider : string.
Variable subAccountConfig : Config.
Variable query : CostQuery.
Variable categoryMappings : dict string.

Let ensureReport :=
  Aws.ensureReport getCategoryByServiceName provider subAccountConfig categoryMappings.
Let onGroup := Aws.onGroup getCategoryByServiceName provider subAccountConfig categoryMappings.
Let onRow := Aws.onRow getCategoryByServiceName provider subAccountConfig query categoryMappings.

Lemma aws_ensureReport_buckets (tkv : dict string) (g : Aws.Group) (acc acc' : dict Report) :
  ensureReport tkv g acc = Ok acc' ->
  forall k p, bucket acc' k p = bucket acc k p.
Proof.
  unfold ensureReport, Aws.ensureReport.
  destruct (present _ acc) eqn:Ep; [now intros [= <-] |].
  destruct (callConvert _ _) as [service |]; simpl; [| discriminate].
  intros [= <-] k p. rewrite bucket_set.
  destruct (String.eqb_spec (Aws.keyName subAccountConfig g) k) as [<- | Hne]; [| reflexivity].
  unfold bucket. rewrite (present_false _ _ Ep).
  now apply cost_at_spread.
Qed.

Lemma aws_onGroup_replay (tkv : dict string) (period : string) (acc acc' : dict Report)
    (g : Aws.Group) :
  onGroup tkv period acc g = Ok acc' ->
  forall k p,
    bucket acc' k p
    = replay k p (AwsRows.groupEntries subAccountConfig period g) (bucket acc k p).
Proof.
  unfold onGroup, Aws.onGroup, AwsRows.groupEntries. fold ensureReport.
  destruct (ensureReport tkv g acc) as [acc1 |] eqn:E1; simpl; [| discriminate].
  pose proof (aws_ensureReport_buckets _ _ _ _ E1) as Hb.
  destruct (Aws.Metrics g) as [m |].
  - destruct (Aws.cost m) as [c |]; simpl; [| discriminate].
    intros H k p. rewrite (bucket_record_cost _ _ _ _ _ H), replay_one, Hb. reflexivity.
  - intros [= <-] k p. now rewrite Hb.
Qed.

Lemma aws_onRow_replay (tkv : dict string) (acc : dict Report) (row : Aws.ResultByTime)
    (acc' : dict Report) :
  onRow tkv acc row = Ok acc' ->
  forall k p,
    bucket acc' k p = replay k p (AwsRows.entries subAccountConfig query row) (bucket acc k p).
Proof.
  unfold onRow, Aws.onRow, AwsRows.entries.
  destruct (Aws.Groups row) as [groups |].
  - apply (foldM_replay (onGroup tkv (Aws.period query row))).
    intros a x a'. apply aws_onGroup_replay.
  - now intros [= <-].
Qed.

(** Every bucket of the AWS transform is the replay of the entries of the
    rows, in the order of the response. *)
Lemma aws_transform_replay (costResponse : list Aws.ResultByTime) (acc : dict Report) :
  Aws.transformedData getCategoryByServiceName provider subAccountConfig query
    categoryMappings costResponse = Ok acc ->
  forall k p,
    bucket acc k p
    = replay k p (flat_map (AwsRows.entries subAccountConfig query) costResponse) None.
Proof.
  unfold Aws.transformedData.
  destruct (tagKeyValues subAccountConfig) as [tkv |]; simpl; [| discriminate].
  intros H k p.
  apply (foldM_replay (onRow tkv) (AwsRows.entries subAccountConfig query)
           (aws_onRow_replay tkv) _ _ _ H k p).
Qed.

End AwsFacts.

(** ** The transform of the Azure client, bucket by bucket *)

Section AzureFacts.

Variable moment : jsval -> option Z.
Variable getCategoryByServiceName : jsval -> dict string -> string.
Variable provider : string.
Variable subAccountConfig : Config.
Variable query : CostQuery.
Variable categoryMappings : dict string.

Let ensureReport :=
  Azure.ensureReport getCategoryByServiceName provider subAccountConfig categoryMappings.
Let onRow :=
  Azure.onRow moment getCategoryByServiceName provider subAccountConfig query categoryMappings.

Lemma azure_ensureReport_buckets (tkv : dict string) (row : list jsval)
    (acc acc' : dict Report) :
  ensureReport tkv row acc = Ok acc' ->
  forall k p, bucket acc' k p = bucket acc k p.
Proof.
  unfold ensureReport, Azure.ensureReport.
  destruct (present _ acc) eqn:Ep; [now intros [= <-] |].
  destruct (callConvert _ _) as [service |]; simpl; [| discriminate].
  intros [= <-] k p. rewrite bucket_set.
  destruct (String.eqb_spec (Azure.keyName subAccountConfig row) k) as [<- | Hne];
    [| reflexivity].
  unfold bucket. rewrite (present_false _ _ Ep).
  now apply cost_at_spread.
Qed.

Lemma azure_onRow_replay (tkv : dict string) (acc : dict Report) (row : list jsval)
    (acc' : dict Report) :
  onRow tkv acc row = Ok acc' ->
  forall k p,
    bucket acc' k p
    = replay k p (AzureRows.entries moment subAccountConfig query row) (bucket acc k p).
Proof.
  unfold onRow, Azure.onRow, AzureRows.entries. fold ensureReport.
  destruct (Azure.date query row) as [d |]; simpl; [| discriminate].
  destruct (ensureReport tkv row acc) as [acc1 |] eqn:E1; simpl; [| discriminate].
  pose proof (azure_ensureReport_buckets _ _ _ _ E1) as Hb.
  destruct (Azure.beforeStart moment query d); simpl.
  - intros [= <-] k p. now rewrite Hb.
  - destruct (Azure.period query d) as [p0 |]; simpl; [| discriminate].
    intros H k p. rewrite (bucket_record_cost _ _ _ _ _ H), replay_one, Hb. reflexivity.
Qed.

(** Every bucket of the Azure transform is the replay of the entries of the
    rows, in the order of the response. *)
Lemma azure_transform_replay (costResponse : list (list jsval)) (acc : dict Report) :
  Azure.transformedData moment getCategoryByServiceName provider subAccountConfig query
    categoryMappings costResponse = Ok acc ->
  forall k p,
    bucket acc k p
    = replay k p (flat_map (AzureRows.entries moment subAccountConfig query) costResponse)
        None.
Proof.
  unfold Azure.transformedData.
  destruct (tagKeyValues subAccountConfig) as [tkv |]; simpl; [| discriminate].
  intros H k p.
  apply (foldM_replay (onRow tkv) (AzureRows.entries moment subAccountConfig query)
           (azure_onRow_replay tkv) _ _ _ H k p).
Qed.

End AzureFacts.

(** ** The transform of the MongoDB Atlas client, bucket by bucket *)

Section MongoAtlasFacts.

Variable moment : jsval -> option Z.
Variable getCategoryByServiceName : jsval -> dict string -> string.
Variable providerName : string.
Variable subAccountConfig : Config.
Variable query : CostQuery.
Variable categoryMappings : dict string.

Let keyName := MongoAtlas.keyName getCategoryByServiceName subAccountConfig categoryMappings.
Let ensureReport :=
  MongoAtlas.ensureReport getCategoryByServiceName providerName subAccountConfig
    categoryMappings.
Let onLine :=
  MongoAtlas.onLine moment getCategoryByServiceName providerName subAccountConfig query
    categoryMappings.
Let entries :=
  MongoAtlasRows.entries moment getCategoryByServiceName subAccountConfig query
    categoryMappings.

Lemma mongo_ensureReport_buckets (header : list string) (tkv : dict string) (line : string)
    (acc acc' : dict Report) :
  ensureReport header tkv line acc = Ok acc' ->
  forall k p, bucket acc' k p = bucket acc k p.
Proof.
  unfold ensureReport, MongoAtlas.ensureReport.
  destruct (present _ acc) eqn:Ep; [now intros [= <-] |].
  destruct (callConvert _ _) as [service |]; simpl; [| discriminate].
  intros [= <-] k p. rewrite bucket_set.
  destruct (String.eqb_spec
              (MongoAtlas.keyName getCategoryByServiceName subAccountConfig categoryMappings
                 header line) k) as [<- | Hne]; [| reflexivity].
  unfold bucket. rewrite (present_false _ _ Ep).
  now apply cost_at_spread.
Qed.

Lemma soFar_held (k p : string) (acc : dict Report) :
  MongoAtlas.soFar k p acc = held (bucket acc k p).
Proof.
  unfold MongoAtlas.soFar, bucket, held.
  destruct (Dict.get k acc) as [r |]; [| reflexivity].
  now destruct (cost_at p r).
Qed.

Lemma mongo_onLine_replay (header : list string) (tkv : dict string) (acc : dict Report)
    (line : string) (acc' : dict Report) :
  onLine header tkv acc line = Ok acc' ->
  forall k p, bucket acc' k p = replay k p (entries header line) (bucket acc k p).
Proof.
  unfold onLine, MongoAtlas.onLine, entries, MongoAtlasRows.entries.
  fold ensureReport keyName.
  destruct (MongoAtlas.parsedDate header line) as [d |]; [| now intros [= <-]].
  destruct (ensureReport header tkv line acc) as [acc1 |] eqn:E1; simpl; [| discriminate].
  pose proof (mongo_ensureReport_buckets _ _ _ _ _ E1) as Hb.
  destruct (MongoAtlas.beforeStart moment query _); simpl.
  - intros [= <-] k p. now rewrite Hb.
  - intros H k p. rewrite (bucket_record_cost _ _ _ _ _ H), replay_one.
    rewrite (touches_write k p _ _ _ (Add (MongoAtlas.amount header line))).
    destruct (touches k p _) eqn:Et; [| now rewrite Hb].
    apply touches_key_period in Et as [Ek Ep]. simpl in Ek, Ep. subst k p.
    simpl. now rewrite soFar_held, Hb.
Qed.

(** Every bucket of the MongoDB Atlas transform is the replay of the entries
    of the lines after the first, in the order of the response. *)
Lemma mongo_transform_replay (costResponse : string) (acc : dict Report) :
  MongoAtlas.transformedData moment getCategoryByServiceName providerName subAccountConfig
    query categoryMappings costResponse = Ok acc ->
  let lines := Str.split Str.LF costResponse in
  let header := Str.split "," (hd EmptyString lines) in
  forall k p, bucket acc k p = replay k p (flat_map (entries header) (tl lines)) None.
Proof.
  unfold MongoAtlas.transformedData.
  destruct (tagKeyValues subAccountConfig) as [tkv |]; simpl; [| discriminate].
  intros H k p.
  apply (foldM_replay _ _ (mongo_onLine_replay _ tkv) _ _ _ H k p).
Qed.

End MongoAtlasFacts.

(** ** Periods are never the name [__proto__] where it matters *)

Lemma take_length (n : nat) (s : string) : (String.length (Str.take n s) <= n)%nat.
Proof.
  revert s. induction n as [| n IH]; intros [| c s]; simpl; try lia.
  specialize (IH s). lia.
Qed.

Lemma take7_not_proto (s : string) : String.eqb (Str.take 7 s) "__proto__" = false.
Proof.
  apply String.eqb_neq. intros E. pose proof (take_length 7 s) as H.
  rewrite E in H. simpl in H. lia.
Qed.

Lemma plainHead_app (s t : string) : plainHead s = true -> plainHead (s ++ t) = true.
Proof. destruct s; [discriminate | auto]. Qed.

Lemma plainHead_decimal (z : Z) : plainHead (Conv.decimal z) = true.
Proof.
  unfold Conv.decimal. destruct (Z.to_int z) as [d | d]; [| reflexivity].
  destruct d; reflexivity.
Qed.

Lemma plainHead_padded (w : nat) (z : Z) : plainHead (MongoAtlas.padded w z) = true.
Proof.
  unfold MongoAtlas.padded.
  destruct (w - String.length (Conv.decimal z))%nat; simpl; [| reflexivity].
  apply plainHead_decimal.
Qed.

Lemma billingPeriod_not_proto (query : CostQuery) (d : MongoAtlas.Date) :
  String.eqb (MongoAtlas.billingPeriod query d) "__proto__" = false.
Proof.
  apply String.eqb_neq. intros E.
  assert (H : plainHead (MongoAtlas.billingPeriod query d) = true).
  { unfold MongoAtlas.billingPeriod, MongoAtlas.format_YYYY_MM_DD, MongoAtlas.format_YYYY_MM.
    destruct (is_monthly query); [| apply plainHead_app];
      apply plainHead_app, plainHead_padded. }
  rewrite E in H. discriminate.
Qed.

(** ** From the replay of the entries to sums and last costs *)

Lemma replay_flat_map {B : Type} (k p : string) (entries : B -> list entry)
    (vals : B -> list number) (f : option number -> number -> option number) :
  (forall x old, replay k p (entries x) old = fold_left f (vals x) old) ->
  forall l old, replay k p (flat_map entries l) old = fold_left f (flat_map vals l) old.
Proof.
  intros H l. induction l as [| x l IH]; intros old; simpl; [reflexivity |].
  now rewrite replay_app, fold_left_app, H, IH.
Qed.

Lemma touches_keyed (k p key period : string) (w : write) :
  String.eqb period "__proto__" = false ->
  touches k p {| entryKey := key; entryPeriod := period; entryWrite := w |}
  = (String.eqb key k && String.eqb period p)%bool.
Proof. unfold touches. simpl. intros ->. now rewrite andb_true_r. Qed.

Lemma fold_add_Some (l : list number) (x : number) :
  fold_left (fun o a => Some (PrimFloat.add (held o) a)) l (Some x)
  = Some (fold_left (fun sum a => PrimFloat.add (Num.or0 sum) a) l x).
Proof.
  revert x. induction l as [| a l IH]; intros x; simpl; [reflexivity |].
  apply IH.
Qed.

Lemma fold_add_additive (l : list number) :
  fold_left (fun o a => Some (PrimFloat.add (held o) a)) l None = additive l.
Proof.
  destruct l as [| a l]; [reflexivity |].
  simpl. apply fold_add_Some.
Qed.

(** ** Accumulation per period *)

Lemma mongo_line_amounts (moment : jsval -> option Z)
    (getCategoryByServiceName : jsval -> dict string -> string) (cfg : Config)
    (query : CostQuery) (mappings : dict string) (header : list string) (k p : string)
    (line : string) (old : option number) :
  replay k p (MongoAtlasRows.entries moment getCategoryByServiceName cfg query mappings
                header line) old
  = fold_left accumulate
      (MongoAtlasRows.lineAmounts moment getCategoryByServiceName cfg query mappings header
         k p line) old.
Proof.
  unfold MongoAtlasRows.entries, MongoAtlasRows.lineAmounts.
  destruct (MongoAtlas.parsedDate header line) as [d |]; [| reflexivity].
  cbv zeta. destruct (MongoAtlas.beforeStart moment query _); [reflexivity |].
  rewrite replay_one, touches_keyed by apply billingPeriod_not_proto.
  now destruct (_ && _)%bool.
Qed.

Lemma azure_period_monthly (query : CostQuery) (d : jsval) (p : string) :
  is_monthly query = true -> Azure.period query d = Ok p ->
  String.eqb p "__proto__" = false.
Proof.
  unfold Azure.period, Azure.yearMonth. intros ->.
  destruct d; try discriminate. intros [= <-]. apply take7_not_proto.
Qed.

Lemma azure_row_costs (moment : jsval -> option Z) (cfg : Config) (query : CostQuery)
    (k p : string) (row : list jsval) (old : option number) :
  is_monthly query = true ->
  replay k p (AzureRows.entries moment cfg query row) old
  = fold_left overwrite (AzureRows.rowCosts moment cfg query k p row) old.
Proof.
  intros Hm. unfold AzureRows.entries, AzureRows.rowCosts.
  destruct (Azure.date query row) as [d |]; [| reflexivity].
  destruct (Azure.beforeStart moment query d); [reflexivity |].
  destruct (Azure.period query d) as [p0 |] eqn:Ep; [| reflexivity].
  rewrite replay_one, touches_keyed by exact (azure_period_monthly _ _ _ Hm Ep).
  now destruct (_ && _)%bool.
Qed.

Lemma aws_period_monthly (query : CostQuery) (row : Aws.ResultByTime) :
  is_monthly query = true -> String.eqb (Aws.period query row) "__proto__" = false.
Proof.
  unfold Aws.period. intros ->.
  destruct (Aws.rowTime row) as [t |]; [| reflexivity].
  destruct (String.eqb t ""); [reflexivity | apply take7_not_proto].
Qed.

Lemma aws_group_costs (cfg : Config) (k p period : string) (g : Aws.Group)
    (old : option number) :
  String.eqb period "__proto__" = false ->
  replay k p (AwsRows.groupEntries cfg period g) old
  = fold_left overwrite (AwsRows.groupCosts cfg k p period g) old.
Proof.
  intros Hp. unfold AwsRows.groupEntries, AwsRows.groupCosts.
  destruct (Aws.Metrics g) as [m |]; [| now destruct (_ && _)%bool].
  destruct (Aws.cost m) as [c |]; [| now destruct (_ && _)%bool].
  rewrite replay_one, touches_keyed by exact Hp.
  now destruct (_ && _)%bool.
Qed.

Lemma aws_row_costs (cfg : Config) (query : CostQuery) (k p : string)
    (row : Aws.ResultByTime) (old : option number) :
  is_monthly query = true ->
  replay k p (AwsRows.entries cfg query row) old
  = fold_left overwrite (AwsRows.rowCosts cfg query k p row) old.
Proof.
  intros Hm. unfold AwsRows.entries, AwsRows.rowCosts.
  destruct (Aws.Groups row) as [groups |]; [| reflexivity].
  apply replay_flat_map. intros g o. apply aws_group_costs, aws_period_monthly, Hm.
Qed.

Lemma monthly_not_daily (query : CostQuery) : is_monthly query = true -> is_daily query = false.
Proof.
  unfold is_daily, is_monthly. intros H. apply String.eqb_eq in H. now rewrite H.
Qed.

(** By month the start-time test of the MongoDB Atlas client reads the
    year-month alone: it lets all the lines of a year-month through, or
    none. *)
Lemma mongo_amounts_month (moment : jsval -> option Z)
    (getCategoryByServiceName : jsval -> dict string -> string) (cfg : Config)
    (query : CostQuery) (mappings : dict string) (header : list string) (k p : string)
    (lines : list string) :
  is_monthly query = true ->
  MongoAtlasRows.amounts moment getCategoryByServiceName cfg query mappings header k p lines
  = if isBefore (moment (JStr p)) (moment (JNum (Conv.parseInt (startTime query))))
    then []
    else flat_map (MongoAtlasRows.monthAmounts getCategoryByServiceName cfg mappings header
                     k p) lines.
Proof.
  intros Hm. unfold MongoAtlasRows.amounts.
  induction lines as [| line lines IH]; simpl; [now destruct (isBefore _ _) |].
  rewrite IH. unfold MongoAtlasRows.lineAmounts, MongoAtlasRows.monthAmounts.
  destruct (MongoAtlas.parsedDate header line) as [d |]; [| now destruct (isBefore _ _)].
  cbv zeta. unfold MongoAtlas.billingPeriod, MongoAtlas.beforeStart. rewrite Hm.
  destruct (String.eqb_spec (MongoAtlas.format_YYYY_MM d) p) as [-> | N].
  - destruct (isBefore _ _); [reflexivity |]. now destruct (String.eqb _ k).
  - rewrite !andb_false_r. now destruct (isBefore _ _), (isBefore _ _).
Qed.

(** By month the start-time test of the Azure client reads the date of the
    row. *)
Lemma azure_costs_month (moment : jsval -> option Z) (cfg : Config) (query : CostQuery)
    (k p : string) (rows : list (list jsval)) :
  is_monthly query = true ->
  AzureRows.costs moment cfg query k p rows
  = flat_map (AzureRows.monthCosts cfg k p)
      (List.filter
         (fun row => negb (isBefore (moment (index row 1))
                             (moment (JNum (Conv.parseInt (startTime query))))))
         rows).
Proof.
  intros Hm. unfold AzureRows.costs.
  induction rows as [| row rows IH]; simpl; [reflexivity |].
  rewrite IH. unfold AzureRows.rowCosts, Azure.date, Azure.beforeStart.
  rewrite (monthly_not_daily _ Hm).
  destruct (isBefore _ _); simpl; [reflexivity |]. f_equal.
  unfold Azure.period, Azure.yearMonth, AzureRows.monthCosts. rewrite Hm.
  now destruct (index row 1).
Qed.

(** C1, with the start-time test in sight. By month, the bucket of a group
    and a year-month holds: for the MongoDB Atlas client nothing when the
    first instant of the year-month is before the start time, and otherwise
    the sum of the amounts of all the dated lines of that group and
    year-month, added in the order of the lines; for the Azure client the
    cost of the last row of that group and year-month among the rows whose
    own date is not before the start time; for the AWS client, which has no
    such test, the cost of the last group of that key and year-month. *)
Theorem monthly_buckets :
  forall (moment : jsval -> option Z)
         (getCategoryByServiceName : jsval -> dict string -> string)
         (providerAws providerAzure providerName : string)
         (cfg : Config) (query : CostQuery) (mappings : dict string)
         (atlasCsv : string) (azureRows : list (list jsval)) (awsRows : list Aws.ResultByTime)
         (atlasData azureData awsData : dict Report),
    is_monthly query = true ->
    MongoAtlas.transformedData moment getCategoryByServiceName providerName cfg query
      mappings atlasCsv = Ok atlasData ->
    Azure.transformedData moment getCategoryByServiceName providerAzure cfg query mappings
      azureRows = Ok azureData ->
    Aws.transformedData getCategoryByServiceName providerAws cfg query mappings awsRows
      = Ok awsData ->
    forall k p : string,
      let lines := Str.split Str.LF atlasCsv in
      let header := Str.split "," (hd EmptyString lines) in
      let start := moment (JNum (Conv.parseInt (startTime query))) in
      bucket atlasData k p
      = (if isBefore (moment (JStr p)) start then None
         else additive
                (flat_map (MongoAtlasRows.monthAmounts getCategoryByServiceName cfg mappings
                             header k p) (tl lines)))
      /\ bucket azureData k p
         = lastCost
             (flat_map (AzureRows.monthCosts cfg k p)
                (List.filter (fun row => negb (isBefore (moment (index row 1)) start))
                   azureRows))
      /\ bucket awsData k p = lastCost (AwsRows.costs cfg query k p awsRows).
Proof.
  intros moment getCat providerAws providerAzure providerName cfg query mappings atlasCsv
    azureRows awsRows atlasData azureData awsData Hm HM HZ HA k p lines header start.
  split; [| split].
  - rewrite (mongo_transform_replay _ _ _ _ _ _ _ _ HM).
    fold lines header.
    rewrite (replay_flat_map k p _ _ accumulate
               (fun line old => mongo_line_amounts moment getCat cfg query mappings header
                                  k p line old)).
    change (flat_map (MongoAtlasRows.lineAmounts moment getCat cfg query mappings header k p)
              (tl lines))
      with (MongoAtlasRows.amounts moment getCat cfg query mappings header k p (tl lines)).
    rewrite (mongo_amounts_month _ _ _ _ _ _ _ _ _ Hm). fold start.
    destruct (isBefore (moment (JStr p)) start); [reflexivity | apply fold_add_additive].
  - rewrite (azure_transform_replay _ _ _ _ _ _ _ _ HZ).
    rewrite (replay_flat_map k p _ _ overwrite
               (fun row old => azure_row_costs moment cfg query k p row old Hm)).
    change (flat_map (AzureRows.rowCosts moment cfg query k p) azureRows)
      with (AzureRows.costs moment cfg query k p azureRows).
    now rewrite (azure_costs_month _ _ _ _ _ _ Hm).
  - rewrite (aws_transform_replay _ _ _ _ _ _ _ HA).
    apply (replay_flat_map k p _ _ overwrite). intros row old. now apply aws_row_costs.
Qed.

Lemma monthly_buckets_witness :
  bucket April.atlasData "prod->Uncategorized->shop->c0" "2024-04" = Some (Num.of_Z 15)
  /\ bucket April.azureData "prod->Azure App Service" "2024-04" = Some (Num.of_Z 5)
  /\ bucket April.awsData "prod_Amazon Simple Storage Service" "2024-04" = Some (Num.of_Z 5).
Proof.
  pose proof (monthly_buckets (Env.moment April.now) Env.getCategoryByServiceName Env.AWS
                "Azure" "MongoAtlas" April.prod April.query Dict.empty April.atlasCsv
                April.azureRows April.awsRows April.atlasData April.azureData April.awsData
                eq_refl eq_refl eq_refl eq_refl) as H.
  split; [| split].
  - exact (proj1 (H "prod->Uncategorized->shop->c0" "2024-04")).
  - exact (proj1 (proj2 (H "prod->Azure App Service" "2024-04"))).
  - exact (proj2 (proj2 (H "prod_Amazon Simple Storage Service" "2024-04"))).
Defined.

(** The rows of the claim asked for from 2024-04-03 on. The year-month
    "2024-04" begins on the first, before the start time, and the MongoDB
    Atlas client gives the two lines of the 5th and the 28th no bucket at
    all, where the Azure client records its row of the 28th. *)
Lemma atlas_month_before_start :
  isBefore (Env.moment April.now (JStr "2024-04"))
    (Env.moment April.now (JNum (Conv.parseInt (startTime April.queryThird)))) = true
  /\ MongoAtlas.transformCostsData (Env.moment April.now) Env.getCategoryByServiceName
       "MongoAtlas" April.prod April.queryThird Dict.empty April.atlasCsv
     = Ok [ [ ("id", PStr "prod->Uncategorized->shop->c0");
              ("name", PStr "MongoAtlas/prod");
              ("service", PStr "MongoAtlas/Data Transfer");
              ("category", PStr "Uncategorized");
              ("provider", PStr "MongoAtlas");
              ("reports", PReports []);
              ("project", PStr "shop");
              ("cluster", PStr "c0");
              ("env", PStr "production") ] ]
  /\ Azure.transformCostsData (Env.moment April.now) Env.getCategoryByServiceName "Azure"
       April.prod April.queryThird Dict.empty April.azureRows
     = Ok [ [ ("id", PStr "prod->Azure App Service");
              ("name", PStr "Azure/prod");
              ("service", PStr "Azure/App Service");
              ("category", PStr "Uncategorized");
              ("provider", PStr "Azure");
              ("reports", PReports [("2024-04", Num.of_Z 5)]);
              ("env", PStr "production") ] ].
Proof. repeat split; vm_compute; reflexivity. Qed.

(** ** The start time *)

Lemma azure_start_boundary (moment : jsval -> option Z)
    (getCategoryByServiceName : jsval -> dict string -> string) (provider : string)
    (cfg : Config) (query : CostQuery) (mappings : dict string) (s t : Z)
    (tkv : dict string) (acc acc' : dict Report) (row : list jsval) (d : jsval) :
  moment (JNum (Conv.parseInt (startTime query))) = Some s ->
  Azure.date query row = Ok d ->
  moment d = Some t ->
  Azure.onRow moment getCategoryByServiceName provider cfg query mappings tkv acc row
  = Ok acc' ->
  (t < s -> forall k p, bucket acc' k p = bucket acc k p)
  /\ (s <= t -> forall p,
        Azure.period query d = Ok p -> String.eqb p "__proto__" = false ->
        bucket acc' (Azure.keyName cfg row) p = Some (parseFloat (index row 0))).
Proof.
  intros Hs Hd Ht H.
  pose proof (azure_onRow_replay _ _ _ _ _ _ _ _ _ _ H) as Hb.
  unfold AzureRows.entries, Azure.beforeStart in Hb. rewrite Hd, Ht, Hs in Hb. simpl in Hb.
  split.
  - intros Hlt k p. apply Z.ltb_lt in Hlt. rewrite Hb, Hlt. reflexivity.
  - intros Hle p Hp Hproto. apply Z.ltb_ge in Hle. rewrite Hb, Hle, Hp, replay_one.
    rewrite touches_keyed by exact Hproto. now rewrite !String.eqb_refl.
Qed.

Lemma mongo_start_boundary (moment : jsval -> option Z)
    (getCategoryByServiceName : jsval -> dict string -> string) (providerName : string)
    (cfg : Config) (query : CostQuery) (mappings : dict string) (s t : Z)
    (header : list string) (tkv : dict string) (acc acc' : dict Report) (line : string)
    (d : MongoAtlas.Date) :
  moment (JNum (Conv.parseInt (startTime query))) = Some s ->
  MongoAtlas.parsedDate header line = Some d ->
  moment (JStr (MongoAtlas.billingPeriod query d)) = Some t ->
  MongoAtlas.onLine moment getCategoryByServiceName providerName cfg query mappings header
    tkv acc line = Ok acc' ->
  let k0 := MongoAtlas.keyName getCategoryByServiceName cfg mappings header line in
  let p0 := MongoAtlas.billingPeriod query d in
  (t < s -> forall k p, bucket acc' k p = bucket acc k p)
  /\ (s <= t ->
      bucket acc' k0 p0
      = Some (PrimFloat.add (held (bucket acc k0 p0)) (MongoAtlas.amount header line))).
Proof.
  intros Hs Hd Ht H k0 p0.
  pose proof (mongo_onLine_replay _ _ _ _ _ _ _ _ _ _ _ H) as Hb.
  unfold MongoAtlasRows.entries, MongoAtlas.beforeStart in Hb.
  rewrite Hd in Hb. cbv zeta in Hb. rewrite Ht, Hs in Hb. simpl in Hb.
  split.
  - intros Hlt k p. apply Z.ltb_lt in Hlt. rewrite Hb, Hlt. reflexivity.
  - intros Hle. apply Z.ltb_ge in Hle. rewrite Hb, Hle, replay_one.
    rewrite touches_keyed by apply billingPeriod_not_proto.
    subst k0 p0. now rewrite !String.eqb_refl.
Qed.

(** C3, as the code has it. The Azure client compares the date of the row
    with the start time, the MongoDB Atlas client the first instant of the
    billing period of the row: a row compared strictly before the start time
    leaves every bucket as it was, and a row compared at the start time or
    after it is recorded. The AWS client compares nothing. *)
Theorem start_time_filter :
  forall (moment : jsval -> option Z)
         (getCategoryByServiceName : jsval -> dict string -> string)
         (cfg : Config) (query : CostQuery) (mappings : dict string) (s : Z),
    moment (JNum (Conv.parseInt (startTime query))) = Some s ->
    (forall (provider : string) (tkv : dict string) (acc acc' : dict Report)
            (row : list jsval) (d : jsval) (t : Z),
        Azure.date query row = Ok d ->
        moment d = Some t ->
        Azure.onRow moment getCategoryByServiceName provider cfg query mappings tkv acc row
        = Ok acc' ->
        (t < s -> forall k p, bucket acc' k p = bucket acc k p)
        /\ (t = s -> forall p,
              Azure.period query d = Ok p -> String.eqb p "__proto__" = false ->
              bucket acc' (Azure.keyName cfg row) p = Some (parseFloat (index row 0))))
    /\ (forall (providerName : string) (header : list string) (tkv : dict string)
               (acc acc' : dict Report) (line : string) (d : MongoAtlas.Date) (t : Z),
          MongoAtlas.parsedDate header line = Some d ->
          moment (JStr (MongoAtlas.billingPeriod query d)) = Some t ->
          MongoAtlas.onLine moment getCategoryByServiceName providerName cfg query mappings
            header tkv acc line = Ok acc' ->
          let k0 := MongoAtlas.keyName getCategoryByServiceName cfg mappings header line in
          let p0 := MongoAtlas.billingPeriod query d in
          (t < s -> forall k p, bucket acc' k p = bucket acc k p)
          /\ (t = s ->
              bucket acc' k0 p0
              = Some (PrimFloat.add (held (bucket acc k0 p0))
                        (MongoAtlas.amount header line)))).
Proof.
  intros moment getCat cfg query mappings s Hs. split.
  - intros provider tkv acc acc' row d t Hd Ht H.
    destruct (azure_start_boundary _ _ _ _ _ _ _ _ _ _ _ _ _ Hs Hd Ht H) as [H1 H2].
    split; [exact H1 | intros ->; apply H2; lia].
  - intros providerName header tkv acc acc' line d t Hd Ht H k0 p0.
    destruct (mongo_start_boundary _ _ _ _ _ _ _ _ _ _ _ _ _ _ Hs Hd Ht H) as [H1 H2].
    split; [exact H1 | intros ->; apply H2; lia].
Qed.

Lemma start_time_filter_witness :
  bucket April.azureAtStartData "prod->Azure App Service" "2024-04"
  = Some (parseFloat (JNum (Num.of_Z 7)))
  /\ bucket April.azureBeforeStartData "prod->Azure App Service" "2024-04" = None.
Proof.
  split.
  - exact (proj2 (proj1 (start_time_filter (Env.moment April.now)
                           Env.getCategoryByServiceName April.prod April.query Dict.empty
                           1711929600000 eq_refl)
                    "Azure" [("env", "production")] Dict.empty April.azureAtStartData
                    April.azureAtStart (JStr "2024-04-01T00:00:00") 1711929600000
                    eq_refl eq_refl eq_refl)
             eq_refl "2024-04" eq_refl eq_refl).
  - exact (proj1 (proj1 (start_time_filter (Env.moment April.now)
                           Env.getCategoryByServiceName April.prod April.queryLate
                           Dict.empty 1711929600001 eq_refl)
                    "Azure" [("env", "production")] Dict.empty April.azureBeforeStartData
                    April.azureAtStart (JStr "2024-04-01T00:00:00") 1711929600000
                    eq_refl eq_refl eq_refl)
             eq_refl "prod->Azure App Service" "2024-04").
Defined.

(** The AWS client records a row dated before the start time. *)
Lemma aws_records_before_start :
  isBefore (Env.moment April.now (JStr "2024-03-05"))
    (Env.moment April.now (JNum (Conv.parseInt (startTime April.query)))) = true
  /\ Aws.transformCostsData Env.getCategoryByServiceName Env.AWS April.prod April.query
       Dict.empty April.awsEarly
     = Ok [ [ ("id", PStr "prod_Amazon Simple Storage Service");
              ("name", PStr "AWS/prod");
              ("service", PStr "AWS/S3 (Simple Storage Service)");
              ("category", PStr "Uncategorized");
              ("provider", PStr "AWS");
              ("reports", PReports [("2024-03", Num.of_Z 7)]);
              ("env", PStr "production") ] ].
Proof. split; vm_compute; reflexivity. Qed.

(** ** Usage dates of the Azure client *)

Lemma daily_not_monthly (query : CostQuery) : is_daily query = true -> is_monthly query = false.
Proof.
  unfold is_daily, is_monthly. intros H. apply String.eqb_eq in H. now rewrite H.
Qed.

(** By day, a row whose usage date [formatDate] turns down is not skipped:
    its cost is recorded for the period "null". *)
Lemma azure_null_date_recorded (moment : jsval -> option Z)
    (getCategoryByServiceName : jsval -> dict string -> string) (provider : string)
    (cfg : Config) (query : CostQuery) (mappings : dict string) (tkv : dict string)
    (acc acc' : dict Report) (row : list jsval) :
  is_daily query = true ->
  moment JNull = None ->
  Azure.formatDate (index row 1) = Ok None ->
  Azure.onRow moment getCategoryByServiceName provider cfg query mappings tkv acc row
  = Ok acc' ->
  bucket acc' (Azure.keyName cfg row) "null" = Some (parseFloat (index row 0)).
Proof.
  intros Hd Hm Hf H.
  rewrite (azure_onRow_replay _ _ _ _ _ _ _ _ _ _ H).
  unfold AzureRows.entries, Azure.date, Azure.beforeStart, Azure.period.
  rewrite Hd, Hf, (daily_not_monthly _ Hd). simpl. rewrite Hm. simpl.
  rewrite replay_one, touches_keyed by reflexivity. now rewrite !String.eqb_refl.
Qed.

(** C6, the code at the usage date 2024047. The date 20240407 becomes
    "2024-04-07" and [formatDate] answers [null] to 2024047, but the
    transform records the cost of that row under the period "null". *)
Theorem azure_seven_digit_date :
  Azure.formatDate (JNum 20240407%float) = Ok (Some "2024-04-07")
  /\ Azure.formatDate (JNum 2024047%float) = Ok None
  /\ Azure.transformCostsData (Env.moment April.now) Env.getCategoryByServiceName "Azure"
       April.prod Daily.query Dict.empty Daily.azureRows
     = Ok [ [ ("id", PStr "prod->Azure App Service");
              ("name", PStr "Azure/prod");
              ("service", PStr "Azure/App Service");
              ("category", PStr "Uncategorized");
              ("provider", PStr "Azure");
              ("reports", PReports [("null", 12.5%float)]);
              ("env", PStr "production") ] ].
Proof. repeat split; vm_compute; reflexivity. Qed.

(** ** Static tags *)

Lemma split_without (sep : ascii) (s : string) :
  Str.includes s (String sep EmptyString) = false -> Str.split sep s = [s].
Proof.
  induction s as [| c s IH]; [reflexivity |].
  simpl. destruct (ascii_dec sep c) as [<- | Hne].
  - destruct s; discriminate.
  - simpl. intros H. rewrite (IH H).
    destruct (Ascii.eqb_spec c sep) as [-> | _]; [contradiction | reflexivity].
Qed.

Lemma addTag_without_colon (tkv : dict string) (tag : string) :
  Str.includes tag ":" = false -> addTag tkv tag = Throw TypeError.
Proof. unfold addTag. intros H. now rewrite (split_without ":" tag H). Qed.

Lemma addTag_TypeError (tkv : dict string) (tag : string) (e : error) :
  addTag tkv tag = Throw e -> e = TypeError.
Proof.
  unfold addTag. destruct (Str.split ":" tag) as [| k [| v r]]; congruence.
Qed.

Lemma foldM_addTag_throws (l : list string) (tag : string) :
  In tag l -> Str.includes tag ":" = false ->
  forall tkv, foldM addTag l tkv = Throw TypeError.
Proof.
  intros Hin Hbad. induction l as [| x l IH]; intros tkv; [contradiction |].
  simpl. destruct (addTag tkv x) as [tkv' |] eqn:E; simpl.
  - destruct Hin as [-> | Hin]; [| now apply IH].
    rewrite (addTag_without_colon _ _ Hbad) in E. discriminate.
  - now rewrite (addTag_TypeError _ _ _ E).
Qed.

(** C10. When the configured tags hold a string without [':'], each of the
    three transforms throws a [TypeError], whatever the response is, and
    returns no report. *)
Theorem tag_without_colon_aborts :
  forall (cfg : Config) (l : list string) (tag : string),
    tags cfg = Some l -> In tag l -> Str.includes tag ":" = false ->
    forall (moment : jsval -> option Z)
           (getCategoryByServiceName : jsval -> dict string -> string)
           (provider : string) (query : CostQuery) (mappings : dict string)
           (awsRows : list Aws.ResultByTime) (azureRows : list (list jsval))
           (atlasCsv : string),
      Aws.transformCostsData getCategoryByServiceName provider cfg query mappings awsRows
      = Throw TypeError
      /\ Azure.transformCostsData moment getCategoryByServiceName provider cfg query mappings
           azureRows = Throw TypeError
      /\ MongoAtlas.transformCostsData moment getCategoryByServiceName provider cfg query
           mappings atlasCsv = Throw TypeError.
Proof.
  intros cfg l tag Ht Hin Hbad moment getCat provider query mappings awsRows azureRows
    atlasCsv.
  assert (H : tagKeyValues cfg = Throw TypeError).
  { unfold tagKeyValues. rewrite Ht. now apply (foldM_addTag_throws l tag). }
  unfold Aws.transformCostsData, Aws.transformedData, Azure.transformCostsData,
    Azure.transformedData, MongoAtlas.transformCostsData, MongoAtlas.transformedData.
  rewrite H. repeat split.
Qed.

Lemma tag_without_colon_aborts_witness :
  let cfg := {| name := "prod"; tags := Some ["env:production"; "critical"] |} in
  Aws.transformCostsData Env.getCategoryByServiceName Env.AWS cfg April.query Dict.empty
    April.awsRows = Throw TypeError
  /\ Azure.transformCostsData (Env.moment April.now) Env.getCategoryByServiceName "Azure"
       cfg April.query Dict.empty April.azureRows = Throw TypeError
  /\ MongoAtlas.transformCostsData (Env.moment April.now) Env.getCategoryByServiceName
       "MongoAtlas" cfg April.query Dict.empty April.atlasCsv = Throw TypeError.
Proof.
  exact (tag_without_colon_aborts
           {| name := "prod"; tags := Some ["env:production"; "critical"] |}
           ["env:production"; "critical"] "critical" eq_refl (or_intror (or_introl eq_refl))
           eq_refl (Env.moment April.now) Env.getCategoryByServiceName _ April.query
           Dict.empty April.awsRows April.azureRows April.atlasCsv).
Defined.

(** Tags that all hold a [':'] are read without an exception. *)
Lemma split_with (sep : ascii) (s : string) :
  Str.includes s (String sep EmptyString) = true ->
  exists k v r, Str.split sep s = k :: v :: r.
Proof.
  induction s as [| c s IH]; [discriminate |].
  simpl. destruct (ascii_dec sep c) as [<- | Hne].
  - intros _. rewrite Ascii.eqb_refl.
    destruct (Str.split sep s) as [| v r] eqn:E; [destruct s; simpl in E |].
    + discriminate.
    + destruct (Ascii.eqb a sep); [discriminate |]. destruct (Str.split sep s); discriminate.
    + now exists EmptyString, v, r.
  - simpl. intros H. destruct (IH H) as (k & v & r & ->).
    destruct (Ascii.eqb c sep); [now exists EmptyString, k, (v :: r) |].
    now exists (String c k), v, r.
Qed.

Lemma tagKeyValues_total (cfg : Config) :
  match tags cfg with
  | Some l => forallb (fun tag => Str.includes tag ":") l = true
  | None => True
  end ->
  exists tkv, tagKeyValues cfg = Ok tkv.
Proof.
  unfold tagKeyValues. destruct (tags cfg) as [l |]; [| now exists Dict.empty].
  generalize (@Dict.empty string). induction l as [| x l IH]; intros tkv H.
  - now exists tkv.
  - simpl in H. apply andb_true_iff in H as [Hx Hl]. simpl.
    unfold addTag at 1. destruct (split_with ":" x Hx) as (k & v & r & ->). simpl.
    now apply IH.
Qed.

(** ** The invoices of the MongoDB Atlas client *)

(** Every line that is kept is non-empty, is no line of "Organization ID,"
    and holds the text "Credit" nowhere, whatever its SKU is. *)
Lemma filterLines_kept (line : string) (lines : list string) :
  forall found : bool,
    In line (MongoAtlas.filterLines found lines) ->
    Str.startsWith (Str.trim line) "Organization ID," = false
    /\ Str.trim line <> ""
    /\ Str.includes (Str.trim line) "Credit" = false.
Proof.
  induction lines as [| x lines IH]; intros found; simpl; [contradiction |].
  destruct (Str.startsWith (Str.trim x) "Organization ID,") eqn:Eo; [apply IH |].
  destruct found; simpl; [| apply IH].
  destruct (String.eqb_spec (Str.trim x) "") as [Ee | Ene]; simpl; [apply IH |].
  destruct (Str.includes (Str.trim x) "Credit") eqn:Ec; simpl; [apply IH |].
  intros [<- | Hin]; [auto | now apply (IH true)].
Qed.

(** Nothing is kept before the first line of "Organization ID,". *)
Lemma filterLines_before_header (lines rest : list string) :
  forallb (fun l => negb (Str.startsWith (Str.trim l) "Organization ID,")) lines = true ->
  MongoAtlas.filterLines false (lines ++ rest) = MongoAtlas.filterLines false rest.
Proof.
  induction lines as [| x lines IH]; simpl; [reflexivity |].
  rewrite andb_true_iff, negb_true_iff. intros [-> H]. now apply IH.
Qed.

(** When every download succeeds, the texts of the invoices are joined in the
    order of the invoice list. *)
Lemma fetchCostsFromCloud_order (requestCsv : string -> MongoAtlas.CsvResponse)
    (response : MongoAtlas.InvoicesResponse) :
  MongoAtlas.invoicesStatus response = 200 ->
  (forall invoiceId, In invoiceId (MongoAtlas.results response) ->
     MongoAtlas.status (requestCsv invoiceId) = 200) ->
  MongoAtlas.fetchCostsFromCloud requestCsv response
  = Ok (Str.join MongoAtlas.newline
          (map (fun invoiceId => MongoAtlas.filteredLines (MongoAtlas.data (requestCsv invoiceId)))
             (MongoAtlas.results response))).
Proof.
  unfold MongoAtlas.fetchCostsFromCloud. intros -> H. simpl.
  assert (E : MongoAtlas.allInvoicesData requestCsv (MongoAtlas.results response)
              = Ok (map (fun invoiceId =>
                           MongoAtlas.filteredLines (MongoAtlas.data (requestCsv invoiceId)))
                      (MongoAtlas.results response))).
  { induction (MongoAtlas.results response) as [| i l IH]; [reflexivity |].
    simpl. unfold MongoAtlas.invoiceCsv. rewrite (H i (or_introl eq_refl)). simpl.
    rewrite IH; [reflexivity |]. intros j Hj. apply H. now right. }
  now rewrite E.
Qed.

(** C5, the code at an invoice with the project "Credit Union App". The
    lines up to "Organization ID," and the empty line are dropped and so is
    the line whose SKU is "Credit"; but the line of the SKU "Atlas Data
    Transfer" whose project holds the word "Credit" is dropped as well. *)
Theorem credit_in_another_field_is_dropped :
  MongoAtlas.fetchCostsFromCloud Invoice.requestCsv Invoice.invoices
  = Ok (Str.join MongoAtlas.newline
          [ "Date,SKU,Project,Cluster,Amount";
            "04/07/2024,Atlas Data Transfer,shop,c0,4" ]).
Proof. vm_compute. reflexivity. Qed.

(** ** Keys, ids and the object of costs of the reports *)

Lemma existsb_keys {V : Type} (k : string) (d : dict V) :
  existsb (String.eqb k) (Dict.keys d)
  = match Dict.get k d with Some _ => true | None => false end.
Proof.
  unfold Dict.keys. induction d as [| [k' v] d IH]; simpl; [reflexivity |].
  destruct (String.eqb k k'); simpl; [reflexivity | exact IH].
Qed.

Lemma present_addKey (k : string) (acc : dict Report) :
  addKey (Dict.keys acc) k
  = if present k acc then Dict.keys acc else (Dict.keys acc ++ [k])%list.
Proof. unfold addKey, present. now rewrite existsb_keys. Qed.

Lemma get_spread (x : string) (tkv : dict string) :
  Dict.get x tkv = None ->
  forall base : Report, Dict.get x (spread base tkv) = Dict.get x base.
Proof.
  unfold spread. induction tkv as [| [k v] tkv IH]; intros H base; simpl; [reflexivity |].
  simpl in H. destruct (String.eqb_spec x k) as [-> | Hne]; [discriminate |].
  rewrite (IH H), get_set_other; [reflexivity | congruence].
Qed.

(** Adding a report under a key that is not present. *)
Lemma set_new (k : string) (r : Report) (acc : dict Report) :
  present k acc = false ->
  Dict.keys (Dict.set k r acc) = addKey (Dict.keys acc) k
  /\ ((exists m, Dict.get "reports" r = Some (PReports m)) ->
      writable acc -> writable (Dict.set k r acc))
  /\ (Dict.get "id" r = Some (PStr k) -> keyed acc -> keyed (Dict.set k r acc)).
Proof.
  intros Hp. rewrite present_addKey, Hp, keys_set, (present_false _ _ Hp).
  split; [reflexivity | split].
  - intros Hr Hw k' r'. rewrite get_set.
    destruct (String.eqb k k'); [now intros [= <-] | apply Hw].
  - intros Hr Hk k' r'. rewrite get_set.
    destruct (String.eqb_spec k k') as [<- | _]; [now intros [= <-] | apply Hk].
Qed.

Lemma present_keep (k : string) (acc : dict Report) :
  present k acc = true -> Dict.keys acc = addKey (Dict.keys acc) k.
Proof. intros Hp. now rewrite present_addKey, Hp. Qed.

(** [record_cost] keeps the keys, the ids and the objects of costs. *)
Lemma record_cost_keeps (k p : string) (c : number) (acc acc' : dict Report) :
  record_cost k p c acc = Ok acc' ->
  Dict.keys acc' = Dict.keys acc
  /\ (writable acc -> writable acc')
  /\ (keyed acc -> keyed acc').
Proof.
  unfold record_cost, write_cost.
  destruct (Dict.get k acc) as [r |] eqn:Ek; [| discriminate].
  destruct (Dict.get "reports" r) as [[s | m] |] eqn:Er; try discriminate.
  simpl. intros [= <-]. rewrite keys_set, Ek. split; [reflexivity | split].
  - intros Hw k' r'. rewrite get_set.
    destruct (String.eqb k k'); [| apply Hw].
    intros [= <-]. rewrite get_set_same. eauto.
  - intros Hk k' r'. rewrite get_set.
    destruct (String.eqb_spec k k') as [<- | _]; [| apply Hk].
    intros [= <-]. rewrite get_set_other by discriminate. now apply Hk.
Qed.

(** [record_cost] succeeds on a key that is present in a writable
    accumulator, whatever the cost is. *)
Lemma record_cost_total (k p : string) (c : number) (acc : dict Report) :
  writable acc -> Dict.get k acc <> None ->
  exists acc', record_cost k p c acc = Ok acc'.
Proof.
  intros Hw Hk. unfold record_cost, write_cost.
  destruct (Dict.get k acc) as [r |] eqn:Ek; [| contradiction].
  destruct (Hw _ _ Ek) as [m ->]. simpl. eauto.
Qed.

Lemma writable_empty : writable Dict.empty.
Proof. intros k r. discriminate. Qed.

Lemma keyed_empty : keyed Dict.empty.
Proof. intros k r. discriminate. Qed.

(** The keys a loop leaves, when every step adds the key of its element. *)
Lemma foldM_keys {B : Type} (step : dict Report -> B -> result (dict Report))
    (keysOf : B -> list string) (P : dict Report -> Prop) :
  (forall acc x acc', step acc x = Ok acc' -> P acc ->
     Dict.keys acc' = fold_left addKey (keysOf x) (Dict.keys acc) /\ P acc') ->
  forall l acc acc', foldM step l acc = Ok acc' -> P acc ->
    Dict.keys acc' = fold_left addKey (flat_map keysOf l) (Dict.keys acc) /\ P acc'.
Proof.
  intros Hstep l. induction l as [| x l IH]; intros acc acc' H HP; simpl in *.
  - injection H as <-. auto.
  - destruct (step acc x) as [acc1 |] eqn:E; simpl in H; [| discriminate].
    destruct (Hstep _ _ _ E HP) as [Hk HP1].
    destruct (IH _ _ H HP1) as [Hk' HP'].
    split; [| exact HP']. now rewrite fold_left_app, <- Hk.
Qed.

(** A loop succeeds when every step does, on every accumulator that
    satisfies an invariant of the loop. *)
Lemma foldM_total {B : Type} (step : dict Report -> B -> result (dict Report))
    (good : B -> Prop) (P : dict Report -> Prop) :
  (forall acc x, good x -> P acc -> exists acc', step acc x = Ok acc' /\ P acc') ->
  forall l acc, Forall good l -> P acc -> exists acc', foldM step l acc = Ok acc' /\ P acc'.
Proof.
  intros Hstep l. induction l as [| x l IH]; intros acc Hl HP; simpl.
  - eauto.
  - inversion Hl as [| ? ? Hx Hl']; subst.
    destruct (Hstep _ _ Hx HP) as (acc1 & -> & HP1). simpl. now apply IH.
Qed.

(** The distinct keys are pairwise different, and they are the keys of the
    list that name no inherited member. *)
Lemma addKey_NoDup (keys : list string) (k : string) :
  NoDup keys -> NoDup (addKey keys k).
Proof.
  intros H. unfold addKey.
  destruct (Dict.inherited k); simpl; [exact H |].
  destruct (existsb (String.eqb k) keys) eqn:E; [exact H |].
  apply NoDup_app; [exact H | constructor; [intros [] | constructor] |].
  intros x Hx [Hk | []]. subst x.
  assert (existsb (String.eqb k) keys = true) as E'.
  { apply existsb_exists. exists k. split; [exact Hx | apply String.eqb_refl]. }
  congruence.
Qed.

Lemma addKey_In (keys : list string) (k x : string) :
  In x (addKey keys k) <-> In x keys \/ (x = k /\ Dict.inherited k = false).
Proof.
  unfold addKey. destruct (Dict.inherited k) eqn:Ei; simpl.
  - split; [auto | intros [H | [_ H]]; [exact H | discriminate]].
  - destruct (existsb (String.eqb k) keys) eqn:E.
    + split; [auto | intros [H | [-> _]]; [exact H |]].
      apply existsb_exists in E as (y & Hy & Ey). apply String.eqb_eq in Ey. now subst y.
    + rewrite in_app_iff. simpl. split.
      * intros [H | [<- | []]]; auto.
      * intros [H | [-> _]]; auto.
Qed.

Lemma fold_addKey_NoDup (l keys : list string) :
  NoDup keys -> NoDup (fold_left addKey l keys).
Proof.
  revert keys. induction l as [| k l IH]; intros keys H; simpl; [exact H |].
  apply IH, addKey_NoDup, H.
Qed.

Lemma fold_addKey_In (l keys : list string) (x : string) :
  In x (fold_left addKey l keys)
  <-> In x keys \/ (In x l /\ Dict.inherited x = false).
Proof.
  revert keys. induction l as [| k l IH]; intros keys; simpl; [tauto |].
  rewrite IH, addKey_In. split.
  - intros [[H | [-> H]] | [H1 H2]]; auto.
  - intros [H | [[<- | H1] H2]]; auto.
Qed.

Lemma distinct_NoDup (l : list string) : NoDup (distinct l).
Proof. apply fold_addKey_NoDup. constructor. Qed.

Lemma distinct_In (l : list string) (x : string) :
  In x (distinct l) <-> In x l /\ Dict.inherited x = false.
Proof. unfold distinct. rewrite fold_addKey_In. simpl. tauto. Qed.

Lemma sound_empty (tkv : dict string) : sound tkv Dict.empty.
Proof. split; intros _; [apply writable_empty | apply keyed_empty]. Qed.

Lemma ensure_keeps (k : string) (service : result string) (newReport : string -> Report)
    (tkv : dict string) (acc acc' : dict Report) :
  (Dict.get "reports" tkv = None ->
   forall s, exists m, Dict.get "reports" (newReport s) = Some (PReports m)) ->
  (Dict.get "id" tkv = None -> forall s, Dict.get "id" (newReport s) = Some (PStr k)) ->
  ensure k service newReport acc = Ok acc' ->
  Dict.keys acc' = addKey (Dict.keys acc) k
  /\ (sound tkv acc -> sound tkv acc')
  /\ (Dict.inherited k = false -> Dict.get k acc' <> None).
Proof.
  intros Hr Hi. unfold ensure. destruct (present k acc) eqn:Ep.
  - intros [= <-]. split; [now apply present_keep | split; [auto |]].
    intros Hn. unfold present in Ep. rewrite Hn in Ep. simpl in Ep.
    now destruct (Dict.get k acc).
  - destruct service as [s |]; simpl; [| discriminate]. intros [= <-].
    destruct (set_new k (newReport s) acc Ep) as (Hk & Hw & Hd).
    split; [exact Hk | split].
    + intros [Sw Sk]. split; intros Ht; [apply Hw | apply Hd]; auto.
    + intros _. rewrite get_set_same. discriminate.
Qed.

Lemma ensure_total (k : string) (s : string) (newReport : string -> Report)
    (acc : dict Report) :
  exists acc', ensure k (Ok s) newReport acc = Ok acc'.
Proof. unfold ensure. destruct (present k acc); simpl; eauto. Qed.

Lemma callConvert_string (f : string -> string) (v : jsval) :
  isString v = true -> exists s, callConvert f v = Ok s.
Proof. destruct v; try discriminate. simpl. eauto. Qed.

Lemma sound_record_cost (tkv : dict string) (k p : string) (c : number)
    (acc acc' : dict Report) :
  record_cost k p c acc = Ok acc' -> sound tkv acc -> sound tkv acc'.
Proof.
  intros H [Sw Sk]. destruct (record_cost_keeps _ _ _ _ _ H) as (_ & Hw & Hk).
  split; auto.
Qed.

(** ** AWS: keys, ids and success *)

Section AwsKeys.

Variable getCategoryByServiceName : jsval -> dict string -> string.
Variable provider : string.
Variable subAccountConfig : Config.
Variable query : CostQuery.
Variable categoryMappings : dict string.
Variable tkv : dict string.

Let newReport :=
  Aws.newReport getCategoryByServiceName provider subAccountConfig categoryMappings tkv.
Let onGroup :=
  Aws.onGroup getCategoryByServiceName provider subAccountConfig categoryMappings tkv.
Let onRow :=
  Aws.onRow getCategoryByServiceName provider subAccountConfig query categoryMappings tkv.

Lemma aws_ensureReport_ensure (g : Aws.Group) (acc : dict Report) :
  Aws.ensureReport getCategoryByServiceName provider subAccountConfig categoryMappings tkv g
    acc
  = ensure (Aws.keyName subAccountConfig g)
      (callConvert (Aws.convertServiceName provider) (Aws.serviceName g)) (newReport g) acc.
Proof. reflexivity. Qed.

Lemma aws_newReport_reports (g : Aws.Group) :
  Dict.get "reports" tkv = None ->
  forall s, exists m, Dict.get "reports" (newReport g s) = Some (PReports m).
Proof.
  intros H s. exists Dict.empty. unfold newReport, Aws.newReport. now rewrite get_spread.
Qed.

Lemma aws_newReport_id (g : Aws.Group) :
  Dict.get "id" tkv = None ->
  forall s, Dict.get "id" (newReport g s) = Some (PStr (Aws.keyName subAccountConfig g)).
Proof. intros H s. unfold newReport, Aws.newReport. now rewrite get_spread. Qed.

Lemma aws_onGroup_keys (period : string) (acc : dict Report) (g : Aws.Group)
    (acc' : dict Report) :
  onGroup period acc g = Ok acc' -> sound tkv acc ->
  Dict.keys acc' = fold_left addKey [Aws.keyName subAccountConfig g] (Dict.keys acc)
  /\ sound tkv acc'.
Proof.
  unfold onGroup, Aws.onGroup. rewrite aws_ensureReport_ensure.
  destruct (ensure _ _ _ acc) as [acc1 |] eqn:E; simpl; [| discriminate].
  destruct (ensure_keeps _ _ _ tkv _ _ (aws_newReport_reports g) (aws_newReport_id g) E)
    as (Hk & Hs & _).
  destruct (Aws.Metrics g) as [m |].
  - destruct (Aws.cost m) as [c |]; simpl; [| discriminate].
    intros H S. destruct (record_cost_keeps _ _ _ _ _ H) as (Hk' & _).
    split; [congruence | exact (sound_record_cost _ _ _ _ _ _ H (Hs S))].
  - intros [= <-] S. auto.
Qed.

Lemma aws_onRow_keys (acc : dict Report) (row : Aws.ResultByTime) (acc' : dict Report) :
  onRow acc row = Ok acc' -> sound tkv acc ->
  Dict.keys acc' = fold_left addKey (AwsRows.keyNames subAccountConfig row) (Dict.keys acc)
  /\ sound tkv acc'.
Proof.
  unfold onRow, Aws.onRow, AwsRows.keyNames.
  destruct (Aws.Groups row) as [groups |]; [| intros [= <-]; auto].
  intros H S.
  destruct (foldM_keys (onGroup (Aws.period query row))
              (fun g => [Aws.keyName subAccountConfig g]) (sound tkv)
              (fun a x a' => aws_onGroup_keys _ a x a') groups acc acc' H S) as [Hk S'].
  split; [| exact S']. rewrite Hk. clear.
  replace (flat_map (fun g => [Aws.keyName subAccountConfig g]) groups)
    with (map (Aws.keyName subAccountConfig) groups); [reflexivity |].
  induction groups as [| g l IH]; simpl; [reflexivity | now rewrite IH].
Qed.

Lemma aws_onGroup_total (period : string) (acc : dict Report) (g : Aws.Group) :
  Dict.get "reports" tkv = None ->
  AwsRows.goodGroup subAccountConfig g = true -> sound tkv acc ->
  exists acc', onGroup period acc g = Ok acc' /\ sound tkv acc'.
Proof.
  unfold AwsRows.goodGroup. rewrite !andb_true_iff, negb_true_iff.
  intros Ht [[Hs Hi] Hm] S.
  assert (E : exists acc', onGroup period acc g = Ok acc').
  { unfold onGroup, Aws.onGroup. rewrite aws_ensureReport_ensure.
    destruct (callConvert_string (Aws.convertServiceName provider) _ Hs) as [s ->].
    destruct (ensure_total (Aws.keyName subAccountConfig g) s (newReport g) acc) as [acc1 E].
    rewrite E. simpl.
    destruct (ensure_keeps _ _ _ tkv _ _ (aws_newReport_reports g) (aws_newReport_id g) E)
      as (_ & Hs1 & Hp).
    destruct (Aws.Metrics g) as [m |]; [| eauto].
    unfold Aws.cost. destruct (Dict.get "UnblendedCost" m) as [mv |]; [| discriminate].
    simpl. apply record_cost_total; [apply (Hs1 S), Ht | apply Hp, Hi]. }
  destruct E as [acc' E]. exists acc'. split; [exact E |].
  exact (proj2 (aws_onGroup_keys _ _ _ _ E S)).
Qed.

Lemma aws_onRow_total (acc : dict Report) (row : Aws.ResultByTime) :
  Dict.get "reports" tkv = None ->
  AwsRows.wellFormed subAccountConfig row = true -> sound tkv acc ->
  exists acc', onRow acc row = Ok acc' /\ sound tkv acc'.
Proof.
  intros Ht Hg S. unfold onRow, Aws.onRow. unfold AwsRows.wellFormed in Hg.
  destruct (Aws.Groups row) as [groups |]; [| eauto].
  apply (foldM_total (onGroup (Aws.period query row))
           (fun g => AwsRows.goodGroup subAccountConfig g = true) (sound tkv)).
  - intros a x Hx Sa. now apply aws_onGroup_total.
  - apply Forall_forall. intros g Hin. rewrite forallb_forall in Hg. now apply Hg.
  - exact S.
Qed.

End AwsKeys.

(** Every bucket and the keys of the AWS transform, and its success on a
    well-formed response. *)
Lemma aws_transform_keys (getCategoryByServiceName : jsval -> dict string -> string)
    (provider : string) (cfg : Config) (query : CostQuery) (mappings tkv : dict string)
    (rows : list Aws.ResultByTime) (acc : dict Report) :
  tagKeyValues cfg = Ok tkv ->
  Aws.transformedData getCategoryByServiceName provider cfg query mappings rows = Ok acc ->
  Dict.keys acc = distinct (flat_map (AwsRows.keyNames cfg) rows) /\ sound tkv acc.
Proof.
  unfold Aws.transformedData. intros ->. simpl. intros H.
  apply (foldM_keys _ (AwsRows.keyNames cfg) (sound tkv)
           (fun a x a' => aws_onRow_keys _ _ _ _ _ _ a x a') rows _ _ H (sound_empty tkv)).
Qed.

Lemma aws_transform_total (getCategoryByServiceName : jsval -> dict string -> string)
    (provider : string) (cfg : Config) (query : CostQuery) (mappings tkv : dict string)
    (rows : list Aws.ResultByTime) :
  tagKeyValues cfg = Ok tkv -> Dict.get "reports" tkv = None ->
  forallb (AwsRows.wellFormed cfg) rows = true ->
  exists acc,
    Aws.transformedData getCategoryByServiceName provider cfg query mappings rows = Ok acc.
Proof.
  unfold Aws.transformedData. intros -> Ht Hg. simpl.
  destruct (foldM_total
              (Aws.onRow getCategoryByServiceName provider cfg query mappings tkv)
              (fun row => AwsRows.wellFormed cfg row = true) (sound tkv)
              (fun a x Hx S => aws_onRow_total _ _ _ _ _ _ a x Ht Hx S) rows Dict.empty)
    as (acc & E & _); [| apply sound_empty | eauto].
  apply Forall_forall. intros r Hin. rewrite forallb_forall in Hg. now apply Hg.
Qed.

(** ** Keys with an arrow name no inherited member *)

Lemma includes_app (a s sub : string) :
  String.prefix sub s = true -> Str.includes (a ++ s) sub = true.
Proof.
  intros H. induction a as [| c a IH].
  - destruct s; cbn [append Str.includes]; rewrite H; reflexivity.
  - cbn [append Str.includes]. rewrite IH. apply orb_true_r.
Qed.

Lemma arrow_not_inherited (k : string) :
  Str.includes k "->" = true -> Dict.inherited k = false.
Proof.
  intros H. unfold Dict.inherited, Dict.Object_prototype. simpl.
  repeat match goal with
         | |- context [String.eqb k ?n] =>
             destruct (String.eqb_spec k n) as [-> | _]; [vm_compute in H; discriminate |]
         end.
  reflexivity.
Qed.

Lemma prefix_arrow (s : string) : String.prefix "->" ("->" ++ s) = true.
Proof. cbn. now destruct s. Qed.

Lemma azure_keyName_plain (cfg : Config) (row : list jsval) :
  Dict.inherited (Azure.keyName cfg row) = false.
Proof.
  apply arrow_not_inherited. unfold Azure.keyName. simpl.
  apply includes_app, (prefix_arrow (ToString (index row 2))).
Qed.

Lemma mongo_keyName_plain (getCategoryByServiceName : jsval -> dict string -> string)
    (cfg : Config) (mappings : dict string) (header : list string) (line : string) :
  Dict.inherited (MongoAtlas.keyName getCategoryByServiceName cfg mappings header line)
  = false.
Proof.
  apply arrow_not_inherited. unfold MongoAtlas.keyName.
  apply includes_app, prefix_arrow.
Qed.

(** ** Azure: keys, ids and success *)

Section AzureKeys.

Variable moment : jsval -> option Z.
Variable getCategoryByServiceName : jsval -> dict string -> string.
Variable provider : string.
Variable subAccountConfig : Config.
Variable query : CostQuery.
Variable categoryMappings : dict string.
Variable tkv : dict string.

Let newReport :=
  Azure.newReport getCategoryByServiceName provider subAccountConfig categoryMappings tkv.
Let onRow :=
  Azure.onRow moment getCategoryByServiceName provider subAccountConfig query
    categoryMappings tkv.

Lemma azure_ensureReport_ensure (row : list jsval) (acc : dict Report) :
  Azure.ensureReport getCategoryByServiceName provider subAccountConfig categoryMappings tkv
    row acc
  = ensure (Azure.keyName subAccountConfig row)
      (callConvert (Azure.convertServiceName provider) (index row 2)) (newReport row) acc.
Proof. reflexivity. Qed.

Lemma azure_newReport_reports (row : list jsval) :
  Dict.get "reports" tkv = None ->
  forall s, exists m, Dict.get "reports" (newReport row s) = Some (PReports m).
Proof.
  intros H s. exists Dict.empty. unfold newReport, Azure.newReport. now rewrite get_spread.
Qed.

Lemma azure_newReport_id (row : list jsval) :
  Dict.get "id" tkv = None ->
  forall s, Dict.get "id" (newReport row s) = Some (PStr (Azure.keyName subAccountConfig row)).
Proof. intros H s. unfold newReport, Azure.newReport. now rewrite get_spread. Qed.

Lemma azure_onRow_keys (acc : dict Report) (row : list jsval) (acc' : dict Report) :
  onRow acc row = Ok acc' -> sound tkv acc ->
  Dict.keys acc' = fold_left addKey [Azure.keyName subAccountConfig row] (Dict.keys acc)
  /\ sound tkv acc'.
Proof.
  unfold onRow, Azure.onRow. rewrite azure_ensureReport_ensure.
  destruct (Azure.date query row) as [d |]; simpl; [| discriminate].
  destruct (ensure _ _ _ acc) as [acc1 |] eqn:E; simpl; [| discriminate].
  destruct (ensure_keeps _ _ _ tkv _ _ (azure_newReport_reports row)
              (azure_newReport_id row) E) as (Hk & Hs & _).
  destruct (Azure.beforeStart moment query d); simpl.
  - intros [= <-] S. auto.
  - destruct (Azure.period query d) as [p |]; simpl; [| discriminate].
    intros H S. destruct (record_cost_keeps _ _ _ _ _ H) as (Hk' & _).
    split; [congruence | exact (sound_record_cost _ _ _ _ _ _ H (Hs S))].
Qed.

Lemma azure_onRow_total (acc : dict Report) (row : list jsval) :
  Dict.get "reports" tkv = None ->
  AzureRows.wellFormed query row = true -> sound tkv acc ->
  exists acc', onRow acc row = Ok acc' /\ sound tkv acc'.
Proof.
  unfold AzureRows.wellFormed. rewrite !andb_true_iff.
  intros Ht [[Hs Hd] Hm] S.
  assert (E : exists acc', onRow acc row = Ok acc').
  { unfold onRow, Azure.onRow. rewrite azure_ensureReport_ensure.
    assert (Hdate : exists d, Azure.date query row = Ok d
                              /\ (is_monthly query = true -> isString d = true)).
    { unfold Azure.date. destruct (is_daily query) eqn:Ed.
      - rewrite (daily_not_monthly _ Ed). unfold Azure.formatDate.
        destruct (index row 1); try discriminate;
          destruct (negb _); simpl; eexists; (split; [reflexivity | discriminate]).
      - exists (index row 1). split; [reflexivity |]. intros Em. now rewrite Em in Hm. }
    destruct Hdate as (d & -> & Hstr). simpl.
    destruct (callConvert_string (Azure.convertServiceName provider) _ Hs) as [s ->].
    destruct (ensure_total (Azure.keyName subAccountConfig row) s (newReport row) acc)
      as [acc1 E].
    rewrite E. simpl.
    destruct (ensure_keeps _ _ _ tkv _ _ (azure_newReport_reports row)
                (azure_newReport_id row) E) as (_ & Hs1 & Hp).
    destruct (Azure.beforeStart moment query d); simpl; [eauto |].
    assert (Hper : exists p, Azure.period query d = Ok p).
    { unfold Azure.period, Azure.yearMonth. destruct (is_monthly query); [| eauto].
      specialize (Hstr eq_refl). destruct d; try discriminate. eauto. }
    destruct Hper as [p ->]. simpl.
    apply record_cost_total; [apply (Hs1 S), Ht | apply Hp, azure_keyName_plain]. }
  destruct E as [acc' E]. exists acc'. split; [exact E |].
  exact (proj2 (azure_onRow_keys _ _ _ E S)).
Qed.

End AzureKeys.

Lemma azure_transform_keys (moment : jsval -> option Z)
    (getCategoryByServiceName : jsval -> dict string -> string)
    (provider : string) (cfg : Config) (query : CostQuery) (mappings tkv : dict string)
    (rows : list (list jsval)) (acc : dict Report) :
  tagKeyValues cfg = Ok tkv ->
  Azure.transformedData moment getCategoryByServiceName provider cfg query mappings rows
  = Ok acc ->
  Dict.keys acc = distinct (map (Azure.keyName cfg) rows) /\ sound tkv acc.
Proof.
  unfold Azure.transformedData. intros ->. simpl. intros H.
  destruct (foldM_keys _ (fun row => [Azure.keyName cfg row]) (sound tkv)
              (fun a x a' => azure_onRow_keys _ _ _ _ _ _ _ a x a') rows _ _ H
              (sound_empty tkv)) as [Hk S].
  split; [| exact S]. rewrite Hk.
  replace (flat_map (fun row => [Azure.keyName cfg row]) rows)
    with (map (Azure.keyName cfg) rows); [reflexivity |].
  clear. induction rows as [| r l IH]; simpl; [reflexivity | now rewrite IH].
Qed.

Lemma azure_transform_total (moment : jsval -> option Z)
    (getCategoryByServiceName : jsval -> dict string -> string)
    (provider : string) (cfg : Config) (query : CostQuery) (mappings tkv : dict string)
    (rows : list (list jsval)) :
  tagKeyValues cfg = Ok tkv -> Dict.get "reports" tkv = None ->
  forallb (AzureRows.wellFormed query) rows = true ->
  exists acc,
    Azure.transformedData moment getCategoryByServiceName provider cfg query mappings rows
    = Ok acc.
Proof.
  unfold Azure.transformedData. intros -> Ht Hg. simpl.
  destruct (foldM_total
              (Azure.onRow moment getCategoryByServiceName provider cfg query mappings tkv)
              (fun row => AzureRows.wellFormed query row = true) (sound tkv)
              (fun a x Hx S => azure_onRow_total _ _ _ _ _ _ _ a x Ht Hx S) rows Dict.empty)
    as (acc & E & _); [| apply sound_empty | eauto].
  apply Forall_forall. intros r Hin. rewrite forallb_forall in Hg. now apply Hg.
Qed.

(** ** MongoDB Atlas: keys, ids and success *)

Section MongoAtlasKeys.

Variable moment : jsval -> option Z.
Variable getCategoryByServiceName : jsval -> dict string -> string.
Variable providerName : string.
Variable subAccountConfig : Config.
Variable query : CostQuery.
Variable categoryMappings : dict string.
Variable header : list string.
Variable tkv : dict string.

Let keyName :=
  MongoAtlas.keyName getCategoryByServiceName subAccountConfig categoryMappings header.
Let newReport :=
  MongoAtlas.newReport getCategoryByServiceName providerName subAccountConfig
    categoryMappings header tkv.
Let onLine :=
  MongoAtlas.onLine moment getCategoryByServiceName providerName subAccountConfig query
    categoryMappings header tkv.
Let keyNames :=
  MongoAtlasRows.keyNames getCategoryByServiceName subAccountConfig categoryMappings header.

Lemma mongo_ensureReport_ensure (line : string) (acc : dict Report) :
  MongoAtlas.ensureReport getCategoryByServiceName providerName subAccountConfig
    categoryMappings header tkv line acc
  = ensure (keyName line)
      (callConvert (MongoAtlas.convertServiceName providerName)
         (MongoAtlas.serviceName header line))
      (newReport line) acc.
Proof. reflexivity. Qed.

Lemma mongo_newReport_reports (line : string) :
  Dict.get "reports" tkv = None ->
  forall s, exists m, Dict.get "reports" (newReport line s) = Some (PReports m).
Proof.
  intros H s. exists Dict.empty. unfold newReport, MongoAtlas.newReport.
  now rewrite get_spread.
Qed.

Lemma mongo_newReport_id (line : string) :
  Dict.get "id" tkv = None ->
  forall s, Dict.get "id" (newReport line s) = Some (PStr (keyName line)).
Proof. intros H s. unfold newReport, MongoAtlas.newReport. now rewrite get_spread. Qed.

Lemma mongo_onLine_keys (acc : dict Report) (line : string) (acc' : dict Report) :
  onLine acc line = Ok acc' -> sound tkv acc ->
  Dict.keys acc' = fold_left addKey (keyNames line) (Dict.keys acc) /\ sound tkv acc'.
Proof.
  unfold onLine, MongoAtlas.onLine, keyNames, MongoAtlasRows.keyNames.
  rewrite mongo_ensureReport_ensure.
  destruct (MongoAtlas.parsedDate header line) as [d |]; [| intros [= <-]; auto].
  destruct (ensure _ _ _ acc) as [acc1 |] eqn:E; simpl; [| discriminate].
  destruct (ensure_keeps _ _ _ tkv _ _ (mongo_newReport_reports line)
              (mongo_newReport_id line) E) as (Hk & Hs & _).
  destruct (MongoAtlas.beforeStart moment query _); simpl.
  - intros [= <-] S. auto.
  - intros H S. destruct (record_cost_keeps _ _ _ _ _ H) as (Hk' & _).
    split; [rewrite Hk'; exact Hk | exact (sound_record_cost _ _ _ _ _ _ H (Hs S))].
Qed.

Lemma mongo_onLine_total (acc : dict Report) (line : string) :
  Dict.get "reports" tkv = None ->
  MongoAtlasRows.wellFormed header line = true -> sound tkv acc ->
  exists acc', onLine acc line = Ok acc' /\ sound tkv acc'.
Proof.
  unfold MongoAtlasRows.wellFormed. intros Ht Hg S.
  assert (E : exists acc', onLine acc line = Ok acc').
  { unfold onLine, MongoAtlas.onLine. rewrite mongo_ensureReport_ensure.
    destruct (MongoAtlas.parsedDate header line) as [d |]; [| eauto].
    destruct (callConvert_string (MongoAtlas.convertServiceName providerName) _ Hg)
      as [s ->].
    destruct (ensure_total (keyName line) s (newReport line) acc) as [acc1 E].
    rewrite E. simpl.
    destruct (ensure_keeps _ _ _ tkv _ _ (mongo_newReport_reports line)
                (mongo_newReport_id line) E) as (_ & Hs1 & Hp).
    destruct (MongoAtlas.beforeStart moment query _); simpl; [eauto |].
    apply record_cost_total; [apply (Hs1 S), Ht | apply Hp, mongo_keyName_plain]. }
  destruct E as [acc' E]. exists acc'. split; [exact E |].
  exact (proj2 (mongo_onLine_keys _ _ _ E S)).
Qed.

End MongoAtlasKeys.

Lemma mongo_transform_keys (moment : jsval -> option Z)
    (getCategoryByServiceName : jsval -> dict string -> string)
    (providerName : string) (cfg : Config) (query : CostQuery) (mappings tkv : dict string)
    (costResponse : string) (acc : dict Report) :
  tagKeyValues cfg = Ok tkv ->
  MongoAtlas.transformedData moment getCategoryByServiceName providerName cfg query mappings
    costResponse = Ok acc ->
  let lines := Str.split Str.LF costResponse in
  let header := Str.split "," (hd EmptyString lines) in
  Dict.keys acc
  = distinct (flat_map (MongoAtlasRows.keyNames getCategoryByServiceName cfg mappings header)
                (tl lines))
  /\ sound tkv acc.
Proof.
  unfold MongoAtlas.transformedData. intros ->. simpl. intros H.
  apply (foldM_keys _ _ (sound tkv)
           (fun a x a' => mongo_onLine_keys _ _ _ _ _ _ _ _ a x a') _ _ _ H
           (sound_empty tkv)).
Qed.

Lemma mongo_transform_total (moment : jsval -> option Z)
    (getCategoryByServiceName : jsval -> dict string -> string)
    (providerName : string) (cfg : Config) (query : CostQuery) (mappings tkv : dict string)
    (costResponse : string) :
  tagKeyValues cfg = Ok tkv -> Dict.get "reports" tkv = None ->
  (let lines := Str.split Str.LF costResponse in
   let header := Str.split "," (hd EmptyString lines) in
   forallb (MongoAtlasRows.wellFormed header) (tl lines) = true) ->
  exists acc,
    MongoAtlas.transformedData moment getCategoryByServiceName providerName cfg query
      mappings costResponse = Ok acc.
Proof.
  unfold MongoAtlas.transformedData. intros -> Ht Hg. simpl in *.
  set (header := Str.split "," (hd EmptyString (Str.split Str.LF costResponse))) in *.
  destruct (foldM_total
              (MongoAtlas.onLine moment getCategoryByServiceName providerName cfg query
                 mappings header tkv)
              (fun line => MongoAtlasRows.wellFormed header line = true) (sound tkv)
              (fun a x Hx S =>
                 mongo_onLine_total moment getCategoryByServiceName providerName cfg query
                   mappings header tkv a x Ht Hx S)
              (tl (Str.split Str.LF costResponse)) Dict.empty)
    as (acc & E & _); [| apply sound_empty | eauto].
  apply Forall_forall. intros r Hin. rewrite forallb_forall in Hg. now apply Hg.
Qed.

(** ** Grouping keys *)

Lemma get_Some_keys {V : Type} (k : string) (v : V) (d : dict V) :
  Dict.get k d = Some v -> In k (Dict.keys d).
Proof.
  intros H. destruct (in_dec string_dec k (Dict.keys d)) as [Hin | Hn]; [exact Hin |].
  apply get_None_keys in Hn. congruence.
Qed.

(** In an accumulator whose keys are distinct, the ids of the reports are the
    keys, in order. *)
Lemma ids_values (d : dict Report) :
  keyed d -> NoDup (Dict.keys d) -> ids (Dict.values d) = map idOf (Dict.keys d).
Proof.
  unfold ids, Dict.values, Dict.keys.
  induction d as [| [k r] d IH]; intros Hk Hn; simpl; [reflexivity |].
  inversion Hn as [| ? ? Hnotin Hn']; subst. f_equal.
  - apply Hk. simpl. now rewrite String.eqb_refl.
  - apply IH; [| exact Hn']. intros k' r' H. apply Hk. simpl.
    destruct (String.eqb_spec k' k) as [-> | _]; [| exact H].
    exfalso. apply Hnotin. exact (get_Some_keys _ _ _ H).
Qed.

Lemma ids_distinct (tkv : dict string) (acc : dict Report) (keys : list string) :
  Dict.get "id" tkv = None -> Dict.keys acc = distinct keys -> sound tkv acc ->
  ids (Dict.values acc) = map idOf (distinct keys).
Proof.
  intros Hi Hk [_ S]. rewrite <- Hk. apply ids_values; [auto |].
  rewrite Hk. apply distinct_NoDup.
Qed.

Lemma NoDup_idOf (l : list string) : NoDup l -> NoDup (map idOf l).
Proof.
  induction 1 as [| x l Hx Hl IH]; simpl; constructor; [| exact IH].
  rewrite in_map_iff. intros (y & [= ->] & Hy). contradiction.
Qed.

(** C8, as the code has it. The key of a group is the account name and the
    service name for the AWS and the Azure client, and the account name, the
    category of the service, the project and the cluster for the MongoDB
    Atlas client. Unless a static tag is named "id", the reports of an
    output carry as ids the distinct keys of the rows, each once, in the
    order of their first occurrence: rows of one key share one report. *)
Theorem grouping_keys :
  forall (moment : jsval -> option Z)
         (getCategoryByServiceName : jsval -> dict string -> string)
         (providerAws providerAzure providerName : string)
         (cfg : Config) (query : CostQuery) (mappings tkv : dict string)
         (atlasCsv : string) (azureRows : list (list jsval)) (awsRows : list Aws.ResultByTime)
         (atlasReports azureReports awsReports : list Report),
    tagKeyValues cfg = Ok tkv ->
    Dict.get "id" tkv = None ->
    MongoAtlas.transformCostsData moment getCategoryByServiceName providerName cfg query
      mappings atlasCsv = Ok atlasReports ->
    Azure.transformCostsData moment getCategoryByServiceName providerAzure cfg query mappings
      azureRows = Ok azureReports ->
    Aws.transformCostsData getCategoryByServiceName providerAws cfg query mappings awsRows
      = Ok awsReports ->
    let lines := Str.split Str.LF atlasCsv in
    let header := Str.split "," (hd EmptyString lines) in
    let atlasKeys :=
      flat_map (MongoAtlasRows.keyNames getCategoryByServiceName cfg mappings header)
        (tl lines) in
    (forall g, Aws.keyName cfg g = name cfg ++ "_" ++ ToString (Aws.serviceName g))
    /\ (forall row, Azure.keyName cfg row = name cfg ++ "->" ++ ToString (index row 2))
    /\ (forall line,
          MongoAtlas.keyName getCategoryByServiceName cfg mappings header line
          = name cfg ++ "->"
            ++ getCategoryByServiceName (MongoAtlas.serviceName header line) mappings
            ++ "->" ++ MongoAtlas.project header line
            ++ "->" ++ MongoAtlas.cluster header line)
    /\ ids awsReports = map idOf (distinct (flat_map (AwsRows.keyNames cfg) awsRows))
    /\ ids azureReports = map idOf (distinct (map (Azure.keyName cfg) azureRows))
    /\ ids atlasReports = map idOf (distinct atlasKeys)
    /\ NoDup (ids awsReports) /\ NoDup (ids azureReports) /\ NoDup (ids atlasReports).
Proof.
  intros moment getCat providerAws providerAzure providerName cfg query mappings tkv
    atlasCsv azureRows awsRows atlasReports azureReports awsReports Ht Hi HM HZ HA
    lines header atlasKeys.
  unfold MongoAtlas.transformCostsData in HM.
  destruct (MongoAtlas.transformedData _ _ _ _ _ _ _) as [accM |] eqn:EM; [| discriminate].
  unfold Azure.transformCostsData in HZ.
  destruct (Azure.transformedData _ _ _ _ _ _ _) as [accZ |] eqn:EZ; [| discriminate].
  unfold Aws.transformCostsData in HA.
  destruct (Aws.transformedData _ _ _ _ _ _) as [accA |] eqn:EA; [| discriminate].
  simpl in HM, HZ, HA. injection HM as <-. injection HZ as <-. injection HA as <-.
  destruct (mongo_transform_keys _ _ _ _ _ _ _ _ _ Ht EM) as [KM SM].
  destruct (azure_transform_keys _ _ _ _ _ _ _ _ _ Ht EZ) as [KZ SZ].
  destruct (aws_transform_keys _ _ _ _ _ _ _ _ Ht EA) as [KA SA].
  fold lines header atlasKeys in KM.
  assert (IA := ids_distinct _ _ _ Hi KA SA).
  assert (IZ := ids_distinct _ _ _ Hi KZ SZ).
  assert (IM := ids_distinct _ _ _ Hi KM SM).
  pose proof NoDup_idOf as Hinj.
  repeat split; try assumption.
  - rewrite IA. apply Hinj, distinct_NoDup.
  - rewrite IZ. apply Hinj, distinct_NoDup.
  - rewrite IM. apply Hinj, distinct_NoDup.
Qed.

Lemma grouping_keys_witness :
  ids (Dict.values Mixed.atlasData) = [idOf "prod->Uncategorized->shop->c0"]
  /\ ids (Dict.values April.azureData) = [idOf "prod->Azure App Service"]
  /\ ids (Dict.values April.awsData) = [idOf "prod_Amazon Simple Storage Service"].
Proof.
  destruct (grouping_keys (Env.moment April.now) Env.getCategoryByServiceName Env.AWS
              "Azure" "MongoAtlas" April.prod April.query Dict.empty
              [("env", "production")] Mixed.atlasCsv April.azureRows April.awsRows
              (Dict.values Mixed.atlasData) (Dict.values April.azureData)
              (Dict.values April.awsData) eq_refl eq_refl eq_refl eq_refl eq_refl)
    as (_ & _ & _ & HA & HZ & HM & _).
  split; [exact HM | split; [exact HZ | exact HA]].
Defined.

(** Two rows of the MongoDB Atlas response with different service names, one
    project and one cluster: one report, under one id, with the service name
    of the first row. *)
Lemma atlas_key_without_service :
  let lines := Str.split Str.LF Mixed.atlasCsv in
  let header := Str.split "," (hd EmptyString lines) in
  map (MongoAtlas.serviceName header) (tl lines)
  = [JStr "Atlas Data Transfer"; JStr "Atlas Backup Storage"]
  /\ MongoAtlas.transformCostsData (Env.moment April.now) Env.getCategoryByServiceName
       "MongoAtlas" April.prod April.query Dict.empty Mixed.atlasCsv
     = Ok [ [ ("id", PStr "prod->Uncategorized->shop->c0");
              ("name", PStr "MongoAtlas/prod");
              ("service", PStr "MongoAtlas/Data Transfer");
              ("category", PStr "Uncategorized");
              ("provider", PStr "MongoAtlas");
              ("reports", PReports [("2024-04", Num.of_Z 15)]);
              ("project", PStr "shop");
              ("cluster", PStr "c0");
              ("env", PStr "production") ] ].
Proof. split; vm_compute; reflexivity. Qed.

(** ** Costs that are no numbers *)

Lemma or0_nan (x : number) : is_nan x = true -> Num.or0 x = zero.
Proof. unfold Num.or0, Num.truthy. intros ->. now rewrite orb_true_r. Qed.

(** C9, as the code has it. A response that is well formed in everything
    but its costs is transformed without an exception by each client, and
    every bucket is the replay of the entries of all rows. An amount that
    does not parse counts as zero for the MongoDB Atlas client; the AWS
    client records [parseFloat] of the amount, zero only when the amount is
    absent, and the Azure client records [parseFloat] of the cost: [NaN] for
    a cost that does not parse. *)
Theorem cost_parse_failure :
  forall (moment : jsval -> option Z)
         (getCategoryByServiceName : jsval -> dict string -> string)
         (providerAws providerAzure providerName : string)
         (cfg : Config) (query : CostQuery) (mappings tkv : dict string)
         (atlasCsv : string) (azureRows : list (list jsval)) (awsRows : list Aws.ResultByTime),
    let lines := Str.split Str.LF atlasCsv in
    let header := Str.split "," (hd EmptyString lines) in
    tagKeyValues cfg = Ok tkv ->
    Dict.get "reports" tkv = None ->
    forallb (MongoAtlasRows.wellFormed header) (tl lines) = true ->
    forallb (AzureRows.wellFormed query) azureRows = true ->
    forallb (AwsRows.wellFormed cfg) awsRows = true ->
    (exists acc,
        MongoAtlas.transformedData moment getCategoryByServiceName providerName cfg query
          mappings atlasCsv = Ok acc
        /\ forall k p,
             bucket acc k p
             = replay k p
                 (flat_map (MongoAtlasRows.entries moment getCategoryByServiceName cfg query
                              mappings header) (tl lines)) None)
    /\ (exists acc,
          Azure.transformedData moment getCategoryByServiceName providerAzure cfg query
            mappings azureRows = Ok acc
          /\ forall k p,
               bucket acc k p
               = replay k p (flat_map (AzureRows.entries moment cfg query) azureRows) None)
    /\ (exists acc,
          Aws.transformedData getCategoryByServiceName providerAws cfg query mappings awsRows
          = Ok acc
          /\ forall k p,
               bucket acc k p = replay k p (flat_map (AwsRows.entries cfg query) awsRows) None)
    /\ (forall line,
          is_nan (parseFloat (MongoAtlas.field header line "Amount")) = true ->
          MongoAtlas.amount header line = zero)
    /\ (forall row e,
          In e (AzureRows.entries moment cfg query row) ->
          entryWrite e = Overwrite (parseFloat (index row 0)))
    /\ (forall groupMetrics m,
          Dict.get "UnblendedCost" groupMetrics = Some m ->
          Aws.cost groupMetrics
          = Ok (match Aws.Amount m with
                | Some a => Conv.parseFloat a
                | None => zero
                end)).
Proof.
  intros moment getCat providerAws providerAzure providerName cfg query mappings tkv
    atlasCsv azureRows awsRows lines header Ht Hr HM HZ HA.
  split; [| split; [| split; [| split; [| split]]]].
  - destruct (mongo_transform_total moment getCat providerName cfg query mappings tkv
                atlasCsv Ht Hr HM) as [acc E].
    exists acc. split; [exact E |].
    exact (mongo_transform_replay _ _ _ _ _ _ _ _ E).
  - destruct (azure_transform_total moment getCat providerAzure cfg query mappings tkv
                azureRows Ht Hr HZ) as [acc E].
    exists acc. split; [exact E |].
    exact (azure_transform_replay _ _ _ _ _ _ _ _ E).
  - destruct (aws_transform_total getCat providerAws cfg query mappings tkv awsRows Ht Hr HA)
      as [acc E].
    exists acc. split; [exact E |].
    exact (aws_transform_replay _ _ _ _ _ _ _ E).
  - intros line H. unfold MongoAtlas.amount. now apply or0_nan.
  - intros row e. unfold AzureRows.entries.
    destruct (Azure.date query row) as [d |]; [| intros []].
    destruct (Azure.beforeStart moment query d); [intros [] |].
    destruct (Azure.period query d) as [p |]; [| intros []].
    intros [<- | []]. reflexivity.
  - intros groupMetrics m H. unfold Aws.cost. rewrite H.
    destruct (Aws.Amount m); reflexivity.
Qed.

Lemma cost_parse_failure_witness :
  Aws.transformedData Env.getCategoryByServiceName Env.AWS April.prod April.query
    Dict.empty Mixed.awsRows = Ok Mixed.awsData
  /\ bucket Mixed.awsData "prod_Amazon Simple Storage Service" "2024-04" = Some nan
  /\ bucket Mixed.awsData "prod_Amazon Simple Storage Service" "2024-05"
     = Some (Num.of_Z 5).
Proof.
  destruct (cost_parse_failure (Env.moment April.now) Env.getCategoryByServiceName Env.AWS
              "Azure" "MongoAtlas" April.prod April.query Dict.empty
              [("env", "production")] Mixed.atlasCsv April.azureRows Mixed.awsRows
              eq_refl eq_refl eq_refl eq_refl eq_refl)
    as (_ & _ & (acc & E & Hb) & _).
  assert (Hacc : acc = Mixed.awsData).
  { assert (E' : Aws.transformedData Env.getCategoryByServiceName Env.AWS April.prod
                   April.query Dict.empty Mixed.awsRows = Ok Mixed.awsData)
      by (vm_compute; reflexivity).
    rewrite E' in E. now injection E. }
  subst acc. split; [exact E | split].
  - rewrite Hb. vm_compute. reflexivity.
  - rewrite Hb. vm_compute. reflexivity.
Defined.

(** The AWS client records [NaN], not zero, for an amount that is no
    number; the row after it is recorded as usual. *)
Lemma aws_records_nan :
  Aws.transformCostsData Env.getCategoryByServiceName Env.AWS April.prod April.query
    Dict.empty Mixed.awsRows
  = Ok [ [ ("id", PStr "prod_Amazon Simple Storage Service");
           ("name", PStr "AWS/prod");
           ("service", PStr "AWS/S3 (Simple Storage Service)");
           ("category", PStr "Uncategorized");
           ("provider", PStr "AWS");
           ("reports", PReports [("2024-04", nan); ("2024-05", Num.of_Z 5)]);
           ("env", PStr "production") ] ].
Proof. vm_compute. reflexivity. Qed.

(** ** Remarks on sums and keys *)

(** While no running sum is [-0] or [NaN], the sum of the MongoDB Atlas
    client is the plain sum of the amounts from zero, in the order of the
    rows. *)
Lemma additive_plain_sum (amounts : list number) :
  amounts <> [] ->
  (forall n, Num.or0 (fold_left PrimFloat.add (firstn n amounts) zero)
             = fold_left PrimFloat.add (firstn n amounts) zero) ->
  additive amounts = Some (fold_left PrimFloat.add amounts zero).
Proof.
  intros Hne H. destruct amounts as [| a l]; [contradiction |].
  unfold additive. f_equal. clear Hne.
  assert (G : forall (l : list number) (s : number),
             (forall n, Num.or0 (fold_left PrimFloat.add (firstn n l) s)
                        = fold_left PrimFloat.add (firstn n l) s) ->
             fold_left (fun sum a => PrimFloat.add (Num.or0 sum) a) l s
             = fold_left PrimFloat.add l s).
  { clear. induction l as [| x l IH]; intros s Hs; simpl; [reflexivity |].
    pose proof (Hs 0%nat) as H0. simpl in H0. rewrite H0.
    apply IH. intros n. exact (Hs (S n)). }
  apply G, H.
Qed.

Lemma append_cancel (a b c : string) : a ++ b = a ++ c -> b = c.
Proof. induction a as [| x a IH]; simpl; [auto | intros [= E]; auto]. Qed.

(** For one account, the keys of the AWS and of the Azure client tell the
    service names apart. *)
Lemma aws_keyName_service (cfg : Config) (g g' : Aws.Group) :
  Aws.keyName cfg g = Aws.keyName cfg g' ->
  ToString (Aws.serviceName g) = ToString (Aws.serviceName g').
Proof.
  unfold Aws.keyName. intros H. apply append_cancel in H. now apply (append_cancel "_").
Qed.

Lemma azure_keyName_service (cfg : Config) (row row' : list jsval) :
  Azure.keyName cfg row = Azure.keyName cfg row' ->
  ToString (index row 2) = ToString (index row' 2).
Proof.
  unfold Azure.keyName. simpl. intros H. apply append_cancel in H.
  now apply (append_cancel "->").
Qed.

(** * Further properties of the transforms *)

(** ** Invariants of the reports *)

Lemma every_empty (R : Report -> Prop) : every R Dict.empty.
Proof. intros k r. discriminate. Qed.

Lemma every_set (R : Report -> Prop) (k : string) (r : Report) (acc : dict Report) :
  R r -> every R acc -> every R (Dict.set k r acc).
Proof.
  intros Hr Ha k' r'. rewrite get_set.
  destruct (String.eqb k k'); [now intros [= <-] | apply Ha].
Qed.

Lemma ensure_every (R : Report -> Prop) (k : string) (service : result string)
    (newReport : string -> Report) (acc acc' : dict Report) :
  (forall s, service = Ok s -> R (newReport s)) ->
  ensure k service newReport acc = Ok acc' -> every R acc -> every R acc'.
Proof.
  intros Hn. unfold ensure. destruct (present k acc); [now intros [= <-] |].
  destruct service as [s |]; simpl; [| discriminate].
  intros [= <-] Ha. apply every_set; auto.
Qed.

Lemma record_cost_every (R : Report -> Prop) (k p : string) (c : number)
    (acc acc' : dict Report) :
  (forall r m, Dict.get "reports" r = Some (PReports m) -> R r ->
     forall m', R (Dict.set "reports" (PReports m') r)) ->
  record_cost k p c acc = Ok acc' -> every R acc -> every R acc'.
Proof.
  intros Hw. unfold record_cost, write_cost.
  destruct (Dict.get k acc) as [r |] eqn:Ek; [| discriminate].
  destruct (Dict.get "reports" r) as [[s | m] |] eqn:Er; try discriminate.
  simpl. intros [= <-] Ha. apply every_set; [| exact Ha].
  apply (Hw r m Er). exact (Ha _ _ Ek).
Qed.

Lemma foldM_invariant {A B : Type} (step : A -> B -> result A) (P : A -> Prop) :
  (forall acc x acc', step acc x = Ok acc' -> P acc -> P acc') ->
  forall l acc acc', foldM step l acc = Ok acc' -> P acc -> P acc'.
Proof.
  intros Hstep l. induction l as [| x l IH]; intros acc acc' H HP; simpl in H.
  - now injection H as <-.
  - destruct (step acc x) as [acc1 |] eqn:E; simpl in H; [| discriminate].
    exact (IH _ _ H (Hstep _ _ _ E HP)).
Qed.

(** A property of the reports that the new reports have and that the
    assignment of a cost keeps is an invariant of each transform. *)
Section Invariant.

Variable R : Report -> Prop.
Hypothesis R_cost :
  forall r m, Dict.get "reports" r = Some (PReports m) -> R r ->
    forall m', R (Dict.set "reports" (PReports m') r).

Lemma aws_every (getCat : jsval -> dict string -> string) (provider : string)
    (cfg : Config) (query : CostQuery) (mappings tkv : dict string)
    (rows : list Aws.ResultByTime) (acc : dict Report) :
  (forall g s,
     callConvert (Aws.convertServiceName provider) (Aws.serviceName g) = Ok s ->
     R (Aws.newReport getCat provider cfg mappings tkv g s)) ->
  tagKeyValues cfg = Ok tkv ->
  Aws.transformedData getCat provider cfg query mappings rows = Ok acc -> every R acc.
Proof.
  intros Hn Ht. unfold Aws.transformedData. rewrite Ht. simpl. intros H.
  apply (foldM_invariant _ (every R)) with (3 := every_empty R) (2 := H).
  intros a row a'. unfold Aws.onRow.
  destruct (Aws.Groups row) as [groups |]; [| now intros [= <-]].
  apply foldM_invariant. intros b g b'.
  unfold Aws.onGroup. rewrite aws_ensureReport_ensure.
  destruct (ensure _ _ _ b) as [a1 |] eqn:E; simpl; [| discriminate].
  intros Hg Ha. pose proof (ensure_every R _ _ _ _ _ (Hn g) E Ha) as Ha1.
  destruct (Aws.Metrics g) as [m |]; [| now injection Hg as <-].
  destruct (Aws.cost m) as [c |]; simpl in Hg; [| discriminate].
  exact (record_cost_every R _ _ _ _ _ R_cost Hg Ha1).
Qed.

Lemma azure_every (moment : jsval -> option Z) (getCat : jsval -> dict string -> string)
    (provider : string) (cfg : Config) (query : CostQuery) (mappings tkv : dict string)
    (rows : list (list jsval)) (acc : dict Report) :
  (forall row s,
     callConvert (Azure.convertServiceName provider) (index row 2) = Ok s ->
     R (Azure.newReport getCat provider cfg mappings tkv row s)) ->
  tagKeyValues cfg = Ok tkv ->
  Azure.transformedData moment getCat provider cfg query mappings rows = Ok acc ->
  every R acc.
Proof.
  intros Hn Ht. unfold Azure.transformedData. rewrite Ht. simpl. intros H.
  apply (foldM_invariant _ (every R)) with (3 := every_empty R) (2 := H).
  clear H. intros a row a'. unfold Azure.onRow. rewrite azure_ensureReport_ensure.
  destruct (Azure.date query row) as [d |]; simpl; [| discriminate].
  destruct (ensure _ _ _ a) as [a1 |] eqn:E; simpl; [| discriminate].
  intros H Ha. pose proof (ensure_every R _ _ _ _ _ (Hn row) E Ha) as Ha1.
  destruct (Azure.beforeStart moment query d); simpl in H; [now injection H as <- |].
  destruct (Azure.period query d) as [p |]; simpl in H; [| discriminate].
  exact (record_cost_every R _ _ _ _ _ R_cost H Ha1).
Qed.

Lemma mongo_every (moment : jsval -> option Z) (getCat : jsval -> dict string -> string)
    (providerName : string) (cfg : Config) (query : CostQuery) (mappings tkv : dict string)
    (csv : string) (acc : dict Report) :
  (forall header line s,
     callConvert (MongoAtlas.convertServiceName providerName)
       (MongoAtlas.serviceName header line) = Ok s ->
     R (MongoAtlas.newReport getCat providerName cfg mappings header tkv line s)) ->
  tagKeyValues cfg = Ok tkv ->
  MongoAtlas.transformedData moment getCat providerName cfg query mappings csv = Ok acc ->
  every R acc.
Proof.
  intros Hn Ht. unfold MongoAtlas.transformedData. rewrite Ht. simpl. intros H.
  apply (foldM_invariant _ (every R)) with (3 := every_empty R) (2 := H).
  clear H. intros a line a'. unfold MongoAtlas.onLine. rewrite mongo_ensureReport_ensure.
  destruct (MongoAtlas.parsedDate _ line) as [d |]; [| now intros [= <-]].
  destruct (ensure _ _ _ a) as [a1 |] eqn:E; simpl; [| discriminate].
  intros H Ha. pose proof (ensure_every R _ _ _ _ _ (Hn _ line) E Ha) as Ha1.
  destruct (MongoAtlas.beforeStart moment query _); simpl in H; [now injection H as <- |].
  exact (record_cost_every R _ _ _ _ _ R_cost H Ha1).
Qed.

End Invariant.

(** ** Static tags and fixed properties *)

Lemma set_NoDup {V : Type} (k : string) (v : V) (d : dict V) :
  NoDup (Dict.keys d) -> NoDup (Dict.keys (Dict.set k v d)).
Proof.
  intros H. rewrite keys_set. destruct (Dict.get k d) eqn:E; [exact H |].
  apply get_None_keys in E.
  apply NoDup_app; [exact H | constructor; [intros [] | constructor] |].
  intros x Hx [<- | []]. contradiction.
Qed.

(** The static tags have distinct keys. *)
Lemma tagKeyValues_NoDup (cfg : Config) (tkv : dict string) :
  tagKeyValues cfg = Ok tkv -> NoDup (Dict.keys tkv).
Proof.
  unfold tagKeyValues. destruct (tags cfg) as [l |]; [| intros [= <-]; constructor].
  assert (G : forall l acc, NoDup (Dict.keys acc) -> foldM addTag l acc = Ok tkv ->
                            NoDup (Dict.keys tkv)).
  { clear. induction l as [| x l IH]; intros acc Hn; simpl.
    - now intros [= <-].
    - unfold addTag at 1. destruct (Str.split ":" x) as [| k [| v r]]; try discriminate.
      simpl. apply IH. unfold Dict.assign.
      destruct (String.eqb (Str.trim k) "__proto__"); [exact Hn | now apply set_NoDup]. }
  apply G. constructor.
Qed.

Lemma get_spread_in (k v : string) (tkv : dict string) :
  NoDup (Dict.keys tkv) -> Dict.get k tkv = Some v ->
  forall base : Report, Dict.get k (spread base tkv) = Some (PStr v).
Proof.
  unfold spread. induction tkv as [| [k0 v0] tkv IH]; intros Hn H base; [discriminate |].
  simpl in *. inversion Hn as [| ? ? Hnotin Hn']; subst.
  destruct (String.eqb_spec k k0) as [-> | Hne].
  - injection H as ->. fold (spread (Dict.set k0 (PStr v) base) tkv).
    rewrite get_spread by now apply get_None_keys. apply get_set_same.
  - now apply IH.
Qed.

Lemma carries_cost (tkv : dict string) (r : Report) (m : dict number) :
  Dict.get "reports" r = Some (PReports m) -> carries tkv r ->
  forall m', carries tkv (Dict.set "reports" (PReports m') r).
Proof.
  intros Hr Hc m' k v Hk. rewrite get_set.
  destruct (String.eqb_spec "reports" k) as [<- | _]; [| now apply Hc].
  rewrite (Hc _ _ Hk) in Hr. discriminate.
Qed.

Lemma carries_spread (tkv : dict string) (base : Report) :
  NoDup (Dict.keys tkv) -> carries tkv (spread base tkv).
Proof. intros Hn k v H. now apply get_spread_in. Qed.

(** In an accumulator with distinct keys, what holds of every report under
    its key holds of every report of the output. *)
Lemma every_values (R : Report -> Prop) (acc : dict Report) :
  NoDup (Dict.keys acc) -> every R acc -> Forall R (Dict.values acc).
Proof.
  unfold every, Dict.values, Dict.keys.
  induction acc as [| [k r] acc IH]; intros Hn H; simpl; constructor.
  - apply (H k). simpl. now rewrite String.eqb_refl.
  - inversion Hn as [| ? ? Hnotin Hn']; subst. apply IH; [exact Hn' |].
    intros k' r' Hg. apply (H k'). simpl.
    destruct (String.eqb_spec k' k) as [-> | _]; [| exact Hg].
    exfalso. apply Hnotin. exact (get_Some_keys _ _ _ Hg).
Qed.

(** What an output of each transform is made of. *)
Lemma aws_output (getCat : jsval -> dict string -> string) (provider : string)
    (cfg : Config) (query : CostQuery) (mappings : dict string)
    (rows : list Aws.ResultByTime) (reports : list Report) :
  Aws.transformCostsData getCat provider cfg query mappings rows = Ok reports ->
  exists tkv acc,
    tagKeyValues cfg = Ok tkv
    /\ Aws.transformedData getCat provider cfg query mappings rows = Ok acc
    /\ reports = Dict.values acc
    /\ Dict.keys acc = distinct (flat_map (AwsRows.keyNames cfg) rows).
Proof.
  unfold Aws.transformCostsData.
  destruct (Aws.transformedData _ _ _ _ _ _) as [acc |] eqn:E; simpl; [| discriminate].
  intros [= <-]. destruct (tagKeyValues cfg) as [tkv |] eqn:Et.
  - exists tkv, acc. repeat split; auto.
    exact (proj1 (aws_transform_keys _ _ _ _ _ _ _ _ Et E)).
  - unfold Aws.transformedData in E. rewrite Et in E. discriminate.
Qed.

Lemma azure_output (moment : jsval -> option Z) (getCat : jsval -> dict string -> string)
    (provider : string) (cfg : Config) (query : CostQuery) (mappings : dict string)
    (rows : list (list jsval)) (reports : list Report) :
  Azure.transformCostsData moment getCat provider cfg query mappings rows = Ok reports ->
  exists tkv acc,
    tagKeyValues cfg = Ok tkv
    /\ Azure.transformedData moment getCat provider cfg query mappings rows = Ok acc
    /\ reports = Dict.values acc
    /\ Dict.keys acc = distinct (map (Azure.keyName cfg) rows).
Proof.
  unfold Azure.transformCostsData.
  destruct (Azure.transformedData _ _ _ _ _ _ _) as [acc |] eqn:E; simpl; [| discriminate].
  intros [= <-]. destruct (tagKeyValues cfg) as [tkv |] eqn:Et.
  - exists tkv, acc. repeat split; auto.
    exact (proj1 (azure_transform_keys _ _ _ _ _ _ _ _ _ Et E)).
  - unfold Azure.transformedData in E. rewrite Et in E. discriminate.
Qed.

Lemma mongo_output (moment : jsval -> option Z) (getCat : jsval -> dict string -> string)
    (providerName : string) (cfg : Config) (query : CostQuery) (mappings : dict string)
    (csv : string) (reports : list Report) :
  MongoAtlas.transformCostsData moment getCat providerName cfg query mappings csv
  = Ok reports ->
  exists tkv acc,
    tagKeyValues cfg = Ok tkv
    /\ MongoAtlas.transformedData moment getCat providerName cfg query mappings csv = Ok acc
    /\ reports = Dict.values acc
    /\ Dict.keys acc
       = distinct
           (flat_map (MongoAtlasRows.keyNames getCat cfg mappings
                        (Str.split "," (hd EmptyString (Str.split Str.LF csv))))
              (tl (Str.split Str.LF csv))).
Proof.
  unfold MongoAtlas.transformCostsData.
  destruct (MongoAtlas.transformedData _ _ _ _ _ _ _) as [acc |] eqn:E; simpl;
    [| discriminate].
  intros [= <-]. destruct (tagKeyValues cfg) as [tkv |] eqn:Et.
  - exists tkv, acc. repeat split; auto.
    exact (proj1 (mongo_transform_keys _ _ _ _ _ _ _ _ _ Et E)).
  - unfold MongoAtlas.transformedData in E. rewrite Et in E. discriminate.
Qed.

(** What holds of every new report and is kept by the assignment of a cost
    holds of every report of the three outputs. *)
Lemma outputs_every (R : Report -> Prop)
    (moment : jsval -> option Z) (getCat : jsval -> dict string -> string)
    (providerAws providerAzure providerName : string)
    (cfg : Config) (query : CostQuery) (mappings tkv : dict string)
    (csv : string) (azureRows : list (list jsval)) (awsRows : list Aws.ResultByTime)
    (atlasReports azureReports awsReports : list Report) :
  (forall r m, Dict.get "reports" r = Some (PReports m) -> R r ->
     forall m', R (Dict.set "reports" (PReports m') r)) ->
  (forall g s, callConvert (Aws.convertServiceName providerAws) (Aws.serviceName g) = Ok s ->
     R (Aws.newReport getCat providerAws cfg mappings tkv g s)) ->
  (forall row s, callConvert (Azure.convertServiceName providerAzure) (index row 2) = Ok s ->
     R (Azure.newReport getCat providerAzure cfg mappings tkv row s)) ->
  (forall header line s,
     callConvert (MongoAtlas.convertServiceName providerName)
       (MongoAtlas.serviceName header line) = Ok s ->
     R (MongoAtlas.newReport getCat providerName cfg mappings header tkv line s)) ->
  tagKeyValues cfg = Ok tkv ->
  MongoAtlas.transformCostsData moment getCat providerName cfg query mappings csv
  = Ok atlasReports ->
  Azure.transformCostsData moment getCat providerAzure cfg query mappings azureRows
  = Ok azureReports ->
  Aws.transformCostsData getCat providerAws cfg query mappings awsRows = Ok awsReports ->
  Forall R atlasReports /\ Forall R azureReports /\ Forall R awsReports.
Proof.
  intros Rc RA RZ RM Ht HM HZ HA.
  destruct (mongo_output _ _ _ _ _ _ _ _ HM) as (t1 & accM & Et1 & EM & -> & KM).
  destruct (azure_output _ _ _ _ _ _ _ _ HZ) as (t2 & accZ & Et2 & EZ & -> & KZ).
  destruct (aws_output _ _ _ _ _ _ _ HA) as (t3 & accA & Et3 & EA & -> & KA).
  split; [| split]; apply every_values.
  - rewrite KM. apply distinct_NoDup.
  - exact (mongo_every R Rc _ _ _ _ _ _ _ _ _ RM Ht EM).
  - rewrite KZ. apply distinct_NoDup.
  - exact (azure_every R Rc _ _ _ _ _ _ _ _ _ RZ Ht EZ).
  - rewrite KA. apply distinct_NoDup.
  - exact (aws_every R Rc _ _ _ _ _ _ _ _ RA Ht EA).
Qed.

(** X1. Every report of an output has each static tag of the account as a
    property, with the trimmed value of the tag: a tag named like a fixed
    property of the report ([id], [name], [service], [category], [provider])
    replaces it. *)
Theorem static_tags_on_every_report :
  forall (moment : jsval -> option Z) (getCat : jsval -> dict string -> string)
         (providerAws providerAzure providerName : string)
         (cfg : Config) (query : CostQuery) (mappings tkv : dict string)
         (csv : string) (azureRows : list (list jsval)) (awsRows : list Aws.ResultByTime)
         (atlasReports azureReports awsReports : list Report),
    tagKeyValues cfg = Ok tkv ->
    MongoAtlas.transformCostsData moment getCat providerName cfg query mappings csv
    = Ok atlasReports ->
    Azure.transformCostsData moment getCat providerAzure cfg query mappings azureRows
    = Ok azureReports ->
    Aws.transformCostsData getCat providerAws cfg query mappings awsRows = Ok awsReports ->
    Forall (carries tkv) atlasReports
    /\ Forall (carries tkv) azureReports
    /\ Forall (carries tkv) awsReports.
Proof.
  intros moment getCat providerAws providerAzure providerName cfg query mappings tkv csv
    azureRows awsRows atlasReports azureReports awsReports Ht.
  pose proof (tagKeyValues_NoDup _ _ Ht) as Hn.
  apply (outputs_every (carries tkv) moment getCat providerAws providerAzure providerName
           cfg query mappings tkv); try exact Ht.
  - apply carries_cost.
  - intros g s _. now apply carries_spread.
  - intros row s _. now apply carries_spread.
  - intros header line s _. now apply carries_spread.
Qed.

Lemma static_tags_on_every_report_witness :
  Forall (fun r => Dict.get "id" r = Some (PStr "billing")
                   /\ Dict.get "env" r = Some (PStr "production"))
    (Tagged.atlasReports ++ Tagged.azureReports ++ Tagged.awsReports).
Proof.
  destruct (static_tags_on_every_report (Env.moment April.now) Env.getCategoryByServiceName
              Env.AWS "Azure" "MongoAtlas" Tagged.relabelled April.query Dict.empty
              Tagged.tkv April.atlasCsv April.azureRows April.awsRows Tagged.atlasReports
              Tagged.azureReports Tagged.awsReports eq_refl eq_refl eq_refl eq_refl)
    as (HM & HZ & HA).
  rewrite !Forall_app. repeat split; eapply Forall_impl; try eassumption;
    intros r H; split; apply H; reflexivity.
Defined.

(** X2. Unless a static tag of that name replaces it, the [name] of every
    report is the provider, a slash and the account name, its [provider] is
    the provider, and its [service] starts with the provider and a slash. *)
Theorem reports_are_branded :
  forall (moment : jsval -> option Z) (getCat : jsval -> dict string -> string)
         (providerAws providerAzure providerName : string)
         (cfg : Config) (query : CostQuery) (mappings tkv : dict string)
         (csv : string) (azureRows : list (list jsval)) (awsRows : list Aws.ResultByTime)
         (atlasReports azureReports awsReports : list Report),
    tagKeyValues cfg = Ok tkv ->
    MongoAtlas.transformCostsData moment getCat providerName cfg query mappings csv
    = Ok atlasReports ->
    Azure.transformCostsData moment getCat providerAzure cfg query mappings azureRows
    = Ok azureReports ->
    Aws.transformCostsData getCat providerAws cfg query mappings awsRows = Ok awsReports ->
    Forall (branded tkv providerName (name cfg)) atlasReports
    /\ Forall (branded tkv providerAzure (name cfg)) azureReports
    /\ Forall (branded tkv providerAws (name cfg)) awsReports.
Proof.
  intros moment getCat providerAws providerAzure providerName cfg query mappings tkv csv
    azureRows awsRows atlasReports azureReports awsReports Ht HM HZ HA.
  assert (Rc : forall provider r m,
             Dict.get "reports" r = Some (PReports m) -> branded tkv provider (name cfg) r ->
             forall m', branded tkv provider (name cfg) (Dict.set "reports" (PReports m') r)).
  { intros provider r m _ (H1 & H2 & H3) m'. unfold branded.
    rewrite !get_set_other by discriminate. auto. }
  assert (Hconv : forall f provider v s,
             (forall n, exists s', f provider n = provider ++ "/" ++ s') ->
             callConvert (f provider) v = Ok s -> exists s', s = provider ++ "/" ++ s').
  { intros f provider v s Hf. destruct v; try discriminate. intros [= <-]. apply Hf. }
  destruct (mongo_output _ _ _ _ _ _ _ _ HM) as (t1 & accM & Et1 & EM & -> & KM).
  destruct (azure_output _ _ _ _ _ _ _ _ HZ) as (t2 & accZ & Et2 & EZ & -> & KZ).
  destruct (aws_output _ _ _ _ _ _ _ HA) as (t3 & accA & Et3 & EA & -> & KA).
  split; [| split]; apply every_values.
  - rewrite KM. apply distinct_NoDup.
  - apply (mongo_every _ (Rc providerName) _ _ _ _ _ _ tkv _ _) with (2 := Ht) (3 := EM).
    intros header line s Hs.
    destruct (Hconv MongoAtlas.convertServiceName _ _ _ (fun n => ex_intro _ _ eq_refl) Hs)
      as [s' ->].
    unfold branded, MongoAtlas.newReport.
    repeat split; intros Hk; rewrite (get_spread _ _ Hk); simpl; eauto.
  - rewrite KZ. apply distinct_NoDup.
  - apply (azure_every _ (Rc providerAzure) _ _ _ _ _ _ tkv _ _) with (2 := Ht) (3 := EZ).
    intros row s Hs.
    destruct (Hconv Azure.convertServiceName _ _ _ (fun n => ex_intro _ _ eq_refl) Hs)
      as [s' ->].
    unfold branded, Azure.newReport.
    repeat split; intros Hk; rewrite (get_spread _ _ Hk); simpl; eauto.
  - rewrite KA. apply distinct_NoDup.
  - apply (aws_every _ (Rc providerAws) _ _ _ _ _ tkv _ _) with (2 := Ht) (3 := EA).
    intros g s Hs.
    destruct (Hconv Aws.convertServiceName _ _ _ (fun n => ex_intro _ _ eq_refl) Hs)
      as [s' ->].
    unfold branded, Aws.newReport.
    repeat split; intros Hk; rewrite (get_spread _ _ Hk); simpl; eauto.
Qed.

Lemma reports_are_branded_witness :
  Forall (branded Tagged.tkv "MongoAtlas" "prod") Tagged.atlasReports
  /\ Forall (branded Tagged.tkv "Azure" "prod") Tagged.azureReports
  /\ Forall (branded Tagged.tkv Env.AWS "prod") Tagged.awsReports.
Proof.
  exact (reports_are_branded (Env.moment April.now) Env.getCategoryByServiceName
           Env.AWS "Azure" "MongoAtlas" Tagged.relabelled April.query Dict.empty
           Tagged.tkv April.atlasCsv April.azureRows April.awsRows Tagged.atlasReports
           Tagged.azureReports Tagged.awsReports eq_refl eq_refl eq_refl eq_refl).
Defined.

(** ** The size of an output *)

Lemma fold_addKey_length (l keys : list string) :
  (List.length (fold_left addKey l keys) <= List.length keys + List.length l)%nat.
Proof.
  revert keys. induction l as [| k l IH]; intros keys; simpl; [lia |].
  specialize (IH (addKey keys k)).
  assert ((List.length (addKey keys k) <= S (List.length keys))%nat).
  { unfold addKey. destruct (_ || _)%bool; [lia |]. rewrite length_app. simpl. lia. }
  lia.
Qed.

Lemma values_length {V : Type} (d : dict V) :
  List.length (Dict.values d) = List.length (Dict.keys d).
Proof. unfold Dict.values, Dict.keys. now rewrite !length_map. Qed.

(** X3. An output never has more reports than the response has rows: groups
    for the AWS client, rows for the Azure client, lines after the first for
    the MongoDB Atlas client. An empty response gives an empty output. *)
Theorem no_more_reports_than_rows :
  forall (moment : jsval -> option Z) (getCat : jsval -> dict string -> string)
         (providerAws providerAzure providerName : string)
         (cfg : Config) (query : CostQuery) (mappings : dict string)
         (csv : string) (azureRows : list (list jsval)) (awsRows : list Aws.ResultByTime)
         (atlasReports azureReports awsReports : list Report),
    MongoAtlas.transformCostsData moment getCat providerName cfg query mappings csv
    = Ok atlasReports ->
    Azure.transformCostsData moment getCat providerAzure cfg query mappings azureRows
    = Ok azureReports ->
    Aws.transformCostsData getCat providerAws cfg query mappings awsRows = Ok awsReports ->
    (List.length atlasReports <= List.length (tl (Str.split Str.LF csv)))%nat
    /\ (List.length azureReports <= List.length azureRows)%nat
    /\ (List.length awsReports <= groupCount awsRows)%nat.
Proof.
  intros moment getCat providerAws providerAzure providerName cfg query mappings csv
    azureRows awsRows atlasReports azureReports awsReports HM HZ HA.
  destruct (mongo_output _ _ _ _ _ _ _ _ HM) as (t1 & accM & _ & _ & -> & KM).
  destruct (azure_output _ _ _ _ _ _ _ _ HZ) as (t2 & accZ & _ & _ & -> & KZ).
  destruct (aws_output _ _ _ _ _ _ _ HA) as (t3 & accA & _ & _ & -> & KA).
  rewrite !values_length, KM, KZ, KA. clear. unfold distinct.
  split; [| split].
  - etransitivity; [apply fold_addKey_length |]. simpl.
    induction (tl (Str.split Str.LF csv)) as [| x l IH]; simpl; [lia |].
    rewrite length_app. unfold MongoAtlasRows.keyNames at 1.
    destruct (MongoAtlas.parsedDate _ x); simpl; lia.
  - etransitivity; [apply fold_addKey_length |]. simpl. now rewrite length_map.
  - etransitivity; [apply fold_addKey_length |]. simpl. unfold groupCount.
    induction awsRows as [| x l IH]; simpl; [lia |].
    rewrite !length_app. unfold AwsRows.keyNames at 1.
    destruct (Aws.Groups x); simpl; [rewrite length_map |]; lia.
Qed.

Lemma no_more_reports_than_rows_witness :
  (List.length (Dict.values Mixed.atlasData) <= 2)%nat
  /\ (List.length (Dict.values April.azureData) <= 2)%nat
  /\ (List.length (Dict.values April.awsData) <= 2)%nat.
Proof.
  exact (no_more_reports_than_rows (Env.moment April.now) Env.getCategoryByServiceName
           Env.AWS "Azure" "MongoAtlas" April.prod April.query Dict.empty Mixed.atlasCsv
           April.azureRows April.awsRows (Dict.values Mixed.atlasData)
           (Dict.values April.azureData) (Dict.values April.awsData)
           eq_refl eq_refl eq_refl).
Defined.

(** ** A static tag named "reports" *)

Lemma replay_Some (k p : string) (es : list entry) (x : number) :
  exists y, replay k p es (Some x) = Some y.
Proof.
  revert x. induction es as [| e es IH]; intros x; [now exists x |].
  unfold replay. simpl. fold (replay k p es).
  destruct (touches k p e); apply IH.
Qed.

(** An entry leaves something in its bucket, whatever comes after it. *)
Lemma replay_touched (e : entry) (es : list entry) (old : option number) :
  In e es -> String.eqb (entryPeriod e) "__proto__" = false ->
  exists y, replay (entryKey e) (entryPeriod e) es old = Some y.
Proof.
  intros Hin Hp. apply in_split in Hin as (es1 & es2 & ->).
  rewrite replay_app. unfold replay at 1. simpl. fold (replay (entryKey e) (entryPeriod e) es2).
  unfold touches. rewrite !String.eqb_refl, Hp. simpl. apply replay_Some.
Qed.

Lemma shadowed_bucket (tkv : dict string) (v : string) (acc : dict Report) :
  Dict.get "reports" tkv = Some v -> every (carries tkv) acc ->
  forall k p, bucket acc k p = None.
Proof.
  intros Hv Ha k p. unfold bucket. destruct (Dict.get k acc) as [r |] eqn:E; [| reflexivity].
  unfold cost_at. now rewrite (Ha _ _ E _ _ Hv).
Qed.

(** X4. With a static tag named "reports" the object of costs of every
    report is replaced by the text of the tag: each transform throws as soon
    as a row has a cost to record. *)
Theorem reports_tag_aborts :
  forall (moment : jsval -> option Z) (getCat : jsval -> dict string -> string)
         (providerAws providerAzure providerName : string)
         (cfg : Config) (query : CostQuery) (mappings tkv : dict string) (v : string)
         (csv : string) (azureRows : list (list jsval)) (awsRows : list Aws.ResultByTime),
    tagKeyValues cfg = Ok tkv ->
    Dict.get "reports" tkv = Some v ->
    let lines := Str.split Str.LF csv in
    let header := Str.split "," (hd EmptyString lines) in
    ((exists e, In e (flat_map (MongoAtlasRows.entries moment getCat cfg query mappings header)
                        (tl lines))) ->
     exists err,
       MongoAtlas.transformCostsData moment getCat providerName cfg query mappings csv
       = Throw err)
    /\ ((exists e, In e (flat_map (AzureRows.entries moment cfg query) azureRows)
                   /\ String.eqb (entryPeriod e) "__proto__" = false) ->
        exists err,
          Azure.transformCostsData moment getCat providerAzure cfg query mappings azureRows
          = Throw err)
    /\ ((exists e, In e (flat_map (AwsRows.entries cfg query) awsRows)
                   /\ String.eqb (entryPeriod e) "__proto__" = false) ->
        exists err,
          Aws.transformCostsData getCat providerAws cfg query mappings awsRows = Throw err).
Proof.
  intros moment getCat providerAws providerAzure providerName cfg query mappings tkv v csv
    azureRows awsRows Ht Hv lines header.
  pose proof (tagKeyValues_NoDup _ _ Ht) as Hn.
  split; [| split].
  - intros [e He].
    destruct (MongoAtlas.transformCostsData _ _ _ _ _ _ _) as [reports |] eqn:E; [| eauto].
    exfalso. destruct (mongo_output _ _ _ _ _ _ _ _ E) as (t & acc & _ & EM & _ & _).
    assert (Ha : every (carries tkv) acc).
    { apply (mongo_every _ (carries_cost tkv) _ _ _ _ _ _ tkv _ _) with (2 := Ht) (3 := EM).
      intros h line s _. now apply carries_spread. }
    assert (Hp : String.eqb (entryPeriod e) "__proto__" = false).
    { apply in_flat_map in He as (line & _ & Hl). unfold MongoAtlasRows.entries in Hl.
      destruct (MongoAtlas.parsedDate _ line) as [d |]; [| destruct Hl].
      cbv zeta in Hl. destruct (MongoAtlas.beforeStart _ _ _); [destruct Hl |].
      destruct Hl as [<- | []]. apply billingPeriod_not_proto. }
    destruct (replay_touched e _ None He Hp) as [y Hy].
    pose proof (mongo_transform_replay _ _ _ _ _ _ _ _ EM (entryKey e) (entryPeriod e)) as Hb.
    cbv zeta in Hb. fold lines header in Hb.
    rewrite (shadowed_bucket _ _ _ Hv Ha) in Hb. congruence.
  - intros (e & He & Hp).
    destruct (Azure.transformCostsData _ _ _ _ _ _ _) as [reports |] eqn:E; [| eauto].
    exfalso. destruct (azure_output _ _ _ _ _ _ _ _ E) as (t & acc & _ & EZ & _ & _).
    assert (Ha : every (carries tkv) acc).
    { apply (azure_every _ (carries_cost tkv) _ _ _ _ _ _ tkv _ _) with (2 := Ht) (3 := EZ).
      intros row s _. now apply carries_spread. }
    destruct (replay_touched e _ None He Hp) as [y Hy].
    pose proof (azure_transform_replay _ _ _ _ _ _ _ _ EZ (entryKey e) (entryPeriod e)) as Hb.
    rewrite (shadowed_bucket _ _ _ Hv Ha) in Hb. congruence.
  - intros (e & He & Hp).
    destruct (Aws.transformCostsData _ _ _ _ _ _) as [reports |] eqn:E; [| eauto].
    exfalso. destruct (aws_output _ _ _ _ _ _ _ E) as (t & acc & _ & EA & _ & _).
    assert (Ha : every (carries tkv) acc).
    { apply (aws_every _ (carries_cost tkv) _ _ _ _ _ tkv _ _) with (2 := Ht) (3 := EA).
      intros g s _. now apply carries_spread. }
    destruct (replay_touched e _ None He Hp) as [y Hy].
    pose proof (aws_transform_replay _ _ _ _ _ _ _ EA (entryKey e) (entryPeriod e)) as Hb.
    rewrite (shadowed_bucket _ _ _ Hv Ha) in Hb. congruence.
Qed.

Lemma reports_tag_aborts_witness :
  exists err,
    Aws.transformCostsData Env.getCategoryByServiceName Env.AWS Tagged.shadowed April.query
      Dict.empty April.awsRows = Throw err.
Proof.
  refine (proj2 (proj2 (reports_tag_aborts (Env.moment April.now)
                          Env.getCategoryByServiceName Env.AWS "Azure" "MongoAtlas"
                          Tagged.shadowed April.query Dict.empty [("reports", "none")] "none"
                          April.atlasCsv April.azureRows April.awsRows eq_refl eq_refl)) _).
  eexists. split; [left; reflexivity | reflexivity].
Defined.

(** ** The lines the MongoDB Atlas transform reads *)

Lemma foldM_onLine_dated moment getCat providerName cfg query mappings header tkv
    (rows : list string) :
  forall acc,
    foldM (MongoAtlas.onLine moment getCat providerName cfg query mappings header tkv)
      rows acc
    = foldM (MongoAtlas.onLine moment getCat providerName cfg query mappings header tkv)
        (List.filter (dated header) rows) acc.
Proof.
  induction rows as [| line rows IH]; intros acc; [reflexivity |].
  simpl. unfold dated at 1.
  destruct (MongoAtlas.parsedDate header line) as [d |] eqn:E.
  - simpl. destruct (MongoAtlas.onLine _ _ _ _ _ _ _ _ acc line); simpl; [apply IH | reflexivity].
  - unfold MongoAtlas.onLine at 1. rewrite E. simpl. apply IH.
Qed.

(** X5. The MongoDB Atlas transform reads its first line for the names of
    the columns and, of the other lines, only those whose Date column is a
    day of the calendar written MM/DD/YYYY: two responses that agree on
    these have the same outcome. Titles, blank lines, repeated headers and
    lines of totals change nothing. *)
Theorem atlas_undated_lines_are_skipped :
  forall (moment : jsval -> option Z) (getCat : jsval -> dict string -> string)
         (providerName : string) (cfg : Config) (query : CostQuery) (mappings : dict string)
         (csv1 csv2 : string),
    let lines1 := Str.split Str.LF csv1 in
    let lines2 := Str.split Str.LF csv2 in
    let header := Str.split "," (hd EmptyString lines1) in
    hd EmptyString lines1 = hd EmptyString lines2 ->
    List.filter (dated header) (tl lines1) = List.filter (dated header) (tl lines2) ->
    MongoAtlas.transformCostsData moment getCat providerName cfg query mappings csv1
    = MongoAtlas.transformCostsData moment getCat providerName cfg query mappings csv2.
Proof.
  intros moment getCat providerName cfg query mappings csv1 csv2 lines1 lines2 header Hh Hr.
  unfold MongoAtlas.transformCostsData, MongoAtlas.transformedData.
  destruct (tagKeyValues cfg) as [tkv | e]; [| reflexivity].
  simpl. fold lines1 lines2. rewrite <- Hh. fold header.
  rewrite (foldM_onLine_dated _ _ _ _ _ _ _ _ (tl lines1)).
  rewrite (foldM_onLine_dated _ _ _ _ _ _ _ _ (tl lines2)).
  now rewrite Hr.
Qed.

Lemma atlas_undated_lines_are_skipped_witness :
  MongoAtlas.transformCostsData (Env.moment April.now) Env.getCategoryByServiceName
    "MongoAtlas" April.prod April.query Dict.empty TwoInvoices.padded
  = MongoAtlas.transformCostsData (Env.moment April.now) Env.getCategoryByServiceName
      "MongoAtlas" April.prod April.query Dict.empty Mixed.atlasCsv.
Proof.
  apply (atlas_undated_lines_are_skipped (Env.moment April.now) Env.getCategoryByServiceName
           "MongoAtlas" April.prod April.query Dict.empty TwoInvoices.padded Mixed.atlasCsv);
    reflexivity.
Defined.

(** ** The lines a MongoDB Atlas download keeps *)

Lemma filterLines_found (lines : list string) :
  MongoAtlas.filterLines true lines = List.filter isKept lines.
Proof.
  induction lines as [| line rest IH]; [reflexivity |].
  simpl. unfold isKept at 1, isHeading.
  destruct (Str.startsWith (Str.trim line) "Organization ID,"); simpl; [exact IH |].
  destruct (negb (String.eqb (Str.trim line) "")
            && negb (Str.includes (Str.trim line) "Credit"))%bool;
    now rewrite IH.
Qed.

(** X6. What a download keeps: the lines after the first line that starts
    with "Organization ID," (trimmed), without the blank ones, without those
    that have "Credit" anywhere, and without any later line that starts with
    "Organization ID,"; in their order and untrimmed. A download with no
    such first line keeps nothing. *)
Theorem filterLines_keeps :
  forall lines : list string,
    MongoAtlas.filterLines false lines = List.filter isKept (afterHeading lines)
    /\ (forallb (fun line => negb (isHeading line)) lines = true ->
        MongoAtlas.filterLines false lines = []).
Proof.
  intros lines. split.
  - induction lines as [| line rest IH]; [reflexivity |].
    simpl. unfold isHeading at 1.
    destruct (Str.startsWith (Str.trim line) "Organization ID,"); simpl;
      [apply filterLines_found | exact IH].
  - induction lines as [| line rest IH]; [reflexivity |].
    simpl. unfold isHeading at 1.
    destruct (Str.startsWith (Str.trim line) "Organization ID,"); simpl;
      [discriminate | exact IH].
Qed.

Lemma filterLines_keeps_witness :
  MongoAtlas.filterLines false ["No data"; " and no heading"] = [].
Proof.
  apply (proj2 (filterLines_keeps ["No data"; " and no heading"])). reflexivity.
Defined.

(** ** From the downloads to the lines of the response *)

Lemma split_nonempty (sep : ascii) (s : string) : Str.split sep s <> [].
Proof.
  destruct s as [| c s]; simpl; [discriminate |].
  destruct (Ascii.eqb c sep); [discriminate |]. destruct (Str.split sep s); discriminate.
Qed.

Lemma split_app_sep (sep : ascii) (a b : string) :
  Str.split sep (a ++ String sep b) = (Str.split sep a ++ Str.split sep b)%list.
Proof.
  induction a as [| c a IH]; simpl.
  - now rewrite Ascii.eqb_refl.
  - rewrite IH. destruct (Ascii.eqb c sep); [reflexivity |].
    pose proof (split_nonempty sep a) as Hn.
    destruct (Str.split sep a) as [| h t]; [contradiction | reflexivity].
Qed.

Lemma split_oneLine (s : string) : oneLine s = true -> Str.split Str.LF s = [s].
Proof.
  induction s as [| c s IH]; simpl; [reflexivity |].
  rewrite andb_true_iff, negb_true_iff. intros [-> Hs]. now rewrite (IH Hs).
Qed.

Lemma split_lines_oneLine (s : string) : Forall (fun l => oneLine l = true) (Str.split Str.LF s).
Proof.
  induction s as [| c s IH]; simpl; [now constructor |].
  destruct (Ascii.eqb c Str.LF) eqn:E; [now constructor |].
  destruct (Str.split Str.LF s) as [| h t]; [repeat constructor; simpl; now rewrite E |].
  inversion IH as [| ? ? Hh Ht]; subst. constructor; [| exact Ht]. simpl. now rewrite E, Hh.
Qed.

Lemma filterLines_Forall (P : string -> Prop) (lines : list string) :
  Forall P lines -> forall found, Forall P (MongoAtlas.filterLines found lines).
Proof.
  induction 1 as [| x l Hx Hl IH]; intros found; simpl; [constructor |].
  destruct (Str.startsWith (Str.trim x) "Organization ID,"); [apply IH |].
  destruct (negb found); [apply IH |].
  destruct (_ && _)%bool; [constructor; [exact Hx | apply IH] | apply IH].
Qed.

(** The lines of joined texts are the lines of each text, in order. *)
Lemma split_join (x : string) (texts : list string) :
  Str.split Str.LF (Str.join MongoAtlas.newline (x :: texts))
  = flat_map (Str.split Str.LF) (x :: texts).
Proof.
  revert x. induction texts as [| y texts IH]; intros x.
  - simpl. now rewrite app_nil_r.
  - change (Str.join MongoAtlas.newline (x :: y :: texts))
      with (x ++ String Str.LF (Str.join MongoAtlas.newline (y :: texts)))%string.
    rewrite split_app_sep, IH. reflexivity.
Qed.

Lemma split_join_lines (lines : list string) :
  Forall (fun l => oneLine l = true) lines -> lines <> [] ->
  Str.split Str.LF (Str.join MongoAtlas.newline lines) = lines.
Proof.
  intros H Hn. destruct lines as [| x l]; [contradiction |]. rewrite split_join.
  clear Hn. induction H as [| y r Hy Hr IH]; [reflexivity |].
  cbn [flat_map]. rewrite IH, (split_oneLine _ Hy). reflexivity.
Qed.

Lemma split_filteredLines (data : string) :
  Str.split Str.LF (MongoAtlas.filteredLines data) = invoiceLines data.
Proof.
  unfold MongoAtlas.filteredLines, invoiceLines.
  pose proof (filterLines_Forall _ _ (split_lines_oneLine data) false) as H.
  destruct (MongoAtlas.filterLines false (Str.split Str.LF data)) as [| x l] eqn:E;
    [reflexivity |].
  now apply split_join_lines.
Qed.

Lemma allInvoicesData_Ok (requestCsv : string -> MongoAtlas.CsvResponse)
    (invoices : list string) :
  forall all,
    MongoAtlas.allInvoicesData requestCsv invoices = Ok all ->
    all = map (fun invoiceId => MongoAtlas.filteredLines (MongoAtlas.data (requestCsv invoiceId)))
            invoices
    /\ Forall (fun invoiceId => MongoAtlas.status (requestCsv invoiceId) = 200) invoices.
Proof.
  induction invoices as [| i l IH]; intros all; simpl.
  - intros [= <-]. now split.
  - unfold MongoAtlas.invoiceCsv.
    destruct (Z.eqb_spec (MongoAtlas.status (requestCsv i)) 200) as [E | N]; simpl;
      [| discriminate].
    destruct (MongoAtlas.allInvoicesData requestCsv l) as [xs | e]; simpl; [| discriminate].
    intros [= <-]. destruct (IH xs eq_refl) as [-> Hl]. split; [reflexivity |].
    now constructor.
Qed.

Lemma fetch_lines (requestCsv : string -> MongoAtlas.CsvResponse)
    (response : MongoAtlas.InvoicesResponse) (blob : string) :
  MongoAtlas.fetchCostsFromCloud requestCsv response = Ok blob ->
  Str.split Str.LF blob
  = match MongoAtlas.results response with
    | [] => [EmptyString]
    | invoices =>
        flat_map (fun invoiceId => invoiceLines (MongoAtlas.data (requestCsv invoiceId)))
          invoices
    end.
Proof.
  unfold MongoAtlas.fetchCostsFromCloud.
  destruct (negb (MongoAtlas.invoicesStatus response =? 200)); [discriminate |].
  destruct (MongoAtlas.allInvoicesData requestCsv (MongoAtlas.results response))
    as [all | e] eqn:E; simpl; [| discriminate].
  intros [= <-]. destruct (allInvoicesData_Ok _ _ _ E) as [-> _].
  destruct (MongoAtlas.results response) as [| i l]; [reflexivity |].
  cbn [map]. rewrite split_join.
  change (flat_map (Str.split Str.LF)
            (map (fun invoiceId =>
                    MongoAtlas.filteredLines (MongoAtlas.data (requestCsv invoiceId)))
               (i :: l))
          = flat_map (fun invoiceId => invoiceLines (MongoAtlas.data (requestCsv invoiceId)))
              (i :: l)).
  generalize (i :: l). intros ids. induction ids as [| j ids IH]; [reflexivity |].
  cbn [map flat_map]. now rewrite IH, split_filteredLines.
Qed.

(** X7. The response the fetch returns, split into lines as the transform
    does, is the kept lines of each download in the order of the invoice
    list; a download of which nothing is kept stands there as one empty
    line, and an empty invoice list gives one empty line. *)
Theorem fetched_lines :
  forall (requestCsv : string -> MongoAtlas.CsvResponse)
         (response : MongoAtlas.InvoicesResponse) (blob : string),
    MongoAtlas.fetchCostsFromCloud requestCsv response = Ok blob ->
    Str.split Str.LF blob
    = match MongoAtlas.results response with
      | [] => [EmptyString]
      | invoices =>
          flat_map (fun invoiceId => invoiceLines (MongoAtlas.data (requestCsv invoiceId)))
            invoices
      end.
Proof. exact fetch_lines. Qed.

Lemma fetched_lines_witness :
  exists blob,
    MongoAtlas.fetchCostsFromCloud TwoInvoices.requestCsv TwoInvoices.invoices = Ok blob
    /\ Str.split Str.LF blob
       = [ ""; "Date,SKU,Project,Cluster,Amount"; "04/07/2024,Atlas Data Transfer,shop,c0,4" ].
Proof.
  eexists. split; [reflexivity |].
  exact (fetched_lines TwoInvoices.requestCsv TwoInvoices.invoices _ eq_refl).
Defined.

Lemma allInvoicesData_all_ok (requestCsv : string -> MongoAtlas.CsvResponse)
    (invoices : list string) :
  Forall (fun invoiceId => MongoAtlas.status (requestCsv invoiceId) = 200) invoices ->
  exists all, MongoAtlas.allInvoicesData requestCsv invoices = Ok all.
Proof.
  induction 1 as [| i l Hi Hl [all IH]]; [now exists [] |].
  simpl. unfold MongoAtlas.invoiceCsv. rewrite Hi, IH. simpl. eauto.
Qed.

(** X8. The fetch returns a response exactly when the invoice list and each
    download are answered with the status 200. Another status of the
    invoice list is thrown with its status text, and when one download alone
    is answered with another status, that one is thrown: what the other
    downloads gave is lost. *)
Theorem fetch_needs_every_download :
  forall (requestCsv : string -> MongoAtlas.CsvResponse)
         (response : MongoAtlas.InvoicesResponse),
    ((exists blob, MongoAtlas.fetchCostsFromCloud requestCsv response = Ok blob)
     <-> MongoAtlas.invoicesStatus response = 200
         /\ Forall (fun invoiceId => MongoAtlas.status (requestCsv invoiceId) = 200)
              (MongoAtlas.results response))
    /\ (MongoAtlas.invoicesStatus response <> 200 ->
        MongoAtlas.fetchCostsFromCloud requestCsv response
        = Throw (Error ("Error fetching invoices: "
                        ++ Conv.decimal (MongoAtlas.invoicesStatus response) ++ " "
                        ++ MongoAtlas.invoicesStatusText response)))
    /\ (forall before failed after,
          MongoAtlas.invoicesStatus response = 200 ->
          MongoAtlas.results response = (before ++ failed :: after)%list ->
          MongoAtlas.status (requestCsv failed) <> 200 ->
          (forall invoiceId, In invoiceId (before ++ after) -> invoiceId <> failed ->
             MongoAtlas.status (requestCsv invoiceId) = 200) ->
          MongoAtlas.fetchCostsFromCloud requestCsv response
          = Throw (Error ("Error fetching invoice CSV: "
                          ++ Conv.decimal (MongoAtlas.status (requestCsv failed)) ++ " "
                          ++ MongoAtlas.statusText (requestCsv failed)))).
Proof.
  intros requestCsv response. unfold MongoAtlas.fetchCostsFromCloud. split; [| split].
  - destruct (Z.eqb_spec (MongoAtlas.invoicesStatus response) 200) as [E | N]; simpl.
    + split.
      * intros [blob H]. split; [exact E |].
        destruct (MongoAtlas.allInvoicesData requestCsv (MongoAtlas.results response))
          as [all | e] eqn:Ea; [| discriminate].
        now destruct (allInvoicesData_Ok _ _ _ Ea).
      * intros [_ H]. destruct (allInvoicesData_all_ok _ _ H) as [all ->]. simpl. eauto.
    + split; [intros [blob H]; discriminate | intros [E _]; contradiction].
  - intros N. apply Z.eqb_neq in N. now rewrite N.
  - intros before failed after E -> N H. rewrite E. simpl.
    induction before as [| i before IH]; simpl.
    + unfold MongoAtlas.invoiceCsv. apply Z.eqb_neq in N. now rewrite N.
    + unfold MongoAtlas.invoiceCsv at 1.
      destruct (Z.eqb_spec (MongoAtlas.status (requestCsv i)) 200) as [Ei | Ni]; simpl.
      * destruct (MongoAtlas.allInvoicesData requestCsv (before ++ failed :: after))
          as [xs | e] eqn:Ea; simpl.
        -- exfalso. simpl in IH.
           assert (Hb : forall invoiceId, In invoiceId (before ++ after) ->
                        invoiceId <> failed ->
                        MongoAtlas.status (requestCsv invoiceId) = 200).
           { intros j Hj. apply H. now right. }
           specialize (IH Hb). discriminate.
        -- simpl in IH. apply IH. intros j Hj. apply H. now right.
      * destruct (String.eqb_spec i failed) as [-> | Nf]; [reflexivity |].
        exfalso. apply Ni, H; [now left | exact Nf].
Qed.

Lemma fetch_needs_every_download_witness :
  MongoAtlas.fetchCostsFromCloud TwoInvoices.failing TwoInvoices.invoices
  = Throw (Error "Error fetching invoice CSV: 503 Service Unavailable").
Proof.
  refine (proj2 (proj2 (fetch_needs_every_download TwoInvoices.failing TwoInvoices.invoices))
            ["inv-0"] "inv-1" [] eq_refl eq_refl _ _).
  - discriminate.
  - intros invoiceId [<- | []] _. reflexivity.
Defined.

Lemma blank_header_undated (line : string) : dated [EmptyString] line = false.
Proof. reflexivity. Qed.

(** X9. When nothing is kept of the first download, the first line of the
    response is empty, no column is named Date, and the transform returns no
    report at all, whatever the other downloads hold. *)
Theorem blank_first_download_empties_output :
  forall (moment : jsval -> option Z) (getCat : jsval -> dict string -> string)
         (providerName : string) (cfg : Config) (query : CostQuery) (mappings : dict string)
         (requestCsv : string -> MongoAtlas.CsvResponse)
         (response : MongoAtlas.InvoicesResponse) (first : string) (others : list string)
         (blob : string) (tkv : dict string),
    MongoAtlas.results response = first :: others ->
    MongoAtlas.filterLines false (Str.split Str.LF (MongoAtlas.data (requestCsv first))) = [] ->
    MongoAtlas.fetchCostsFromCloud requestCsv response = Ok blob ->
    tagKeyValues cfg = Ok tkv ->
    MongoAtlas.transformCostsData moment getCat providerName cfg query mappings blob = Ok [].
Proof.
  intros moment getCat providerName cfg query mappings requestCsv response first others blob
    tkv Hr Hf Hb Ht.
  pose proof (fetch_lines _ _ _ Hb) as Hl. rewrite Hr in Hl. cbn [flat_map] in Hl.
  unfold invoiceLines at 1 in Hl. rewrite Hf in Hl. simpl in Hl.
  unfold MongoAtlas.transformCostsData, MongoAtlas.transformedData.
  rewrite Ht, Hl. simpl. rewrite foldM_onLine_dated.
  replace (List.filter (dated [EmptyString]) _) with (@nil string); [reflexivity |].
  symmetry. clear.
  induction (flat_map _ others) as [| x l IH]; [reflexivity |].
  cbn [List.filter]. rewrite blank_header_undated. exact IH.
Qed.

Lemma blank_first_download_empties_output_witness :
  exists blob,
    MongoAtlas.fetchCostsFromCloud TwoInvoices.requestCsv TwoInvoices.invoices = Ok blob
    /\ MongoAtlas.transformCostsData (Env.moment April.now) Env.getCategoryByServiceName
         "MongoAtlas" April.prod April.query Dict.empty blob = Ok [].
Proof.
  eexists. split; [reflexivity |].
  exact (blank_first_download_empties_output (Env.moment April.now)
           Env.getCategoryByServiceName "MongoAtlas" April.prod April.query Dict.empty
           TwoInvoices.requestCsv TwoInvoices.invoices "inv-0" ["inv-1"] _
           [("env", "production")] eq_refl eq_refl eq_refl eq_refl).
Defined.

(** ** Reading the static tags *)

Lemma foldM_app {A B : Type} (f : A -> B -> result A) (l1 l2 : list B) (acc : A) :
  foldM f (l1 ++ l2) acc = (acc' <- foldM f l1 acc ;; foldM f l2 acc').
Proof.
  revert acc. induction l1 as [| x l1 IH]; intros acc; simpl; [reflexivity |].
  destruct (f acc x); simpl; [apply IH | reflexivity].
Qed.

Lemma tagKeyValues_colons (l : list string) :
  forall tkv tkv', foldM addTag l tkv = Ok tkv' ->
  forallb (fun tag => Str.includes tag ":") l = true.
Proof.
  induction l as [| x l IH]; intros tkv tkv'; simpl; [reflexivity |].
  destruct (Str.includes x ":") eqn:E.
  - destruct (addTag tkv x) as [t |]; simpl; [apply IH | discriminate].
  - rewrite (addTag_without_colon tkv x E). discriminate.
Qed.

(** X10. The tags of an account are read exactly when each of them has a
    colon. A tag [k:v] or [k:v:rest] sets the key [k], trimmed, to [v],
    trimmed: what follows a second colon is dropped without notice. *)
Theorem tag_value_ends_at_second_colon :
  forall (cfg : Config),
    ((exists tkv, tagKeyValues cfg = Ok tkv)
     <-> match tags cfg with
         | Some l => forallb (fun tag => Str.includes tag ":") l = true
         | None => True
         end)
    /\ (forall (l : list string) (k v rest : string) (tkv : dict string),
          tags cfg = Some (l ++ [(k ++ ":" ++ v ++ rest)%string])%list ->
          Str.includes k ":" = false -> Str.includes v ":" = false ->
          rest = "" \/ Str.startsWith rest ":" = true ->
          foldM addTag l Dict.empty = Ok tkv ->
          tagKeyValues cfg = Ok (Dict.assign (Str.trim k) (Str.trim v) tkv)).
Proof.
  intros cfg. split.
  - split; [| apply tagKeyValues_total].
    intros [tkv H]. unfold tagKeyValues in H. destruct (tags cfg) as [l |]; [| exact I].
    exact (tagKeyValues_colons _ _ _ H).
  - intros l k v rest tkv Ht Hk Hv Hr Hl. unfold tagKeyValues. rewrite Ht, foldM_app, Hl.
    simpl. unfold addTag.
    change (k ++ ":" ++ v ++ rest)%string with (k ++ String ":" (v ++ rest))%string.
    rewrite split_app_sep, (split_without _ _ Hk). simpl.
    destruct Hr as [-> | Hr].
    + replace (v ++ "")%string with v by (clear; induction v; simpl; congruence).
      now rewrite (split_without _ _ Hv).
    + destruct rest as [| c rest]; [discriminate |].
      apply prefix_cons in Hr as [<- _].
      rewrite split_app_sep, (split_without _ _ Hv). reflexivity.
Qed.

Lemma tag_value_ends_at_second_colon_witness :
  tagKeyValues {| name := "prod"; tags := Some ["env:production"; "docs: https://wiki/costs"] |}
  = Ok [("env", "production"); ("docs", "https")].
Proof.
  exact (proj2 (tag_value_ends_at_second_colon
                  {| name := "prod";
                     tags := Some ["env:production"; "docs: https://wiki/costs"] |})
           ["env:production"] "docs" " https" "://wiki/costs" [("env", "production")]
           eq_refl eq_refl eq_refl (or_intror eq_refl) eq_refl).
Defined.

(** ** Every run of the retry loop *)

Section RetryRuns.

Variable J : Type.
Variable JSON_parse : string -> result J.
Variable sendRequest : nat -> Azure.Response.

Lemma retryLoop_shape (remaining : nat) :
  forall (sent : nat) (slept : list number),
  exists n,
    (n <= remaining)%nat
    /\ (forall i, (i < n)%nat -> Azure.status (sendRequest (sent + i)) = 429)
    /\ ((n = remaining
         /\ Azure.retryLoop J JSON_parse sendRequest remaining sent slept
            = {| Azure.outcome := Throw (Error "Max retries exceeded");
                 Azure.sleeps := (slept ++ backoffs sendRequest sent n)%list;
                 Azure.requests := (sent + n)%nat |})
        \/ ((n < remaining)%nat
            /\ Azure.status (sendRequest (sent + n)) <> 429
            /\ Azure.retryLoop J JSON_parse sendRequest remaining sent slept
               = {| Azure.outcome := settle J JSON_parse (sendRequest (sent + n));
                    Azure.sleeps := (slept ++ backoffs sendRequest sent n)%list;
                    Azure.requests := S (sent + n) |})).
Proof.
  induction remaining as [| r IH]; intros sent slept.
  - exists 0%nat. split; [lia |]. split; [intros i Hi; lia |]. left. split; [reflexivity |].
    unfold backoffs. simpl. now rewrite app_nil_r, Nat.add_0_r.
  - destruct (Z.eqb_spec (Azure.status (sendRequest sent)) 429) as [E | N].
    + destruct (IH (S sent) (slept ++ [Azure.backoff (sendRequest sent)])%list)
        as (n & Hn & H429 & Hrun).
      exists (S n). split; [lia |]. split.
      { intros [| i] Hi; [now rewrite Nat.add_0_r |].
        replace (sent + S i)%nat with (S sent + i)%nat by lia. apply H429. lia. }
      assert (Es : Azure.retryLoop J JSON_parse sendRequest (S r) sent slept
                   = Azure.retryLoop J JSON_parse sendRequest r (S sent)
                       (slept ++ [Azure.backoff (sendRequest sent)])%list).
      { simpl. rewrite E. reflexivity. }
      assert (Eb : ((slept ++ [Azure.backoff (sendRequest sent)])
                    ++ backoffs sendRequest (S sent) n
                    = slept ++ backoffs sendRequest sent (S n))%list).
      { unfold backoffs. simpl. now rewrite <- app_assoc. }
      replace (sent + S n)%nat with (S sent + n)%nat by lia.
      rewrite Es, <- Eb.
      destruct Hrun as [[-> Hrun] | (Hlt & Hs & Hrun)].
      * left. now split.
      * right. split; [lia |]. now split.
    + exists 0%nat. split; [lia |]. split; [intros i Hi; lia |]. right.
      rewrite Nat.add_0_r. split; [lia |]. split; [exact N |].
      unfold backoffs. simpl. rewrite app_nil_r. unfold settle.
      destruct (Azure.status (sendRequest sent) =? 200); [reflexivity |].
      apply Z.eqb_neq in N. now rewrite N.
Qed.

End RetryRuns.

(** X11. Every call of the retry loop, whatever the cap and the server.
    There is a number [n] of leading responses 429, at most the cap, after
    which the cap is reached or a response of another status comes. For
    that number the call sleeps, after each of the [n] responses, 1000 times
    the number at the head of its retry-after header (60 seconds when the
    header is absent or empty). If the cap is reached it then throws "Max
    retries exceeded", having sent [n] requests; otherwise it sends one
    more request and returns the parsed text of the body (of "{}" when there
    is none) for a 200, and throws an error whose message is the body for
    any other status. A cap of 0 sends nothing. *)
Theorem every_retry_run :
  forall (J : Type) (JSON_parse : string -> result J) (sendRequest : nat -> Azure.Response)
         (maxRetries : nat),
    let run := Azure.fetchDataWithRetry J JSON_parse sendRequest maxRetries in
    let leading := fun n =>
      (n <= maxRetries)%nat
      /\ (forall i, (i < n)%nat -> Azure.status (sendRequest i) = 429)
      /\ ((n < maxRetries)%nat -> Azure.status (sendRequest n) <> 429) in
    let delay := fun r =>
      PrimFloat.mul
        (Conv.parseInt
           match Azure.retryAfterHeader r with
           | Some h => if String.eqb h "" then "60" else h
           | None => "60"
           end)
        (Num.of_Z 1000) in
    let text := fun r =>
      match Azure.bodyAsText r with
      | JStr s => if String.eqb s "" then "{}" else s
      | JNum x => if Num.truthy x then Conv.Number_toString x else "{}"
      | JUndefined | JNull => "{}"
      end in
    let message := fun r =>
      match Azure.bodyAsText r with
      | JStr s => s
      | JNum x => Conv.Number_toString x
      | JNull => "null"
      | JUndefined => ""
      end in
    (exists n, leading n)
    /\ (forall n, leading n ->
          run = {| Azure.outcome :=
                     if Nat.ltb n maxRetries then
                       if Azure.status (sendRequest n) =? 200
                       then JSON_parse (text (sendRequest n))
                       else Throw (Error (message (sendRequest n)))
                     else Throw (Error "Max retries exceeded");
                   Azure.sleeps := map (fun i => delay (sendRequest i)) (seq 0 n);
                   Azure.requests := if Nat.ltb n maxRetries then S n else n |}).
Proof.
  intros J JSON_parse sendRequest maxRetries run leading delay text message. split.
  - destruct (retryLoop_shape J JSON_parse sendRequest maxRetries 0 [])
      as (n & Hn & H429 & H).
    exists n. split; [exact Hn |]. split; [exact H429 |].
    destruct H as [[-> _] | (_ & Hs & _)]; [lia | intros _; exact Hs].
  - intros n (Hn & H429 & Hlast).
    assert (Hrun : run = Azure.retryLoop J JSON_parse sendRequest (maxRetries - n) n
                           (map (fun i => delay (sendRequest i)) (seq 0 n))).
    { subst run delay. unfold Azure.fetchDataWithRetry.
      replace maxRetries with (n + (maxRetries - n))%nat at 1 by lia.
      rewrite retryLoop_rate_limited by exact H429. now rewrite backoffs_header. }
    rewrite Hrun. destruct (Nat.ltb_spec n maxRetries) as [Hlt | Hge].
    + destruct (maxRetries - n)%nat as [| r] eqn:Er; [lia |].
      specialize (Hlast Hlt). apply Z.eqb_neq in Hlast. simpl.
      destruct (Azure.status (sendRequest n) =? 200) eqn:E200.
      * do 2 f_equal. subst text. unfold Azure.orText.
        now destruct (Azure.bodyAsText (sendRequest n)).
      * rewrite Hlast. do 3 f_equal. subst message. unfold Azure.errorMessage.
        now destruct (Azure.bodyAsText (sendRequest n)).
    + replace (maxRetries - n)%nat with 0%nat by lia. reflexivity.
Qed.

Lemma every_retry_run_witness :
  Azure.fetchDataWithRetry string (@Ok string) refusedAfterOne 2
  = {| Azure.outcome := Throw (Error "Forbidden");
       Azure.sleeps := [Num.of_Z 3000];
       Azure.requests := 2 |}
  /\ Azure.fetchDataWithRetry string (@Ok string) rateLimitedThrice 3
     = {| Azure.outcome := Throw (Error "Max retries exceeded");
          Azure.sleeps := [Num.of_Z 7000; Num.of_Z 60000; Num.of_Z 2000];
          Azure.requests := 3 |}
  /\ Azure.fetchDataWithRetry string (@Ok string) rateLimitedThrice 9
     = {| Azure.outcome := Ok "[10,5]";
          Azure.sleeps := [Num.of_Z 7000; Num.of_Z 60000; Num.of_Z 2000];
          Azure.requests := 4 |}.
Proof.
  split; [| split].
  - refine (proj2 (every_retry_run string (@Ok string) refusedAfterOne 2) 1%nat _).
    split; [lia |]. split; [| discriminate].
    intros i Hi. destruct i as [| i]; [reflexivity | lia].
  - refine (proj2 (every_retry_run string (@Ok string) rateLimitedThrice 3) 3%nat _).
    split; [lia |]. split; [| lia].
    intros i Hi. do 3 (destruct i as [| i]; [reflexivity |]). lia.
  - refine (proj2 (every_retry_run string (@Ok string) rateLimitedThrice 9) 3%nat _).
    split; [lia |]. split; [| discriminate].
    intros i Hi. do 3 (destruct i as [| i]; [reflexivity |]). lia.
Defined.

(** ** The dates of the daily rows of Azure *)

Lemma eight_characters (s : string) :
  String.length s = 8%nat ->
  s = (Str.slice 0 4 s ++ Str.slice 4 6 s ++ Str.slice_from 6 s)%string
  /\ String.length (Str.slice 0 4 s) = 4%nat
  /\ String.length (Str.slice 4 6 s) = 2%nat
  /\ String.length (Str.slice_from 6 s) = 2%nat.
Proof.
  destruct s as [| c1 [| c2 [| c3 [| c4 [| c5 [| c6 [| c7 [| c8 [| c9 s]]]]]]]]];
    try discriminate.
  intros _. repeat split.
Qed.

(** X12. [formatDate] looks at the length of the text of its argument and
    at nothing else: a text of 8 characters, digits or not, comes back with
    a dash after the fourth and after the sixth character, and any other
    length gives [null]. *)
Theorem formatDate_inserts_two_dashes :
  forall (dateNumber : jsval),
    dateNumber <> JUndefined -> dateNumber <> JNull ->
    (String.length (ToString dateNumber) <> 8%nat -> Azure.formatDate dateNumber = Ok None)
    /\ (String.length (ToString dateNumber) = 8%nat ->
        exists year month day,
          ToString dateNumber = (year ++ month ++ day)%string
          /\ String.length year = 4%nat /\ String.length month = 2%nat
          /\ String.length day = 2%nat
          /\ Azure.formatDate dateNumber = Ok (Some (year ++ "-" ++ month ++ "-" ++ day))).
Proof.
  intros d Hu Hn.
  assert (E : Azure.formatDate d
              = let dateString := ToString d in
                if negb (Nat.eqb (String.length dateString) 8) then Ok None
                else Ok (Some (Str.slice 0 4 dateString ++ "-" ++ Str.slice 4 6 dateString
                               ++ "-" ++ Str.slice_from 6 dateString))).
  { destruct d; [contradiction | contradiction | reflexivity | reflexivity]. }
  rewrite E. cbv zeta. split; intros H.
  - apply Nat.eqb_neq in H. now rewrite H.
  - destruct (eight_characters _ H) as (Es & Hy & Hm & Hd).
    rewrite H. simpl negb. cbv iota.
    exists (Str.slice 0 4 (ToString d)), (Str.slice 4 6 (ToString d)),
      (Str.slice_from 6 (ToString d)).
    repeat split; assumption.
Qed.

Lemma formatDate_inserts_two_dashes_witness :
  (exists year month day,
     ToString (JNum (Conv.parseFloat "1.234567")) = (year ++ month ++ day)%string
     /\ String.length year = 4%nat /\ String.length month = 2%nat
     /\ String.length day = 2%nat
     /\ Azure.formatDate (JNum (Conv.parseFloat "1.234567"))
        = Ok (Some (year ++ "-" ++ month ++ "-" ++ day)))
  /\ Azure.formatDate (JStr "2024-04-07") = Ok None.
Proof.
  split.
  - apply (formatDate_inserts_two_dashes (JNum (Conv.parseFloat "1.234567")));
      [discriminate | discriminate | vm_compute; reflexivity].
  - apply (formatDate_inserts_two_dashes (JStr "2024-04-07")); discriminate.
Defined.

(** ** Sorting by text *)

Section SortFacts.

Variable A : Type.
Variable text : A -> string.

Lemma insert_Permutation (x : A) (l : list A) : Permutation (Arr.insert A text x l) (x :: l).
Proof.
  induction l as [| y l IH]; simpl; [reflexivity |].
  destruct (String.leb (text x) (text y)); [reflexivity |].
  rewrite IH. apply perm_swap.
Qed.

Lemma sort_Permutation (l : list A) : Permutation (Arr.sort A text l) l.
Proof.
  induction l as [| x l IH]; simpl; [reflexivity |].
  rewrite insert_Permutation. now constructor.
Qed.

Lemma insert_Sorted (x : A) (l : list A) :
  Sorted (byText text) l -> Sorted (byText text) (Arr.insert A text x l).
Proof.
  induction 1 as [| y l Hl IH Hy]; simpl; [repeat constructor |].
  destruct (String.leb (text x) (text y)) eqn:E.
  - constructor; [now constructor |]. now constructor.
  - constructor; [exact IH |].
    destruct l as [| z l]; simpl.
    + constructor. unfold byText.
      destruct (String.leb_total (text x) (text y)) as [H | H]; congruence.
    + destruct (String.leb (text x) (text z)).
      * constructor. unfold byText.
        destruct (String.leb_total (text x) (text y)) as [H | H]; congruence.
      * constructor. now inversion Hy.
Qed.

Lemma sort_Sorted (l : list A) : Sorted (byText text) (Arr.sort A text l).
Proof.
  induction l as [| x l IH]; simpl; [constructor | now apply insert_Sorted].
Qed.

Lemma sort_Forall (P : A -> Prop) (l : list A) : Forall P l -> Forall P (Arr.sort A text l).
Proof.
  intros H. eapply Permutation_Forall; [symmetry; apply sort_Permutation | exact H].
Qed.

End SortFacts.

(** ** The tags of the AWS client *)

Section AwsTags.

Variable day : string -> string.
Variable sendGetTags : GetTagsCommandInput.t -> nat -> result GetTagsCommandOutput.t.
Variable query : TagsQuery.t.
Variable tagKey : option string.

Lemma tagsLoop_again (response : GetTagsCommandOutput.t) (tags : list string) :
  (forall sent, sendGetTags (AwsFetch.tagsInput day query tagKey) sent = Ok response) ->
  GetTagsCommandOutput.Tags response = Some tags ->
  given (GetTagsCommandOutput.NextPageToken response) = true ->
  forall fuel sent results,
    AwsFetch.tagsLoop day sendGetTags fuel sent query tagKey results = None.
Proof.
  intros Hs Ht Hg. induction fuel as [| fuel IH]; intros sent results; [reflexivity |].
  simpl. rewrite Hs, Ht, Hg. apply IH.
Qed.

Lemma tagsLoop_results (fuel : nat) :
  forall sent results out,
    AwsFetch.tagsLoop day sendGetTags fuel sent query tagKey results = Some (Ok out) ->
    exists k,
      (1 <= k <= fuel)%nat
      /\ out = Arr.sort string (fun tag => tag)
                 (results
                  ++ List.filter nonEmpty
                       (flat_map
                          (fun sent =>
                             match sendGetTags (AwsFetch.tagsInput day query tagKey) sent with
                             | Ok response =>
                                 match GetTagsCommandOutput.Tags response with
                                 | Some tags => tags
                                 | None => []
                                 end
                             | Throw _ => []
                             end)
                          (seq sent k)))%list.
Proof.
  induction fuel as [| fuel IH]; intros sent results out; [discriminate |].
  simpl.
  destruct (sendGetTags (AwsFetch.tagsInput day query tagKey) sent) as [response | e] eqn:Es;
    [| discriminate].
  destruct (GetTagsCommandOutput.Tags response) as [tags |] eqn:Et; [| discriminate].
  destruct (given (GetTagsCommandOutput.NextPageToken response)).
  - intros H. destruct (IH _ _ _ H) as (k & Hk & ->). exists (S k). split; [lia |].
    cbn [seq flat_map]. rewrite Es, Et, filter_app. unfold AwsFetch.pushTags.
    now rewrite <- app_assoc.
  - intros [= <-]. exists 1%nat. split; [lia |].
    cbn [seq flat_map]. rewrite Es, Et, app_nil_r. reflexivity.
Qed.

End AwsTags.

(** X13. The command of [_fetchTags] carries no page token, so every
    command of a call is the same. With a service that answers equal
    commands equally, a call whose first response names a next page receives
    that page again and again and never returns; a call whose first
    response names none returns the non-empty tags of that page, sorted. *)
Theorem aws_tags_never_reach_page_two :
  forall (day : string -> string)
         (sendGetTags : GetTagsCommandInput.t -> nat -> result GetTagsCommandOutput.t)
         (query : TagsQuery.t) (tagKey : option string)
         (response : GetTagsCommandOutput.t) (tags : list string),
    (forall sent, sendGetTags (AwsFetch.tagsInput day query tagKey) sent = Ok response) ->
    GetTagsCommandOutput.Tags response = Some tags ->
    (given (GetTagsCommandOutput.NextPageToken response) = true ->
     forall fuel, AwsFetch._fetchTags day sendGetTags fuel query tagKey = None)
    /\ (given (GetTagsCommandOutput.NextPageToken response) = false ->
        forall fuel,
          AwsFetch._fetchTags day sendGetTags (S fuel) query tagKey
          = Some (Ok (Arr.sort string (fun tag => tag) (List.filter nonEmpty tags)))).
Proof.
  intros day sendGetTags query tagKey response tags Hs Ht. split; intros Hg fuel.
  - unfold AwsFetch._fetchTags. now apply (tagsLoop_again _ _ _ _ response tags).
  - unfold AwsFetch._fetchTags. simpl. rewrite Hs, Ht, Hg. reflexivity.
Qed.

Lemma aws_tags_never_reach_page_two_witness :
  AwsFetch._fetchTags Paged.day Paged.sendGetTags 1000 Paged.tagsQuery None = None.
Proof.
  exact (proj1 (aws_tags_never_reach_page_two Paged.day Paged.sendGetTags Paged.tagsQuery
                  None Paged.tagsPage1 ["team"; ""; "env"] (fun _ => eq_refl) eq_refl)
           eq_refl 1000%nat).
Defined.

(** X14. The tags a call of [_fetchTags] returns are sorted by their text,
    none of them is empty, and they are the non-empty tags of the responses
    the call received, each as often as it was received. *)
Theorem aws_fetched_tags :
  forall (day : string -> string)
         (sendGetTags : GetTagsCommandInput.t -> nat -> result GetTagsCommandOutput.t)
         (fuel : nat) (query : TagsQuery.t) (tagKey : option string) (results : list string),
    AwsFetch._fetchTags day sendGetTags fuel query tagKey = Some (Ok results) ->
    Sorted (byText (fun tag => tag)) results
    /\ Forall (fun tag => tag <> "") results
    /\ exists k,
         (1 <= k <= fuel)%nat
         /\ Permutation results
              (List.filter nonEmpty (AwsPages.tagsOf day sendGetTags query tagKey k)).
Proof.
  intros day sendGetTags fuel query tagKey results H.
  destruct (tagsLoop_results _ _ _ _ _ _ _ _ H) as (k & Hk & ->). simpl.
  split; [apply sort_Sorted |]. split.
  - apply sort_Forall. apply Forall_forall. intros tag Hin.
    apply filter_In in Hin as [_ Hne]. unfold nonEmpty in Hne.
    intros ->. discriminate.
  - exists k. split; [exact Hk |]. apply sort_Permutation.
Qed.

Lemma aws_fetched_tags_witness :
  Sorted (byText (fun tag => tag)) ["cost-center"; "env"; "owner"; "team"]
  /\ Forall (fun tag => tag <> "") ["cost-center"; "env"; "owner"; "team"]
  /\ exists k,
       (1 <= k <= 5)%nat
       /\ Permutation ["cost-center"; "env"; "owner"; "team"]
            (List.filter nonEmpty
               (AwsPages.tagsOf Paged.day Paged.sendGetTagsTwice Paged.tagsQuery None k)).
Proof.
  exact (aws_fetched_tags Paged.day Paged.sendGetTagsTwice 5 Paged.tagsQuery None
           ["cost-center"; "env"; "owner"; "team"] eq_refl).
Defined.

(** ** The pages of the AWS costs *)

Section AwsCosts.

Variable day : string -> string.
Variable sendGetCostAndUsage :
  GetCostAndUsageCommandInput.t -> nat -> result GetCostAndUsageCommandOutput.t.
Variable query : CostQuery.
Variable tags : list Aws.Tag.

(** Pages that each name a next one take the loop as many turns further. *)
Lemma costsLoop_pages (pages : list GetCostAndUsageCommandOutput.t) :
  forall fuel sent token results,
    AwsPages.answers day sendGetCostAndUsage query tags sent token pages ->
    AwsPages.unfinished pages = true ->
    AwsFetch.costsLoop day sendGetCostAndUsage (List.length pages + fuel) sent query tags
      token results
    = AwsFetch.costsLoop day sendGetCostAndUsage fuel (sent + List.length pages) query tags
        (AwsPages.tokenAfter token pages)
        (results ++ flat_map GetCostAndUsageCommandOutput.ResultsByTime pages)%list.
Proof.
  induction pages as [| page pages IH]; intros fuel sent token results Ha Hu.
  - simpl. now rewrite Nat.add_0_r, app_nil_r.
  - destruct Ha as [Hs Ha]. unfold AwsPages.unfinished in Hu. simpl in Hu.
    apply andb_true_iff in Hu as [Hg Hu].
    cbn [List.length Nat.add AwsFetch.costsLoop]. rewrite Hs. cbv zeta. rewrite Hg.
    rewrite (IH _ _ _ _ Ha Hu). cbn [flat_map]. unfold AwsPages.tokenAfter. simpl.
    rewrite <- app_assoc. f_equal. lia.
Qed.

End AwsCosts.

(** X15. [fetchCosts] follows the page tokens: when the service answers the
    first command, sent without a token, and then each command that carries
    the token of the response before it, the call returns the rows of all
    the pages up to the first one that names no next page, in order. When a
    command is rejected instead, the call is rejected and the rows of the
    pages before are lost. *)
Theorem aws_costs_follow_the_tokens :
  forall (day : string -> string)
         (sendGetCostAndUsage :
            GetCostAndUsageCommandInput.t -> nat -> result GetCostAndUsageCommandOutput.t)
         (query : CostQuery) (tags : list Aws.Tag)
         (pages : list GetCostAndUsageCommandOutput.t) (fuel : nat),
    AwsPages.answers day sendGetCostAndUsage query tags 0 None pages ->
    AwsPages.unfinished pages = true ->
    (List.length pages < fuel)%nat ->
    let next :=
      sendGetCostAndUsage
        (AwsFetch.costsInput day query tags (AwsPages.tokenAfter None pages))
        (List.length pages) in
    (forall last,
       next = Ok last -> given (GetCostAndUsageCommandOutput.NextPageToken last) = false ->
       AwsFetch.fetchCosts day sendGetCostAndUsage fuel query tags
       = Some (Ok (flat_map GetCostAndUsageCommandOutput.ResultsByTime (pages ++ [last]))))
    /\ (forall e,
          next = Throw e ->
          AwsFetch.fetchCosts day sendGetCostAndUsage fuel query tags = Some (Throw e)).
Proof.
  intros day sendGetCostAndUsage query tags pages fuel Ha Hu Hf next.
  assert (E : AwsFetch.fetchCosts day sendGetCostAndUsage fuel query tags
              = AwsFetch.costsLoop day sendGetCostAndUsage (fuel - List.length pages)
                  (List.length pages) query tags (AwsPages.tokenAfter None pages)
                  (flat_map GetCostAndUsageCommandOutput.ResultsByTime pages)).
  { unfold AwsFetch.fetchCosts.
    replace fuel with (List.length pages + (fuel - List.length pages))%nat at 1 by lia.
    now rewrite (costsLoop_pages _ _ _ _ _ _ _ _ _ Ha Hu). }
  rewrite E. destruct (fuel - List.length pages)%nat as [| rest] eqn:Er; [lia |].
  split.
  - intros last Hn Hg. simpl. fold next. rewrite Hn. cbv zeta. rewrite Hg.
    rewrite flat_map_app. simpl. now rewrite app_nil_r.
  - intros e Hn. simpl. fold next. now rewrite Hn.
Qed.

Lemma aws_costs_follow_the_tokens_witness :
  AwsFetch.fetchCosts Paged.day Paged.sendGetCostAndUsage 5 April.query []
  = Some (Ok [April.awsRow "2024-04-05" "10"; April.awsRow "2024-04-28" "5"]).
Proof.
  refine (proj1 (aws_costs_follow_the_tokens Paged.day Paged.sendGetCostAndUsage April.query
                   [] [Paged.page1] 5 _ eq_refl _) Paged.page2 eq_refl eq_refl).
  - split; [reflexivity | exact I].
  - simpl. lia.
Defined.

(** ** The pages of the Azure client *)

Section AzurePagesFacts.

Variable J : Type.
Variable JSON_parse : string -> result J.
Variable properties : J -> option AzureFetch.Properties.
Variable sendRequest : string -> QueryDefinition.t -> nat -> Azure.Response.
Variable body : QueryDefinition.t.

Lemma served_at_once (sent : nat) (url : string) (page : AzureFetch.Properties) :
  AzurePages.serves J JSON_parse properties sendRequest body sent url page ->
  Azure.sleeps (AzureFetch.fetchDataWithRetry J JSON_parse sendRequest url body sent) = []
  /\ Azure.requests (AzureFetch.fetchDataWithRetry J JSON_parse sendRequest url body sent)
     = 1%nat
  /\ AzureFetch.readPage J properties
       (AzureFetch.fetchDataWithRetry J JSON_parse sendRequest url body sent) = Ok page.
Proof.
  intros (result & Hs & Hp & Hr).
  unfold AzureFetch.fetchDataWithRetry, Azure.fetchDataWithRetry, AzureFetch.readPage.
  simpl. rewrite Nat.add_0_r, Hs. simpl. rewrite Hp. simpl. now rewrite Hr.
Qed.

Lemma nextPages_served (pages : list AzureFetch.Properties) :
  forall result fuel sent slept allResults,
    AzurePages.linked (result :: pages) = true ->
    match AzureFetch.nextLink result with
    | Some link => AzurePages.served J JSON_parse properties sendRequest body sent link pages
    | None => pages = []
    end ->
    (List.length pages < fuel)%nat ->
    AzureFetch.nextPages J JSON_parse properties sendRequest fuel body result allResults
      slept sent
    = Some {| Azure.outcome := Ok (allResults ++ flat_map AzureFetch.rows pages)%list;
              Azure.sleeps := slept;
              Azure.requests := (sent + List.length pages)%nat |}.
Proof.
  induction pages as [| page pages IH]; intros result fuel sent slept allResults Hl Hs Hf;
    (destruct fuel as [| fuel]; [simpl in Hf; lia |]).
  - simpl in Hl. apply negb_true_iff in Hl. cbn [AzureFetch.nextPages].
    rewrite app_nil_r, Nat.add_0_r.
    destruct (AzureFetch.nextLink result) as [link |]; [| reflexivity]. now rewrite Hl.
  - cbn [AzurePages.linked] in Hl. apply andb_true_iff in Hl as [Hg Hl].
    destruct (AzureFetch.nextLink result) as [link |] eqn:El; [| discriminate].
    destruct Hs as [Hp Hs].
    destruct (served_at_once _ _ _ Hp) as (E1 & E2 & E3).
    cbn [AzureFetch.nextPages]. rewrite El, Hg. cbv zeta. rewrite E1, E2, E3.
    replace (sent + 1)%nat with (S sent) by lia. rewrite app_nil_r.
    rewrite (IH page fuel _ _ _ Hl Hs ltac:(simpl in Hf; lia)).
    cbn [flat_map List.length]. rewrite <- app_assoc.
    do 2 f_equal. lia.
Qed.



End AzurePagesFacts.

(** X16. [fetchCosts] of the Azure client follows the links: when the
    query URL of the subscription and then each [nextLink] are answered at
    once with a page, the fetch returns the rows of the pages up to the
    first one without a link, in order, having sent one request a page and
    slept never. *)
Theorem azure_costs_follow_the_links :
  forall (moment : jsval -> option Z) (J : Type) (JSON_parse : string -> result J)
         (properties : J -> option AzureFetch.Properties)
         (sendRequest : string -> QueryDefinition.t -> nat -> Azure.Response)
         (subscriptionId : string) (query : CostQuery) (tags : list Aws.Tag)
         (pages : list AzureFetch.Properties) (fuel : nat),
    AzurePages.served J JSON_parse properties sendRequest
      (AzureFetch.costsQuery moment query tags) 0
      (AzureFetch.queryUrl subscriptionId "2023-11-01") pages ->
    AzurePages.linked pages = true ->
    (List.length pages <= fuel)%nat ->
    AzureFetch.fetchCosts moment J JSON_parse properties sendRequest fuel subscriptionId
      query tags
    = Some {| Azure.outcome := Ok (flat_map AzureFetch.rows pages);
              Azure.sleeps := [];
              Azure.requests := List.length pages |}.
Proof.
  intros moment J JSON_parse properties sendRequest subscriptionId query tags pages fuel
    Hs Hl Hf.
  destruct pages as [| page pages]; [discriminate |].
  destruct Hs as [Hp Hs]. destruct (served_at_once _ _ _ _ _ _ _ _ Hp) as (E1 & E2 & E3).
  unfold AzureFetch.fetchCosts, AzureFetch.allPages. cbv zeta. rewrite E1, E2, E3.
  apply nextPages_served; [exact Hl | exact Hs | simpl in Hf; lia].
Qed.

Lemma azure_costs_follow_the_links_witness :
  AzureFetch.fetchCosts (Env.moment April.now) AzureFetch.Properties PagedAzure.JSON_parse
    PagedAzure.properties PagedAzure.sendRequest 2 "sub-1" April.query []
  = Some {| Azure.outcome := Ok April.azureRows; Azure.sleeps := []; Azure.requests := 2 |}.
Proof.
  refine (azure_costs_follow_the_links (Env.moment April.now) AzureFetch.Properties
            PagedAzure.JSON_parse PagedAzure.properties PagedAzure.sendRequest "sub-1"
            April.query [] [PagedAzure.page1; PagedAzure.page2] 2 _ eq_refl _).
  - split; [eexists; repeat split |]. simpl. split; [eexists; repeat split | reflexivity].
  - simpl. lia.
Defined.



(** ** The tags of the Azure client *)

Lemma pushTag_pushed (tagKey : string) (allResults rows : list (list jsval)) :
  forall tags tags',
    incl rows allResults ->
    foldM (AzureFetch.pushTag tagKey) rows tags = Ok tags' ->
    Forall (pushed tagKey allResults) tags -> Forall (pushed tagKey allResults) tags'.
Proof.
  induction rows as [| row rows IH]; intros tags tags' Hi; simpl.
  - now intros [= <-].
  - assert (Hrow : In row allResults) by (apply Hi; now left).
    assert (Hrows : incl rows allResults) by (intros r Hr; apply Hi; now right).
    unfold AzureFetch.pushTag at 1.
    destruct (String.eqb_spec tagKey "") as [E | N].
    + destruct (index row 0) as [| | n | s] eqn:E0; simpl.
      * apply (IH _ _ Hrows).
      * apply (IH _ _ Hrows).
      * destruct (Num.truthy n); simpl; [discriminate | apply (IH _ _ Hrows)].
      * destruct (String.eqb s "") eqn:Es; simpl; [apply (IH _ _ Hrows) |].
        destruct (Str.startsWith s "hidden-") eqn:Eh; simpl; [apply (IH _ _ Hrows) |].
        intros H Ht. apply (IH _ _ Hrows H). apply Forall_app. split; [exact Ht |].
        constructor; [| constructor]. unfold pushed. split; [simpl; now rewrite Es |].
        split.
        -- exists row. split; [exact Hrow |].
           destruct (String.eqb_spec tagKey ""); [now rewrite E0 | contradiction].
        -- intros _. now exists s.
    + destruct (ToBoolean (index row 1)) eqn:Eb; simpl; [| apply (IH _ _ Hrows)].
      intros H Ht. apply (IH _ _ Hrows H). apply Forall_app. split; [exact Ht |].
      constructor; [| constructor]. unfold pushed. split; [exact Eb |].
      split.
      * exists row. split; [exact Hrow |].
        destruct (String.eqb_spec tagKey ""); [contradiction | reflexivity].
      * intros E. contradiction.
Qed.

(** X18. The tags [_fetchTags] of the Azure client returns are sorted by
    their text; each is a truthy first member of a fetched row when keys are
    asked for (the tag key is empty) and a truthy second member otherwise;
    and no key that is returned starts with "hidden-". *)
Theorem azure_fetched_tags :
  forall (moment : jsval -> option Z) (J : Type) (JSON_parse : string -> result J)
         (properties : J -> option AzureFetch.Properties)
         (sendRequest : string -> QueryDefinition.t -> nat -> Azure.Response)
         (fuel : nat) (subscriptionId : string) (query : TagsQuery.t) (tagKey : string)
         (run : Azure.Run (list jsval)) (tags : list jsval),
    AzureFetch._fetchTags moment J JSON_parse properties sendRequest fuel subscriptionId
      query tagKey = Some run ->
    Azure.outcome run = Ok tags ->
    Sorted (byText ToString) tags
    /\ exists pages allResults,
         AzureFetch.allPages J JSON_parse properties sendRequest fuel
           (AzureFetch.queryUrl subscriptionId "2021-10-01")
           (AzureFetch.tagsQuery moment query tagKey) = Some pages
         /\ Azure.outcome pages = Ok allResults
         /\ Azure.requests run = Azure.requests pages
         /\ Forall (pushed tagKey allResults) tags.
Proof.
  intros moment J JSON_parse properties sendRequest fuel subscriptionId query tagKey run tags.
  unfold AzureFetch._fetchTags.
  destruct (AzureFetch.allPages _ _ _ _ _ _ _) as [pages |]; [| discriminate].
  simpl. intros [= <-]. simpl.
  destruct (Azure.outcome pages) as [allResults | e] eqn:Eo; [| discriminate]. simpl.
  unfold AzureFetch.collectTags.
  destruct (foldM (AzureFetch.pushTag tagKey) allResults []) as [pushedTags |] eqn:E;
    [| discriminate].
  simpl. intros [= <-]. split; [apply sort_Sorted |].
  exists pages, allResults. split; [reflexivity |]. split; [exact Eo |].
  split; [reflexivity |]. apply sort_Forall.
  apply (pushTag_pushed tagKey allResults allResults [] pushedTags (incl_refl _) E).
  constructor.
Qed.

Lemma azure_fetched_tags_witness :
  Sorted (byText ToString) [JStr "env"; JStr "team"]
  /\ exists pages allResults,
       AzureFetch.allPages AzureFetch.Properties PagedAzure.JSON_parse PagedAzure.properties
         PagedAzure.sendRequest 1 PagedAzure.tagsUrl
         (AzureFetch.tagsQuery (Env.moment April.now) Paged.tagsQuery "") = Some pages
       /\ Azure.outcome pages = Ok allResults
       /\ 1%nat = Azure.requests pages
       /\ Forall (pushed "" allResults) [JStr "env"; JStr "team"].
Proof.
  exact (azure_fetched_tags (Env.moment April.now) AzureFetch.Properties PagedAzure.JSON_parse
           PagedAzure.properties PagedAzure.sendRequest 1 "sub-1" Paged.tagsQuery ""
           {| Azure.outcome := Ok [JStr "env"; JStr "team"]; Azure.sleeps := [];
              Azure.requests := 1 |}
           [JStr "env"; JStr "team"] eq_refl eq_refl).
Defined.

(** ** Categories and costs *)

(** X19. For the AWS and the Azure client the categories decide nothing but
    the [category] of a report: with another category function, other
    mappings or another provider name, the transform groups the rows under
    the same keys, in the same order, and records the same cost for every
    key and period. *)
Theorem categories_do_not_move_costs :
  forall (moment : jsval -> option Z)
         (getCat1 getCat2 : jsval -> dict string -> string)
         (azureProvider1 azureProvider2 awsProvider1 awsProvider2 : string)
         (cfg : Config) (query : CostQuery)
         (mappings1 mappings2 : dict string)
         (azureRows : list (list jsval)) (awsRows : list Aws.ResultByTime)
         (azure1 azure2 aws1 aws2 : dict Report),
    Azure.transformedData moment getCat1 azureProvider1 cfg query mappings1 azureRows = Ok azure1 ->
    Azure.transformedData moment getCat2 azureProvider2 cfg query mappings2 azureRows = Ok azure2 ->
    Aws.transformedData getCat1 awsProvider1 cfg query mappings1 awsRows = Ok aws1 ->
    Aws.transformedData getCat2 awsProvider2 cfg query mappings2 awsRows = Ok aws2 ->
    Dict.keys azure1 = Dict.keys azure2
    /\ (forall k p, bucket azure1 k p = bucket azure2 k p)
    /\ Dict.keys aws1 = Dict.keys aws2
    /\ (forall k p, bucket aws1 k p = bucket aws2 k p).
Proof.
  intros moment getCat1 getCat2 azureProvider1 azureProvider2 awsProvider1 awsProvider2 cfg
    query mappings1 mappings2 azureRows
    awsRows azure1 azure2 aws1 aws2 HZ1 HZ2 HA1 HA2.
  destruct (tagKeyValues cfg) as [tkv | e] eqn:Et.
  - destruct (azure_transform_keys _ _ _ _ _ _ _ _ _ Et HZ1) as [KZ1 _].
    destruct (azure_transform_keys _ _ _ _ _ _ _ _ _ Et HZ2) as [KZ2 _].
    destruct (aws_transform_keys _ _ _ _ _ _ _ _ Et HA1) as [KA1 _].
    destruct (aws_transform_keys _ _ _ _ _ _ _ _ Et HA2) as [KA2 _].
    split; [congruence |]. split.
    + intros k p. rewrite (azure_transform_replay _ _ _ _ _ _ _ _ HZ1 k p).
      now rewrite (azure_transform_replay _ _ _ _ _ _ _ _ HZ2 k p).
    + split; [congruence |]. intros k p.
      rewrite (aws_transform_replay _ _ _ _ _ _ _ HA1 k p).
      now rewrite (aws_transform_replay _ _ _ _ _ _ _ HA2 k p).
  - unfold Aws.transformedData in HA1. rewrite Et in HA1. discriminate.
Qed.

Lemma categories_do_not_move_costs_witness :
  let storage := [("Amazon Simple Storage Service", "Storage"); ("Azure App Service", "Web")] in
  let azure2 :=
    April.output (Azure.transformedData (Env.moment April.now) Env.getCategoryByServiceName
                    "azure" April.prod April.query storage April.azureRows) in
  let aws2 :=
    April.output (Aws.transformedData Env.getCategoryByServiceName "aws" April.prod
                    April.query storage April.awsRows) in
  Dict.keys April.azureData = Dict.keys azure2
  /\ (forall k p, bucket April.azureData k p = bucket azure2 k p)
  /\ Dict.keys April.awsData = Dict.keys aws2
  /\ (forall k p, bucket April.awsData k p = bucket aws2 k p).
Proof.
  exact (categories_do_not_move_costs (Env.moment April.now) Env.getCategoryByServiceName
           Env.getCategoryByServiceName "Azure" "azure" Env.AWS "aws" April.prod April.query
           Dict.empty
           [("Amazon Simple Storage Service", "Storage"); ("Azure App Service", "Web")]
           April.azureRows April.awsRows April.azureData
           (April.output
              (Azure.transformedData (Env.moment April.now) Env.getCategoryByServiceName
                 "azure" April.prod April.query
                 [("Amazon Simple Storage Service", "Storage"); ("Azure App Service", "Web")]
                 April.azureRows))
           April.awsData
           (April.output
              (Aws.transformedData Env.getCategoryByServiceName "aws" April.prod April.query
                 [("Amazon Simple Storage Service", "Storage"); ("Azure App Service", "Web")]
                 April.awsRows))
           eq_refl eq_refl eq_refl eq_refl).
Defined.

(** ** Rows that come later *)

Lemma fold_addKey_extends (l : list string) :
  forall keys, exists more, fold_left addKey l keys = (keys ++ more)%list.
Proof.
  induction l as [| k l IH]; intros keys; simpl.
  - exists []. now rewrite app_nil_r.
  - destruct (IH (addKey keys k)) as [more ->]. unfold addKey.
    destruct (_ || _)%bool; [now exists more |].
    exists (k :: more). now rewrite <- app_assoc.
Qed.

Lemma distinct_app (l1 l2 : list string) :
  exists more, distinct (l1 ++ l2) = (distinct l1 ++ more)%list.
Proof. unfold distinct. rewrite fold_left_app. apply fold_addKey_extends. Qed.

Lemma replay_untouched (k p : string) (es : list entry) :
  (forall e, In e es -> touches k p e = false) ->
  forall old, replay k p es old = old.
Proof.
  unfold replay. induction es as [| e es IH]; intros H old; [reflexivity |].
  simpl. rewrite (H e (or_introl eq_refl)). apply IH. intros e' He'. apply H. now right.
Qed.

(** X20. Rows that are appended to a response, as further pages are,
    change nothing of what the AWS and the Azure transform made of the rows
    before them, except where they write: the reports of the earlier rows
    stay first and in their order, and a cost that no later row assigns
    stays as it was. *)
Theorem later_rows_keep_earlier_reports :
  forall (moment : jsval -> option Z) (getCat : jsval -> dict string -> string)
         (providerAws providerAzure : string) (cfg : Config) (query : CostQuery)
         (mappings : dict string)
         (azureRows moreAzureRows : list (list jsval))
         (awsRows moreAwsRows : list Aws.ResultByTime)
         (azure azureAll aws awsAll : dict Report),
    Azure.transformedData moment getCat providerAzure cfg query mappings azureRows
    = Ok azure ->
    Azure.transformedData moment getCat providerAzure cfg query mappings
      (azureRows ++ moreAzureRows) = Ok azureAll ->
    Aws.transformedData getCat providerAws cfg query mappings awsRows = Ok aws ->
    Aws.transformedData getCat providerAws cfg query mappings (awsRows ++ moreAwsRows)
    = Ok awsAll ->
    (exists more, Dict.keys azureAll = (Dict.keys azure ++ more)%list)
    /\ (forall k p,
          (forall e, In e (flat_map (AzureRows.entries moment cfg query) moreAzureRows) ->
                     touches k p e = false) ->
          bucket azureAll k p = bucket azure k p)
    /\ (exists more, Dict.keys awsAll = (Dict.keys aws ++ more)%list)
    /\ (forall k p,
          (forall e, In e (flat_map (AwsRows.entries cfg query) moreAwsRows) ->
                     touches k p e = false) ->
          bucket awsAll k p = bucket aws k p).
Proof.
  intros moment getCat providerAws providerAzure cfg query mappings azureRows moreAzureRows
    awsRows moreAwsRows azure azureAll aws awsAll HZ HZa HA HAa.
  destruct (tagKeyValues cfg) as [tkv | e] eqn:Et;
    [| unfold Aws.transformedData in HA; rewrite Et in HA; discriminate].
  destruct (azure_transform_keys _ _ _ _ _ _ _ _ _ Et HZ) as [KZ _].
  destruct (azure_transform_keys _ _ _ _ _ _ _ _ _ Et HZa) as [KZa _].
  destruct (aws_transform_keys _ _ _ _ _ _ _ _ Et HA) as [KA _].
  destruct (aws_transform_keys _ _ _ _ _ _ _ _ Et HAa) as [KAa _].
  split; [| split; [| split]].
  - rewrite KZ, KZa, map_app. apply distinct_app.
  - intros k p H. rewrite (azure_transform_replay _ _ _ _ _ _ _ _ HZa k p).
    rewrite (azure_transform_replay _ _ _ _ _ _ _ _ HZ k p).
    rewrite flat_map_app, replay_app. now apply replay_untouched.
  - rewrite KA, KAa, flat_map_app. apply distinct_app.
  - intros k p H. rewrite (aws_transform_replay _ _ _ _ _ _ _ HAa k p).
    rewrite (aws_transform_replay _ _ _ _ _ _ _ HA k p).
    rewrite flat_map_app, replay_app. now apply replay_untouched.
Qed.

Lemma later_rows_keep_earlier_reports_witness :
  let azureRows := [nth 0 April.azureRows []] in
  let moreAzureRows := [nth 1 April.azureRows []] in
  let awsRows := [April.awsRow "2024-04-05" "10"] in
  let moreAwsRows := [April.awsRow "2024-04-28" "5"] in
  let azure :=
    April.output (Azure.transformedData (Env.moment April.now) Env.getCategoryByServiceName
                    "Azure" April.prod April.query Dict.empty azureRows) in
  let aws :=
    April.output (Aws.transformedData Env.getCategoryByServiceName Env.AWS April.prod
                    April.query Dict.empty awsRows) in
  (exists more, Dict.keys April.azureData = (Dict.keys azure ++ more)%list)
  /\ (forall k p,
        (forall e, In e (flat_map (AzureRows.entries (Env.moment April.now) April.prod
                                     April.query) moreAzureRows) ->
                   touches k p e = false) ->
        bucket April.azureData k p = bucket azure k p)
  /\ (exists more, Dict.keys April.awsData = (Dict.keys aws ++ more)%list)
  /\ (forall k p,
        (forall e, In e (flat_map (AwsRows.entries April.prod April.query) moreAwsRows) ->
                   touches k p e = false) ->
        bucket April.awsData k p = bucket aws k p).
Proof.
  exact (later_rows_keep_earlier_reports (Env.moment April.now) Env.getCategoryByServiceName
           Env.AWS "Azure" April.prod April.query Dict.empty
           [nth 0 April.azureRows []] [nth 1 April.azureRows []]
           [April.awsRow "2024-04-05" "10"] [April.awsRow "2024-04-28" "5"]
           (April.output
              (Azure.transformedData (Env.moment April.now) Env.getCategoryByServiceName
                 "Azure" April.prod April.query Dict.empty [nth 0 April.azureRows []]))
           April.azureData
           (April.output
              (Aws.transformedData Env.getCategoryByServiceName Env.AWS April.prod
                 April.query Dict.empty [April.awsRow "2024-04-05" "10"]))
           April.awsData eq_refl eq_refl eq_refl eq_refl).
Defined.
